(** * Voucher server: a shallow embedding of [src/server.js]

    The server keeps voucher records in a MongoDB collection and mirrors
    every voucher into a Google Sheets row and a PDF stored on Google Drive.
    This development embeds the request handlers of [server.js] as
    state-passing functions and proves properties of the voucher life cycle
    (numbering, provisioning, submit, edit, delete, list).

    Modelling conventions.
    - The record store (the [Voucher] collection) is a list of records in
      natural (insertion) order; [findOne] returns the first match.
    - Calls to Google (identity provider, Sheets, Drive) and to the local
      file system are recorded, in the order they are issued, in a call log;
      what each call answers is read from an [Env] record, one field per
      call site of a handler.  A failing call throws the message it carries.
    - A JavaScript number is a double; the model carries the integers
      among the doubles as [Z] and rounds the one sum the program computes
      as the double sum is rounded, so that beyond 2^53 adding 1 may change
      nothing.  The conversion of a string to a number (JavaScript
      [Number(s)]) and the cast of a string to a record id (an ObjectId)
      belong to the runtime and the database driver and are parameters of
      the development.
    - PDF layout constants (coordinates, font sizes, widths) are left out:
      a rendered document is the list of the texts drawn on it. *)

From Stdlib Require Import ZArith List Ascii String Bool Lia Permutation Sorted.
Import ListNotations.

Local Open Scope string_scope.
Local Open Scope Z_scope.

(** ** JavaScript values *)

(** The values that reach the numbered positions of the program: a request
    field or a sheet cell is absent, a number or a string.  A number is an
    integer that a double holds: numbers with a fraction, NaN and the
    infinities do not occur as voucher numbers of the model. *)
Inductive jsval : Type :=
| JUndefined
| JNumber (n : Z)
| JString (s : string).

(** Truthiness, as used by [||], [if] and [!]. *)
Definition truthy (v : jsval) : bool :=
  match v with
  | JUndefined => false
  | JNumber n => negb (n =? 0)
  | JString s => negb (String.eqb s "")
  end.

(** [a || b] *)
Definition jsOr (a b : jsval) : jsval := if truthy a then a else b.

(** A text field that may be absent, as a value. *)
Definition ofText (o : option string) : jsval :=
  match o with
  | Some s => JString s
  | None => JUndefined
  end.

(** [value || ""] on a text field. *)
Definition orEmpty (o : option string) : string :=
  match o with
  | Some s => s
  | None => ""
  end.

(** Truthiness of a text field. *)
Definition textTruthy (o : option string) : bool := truthy (ofText o).

(** ** Sums of numbers *)

Definition twoTo53 : Z := 9007199254740992.

(** The double nearest to an integer, ties going to the even mantissa.
    The integers up to 2^53 in absolute value are doubles; beyond, a double
    keeps 53 leading bits. *)
Definition roundToDouble (x : Z) : Z :=
  if Z.abs x <=? twoTo53 then x
  else
    let e := Z.log2 (Z.abs x) - 52 in
    let step := 2 ^ e in
    let q := Z.abs x / step in
    let r := Z.abs x mod step in
    let q' :=
      if (step <? 2 * r) || ((step =? 2 * r) && Z.odd q) then q + 1 else q in
    Z.sgn x * (q' * step).

(** [n + 1] on a number that is an integer. *)
Definition plusOne (n : Z) : Z := roundToDouble (n + 1).

(** ** The data model *)

(** [voucherSchema]: one document of the collection, with its [_id]. *)
Record Voucher : Type := mkVoucher {
  _id : string;
  email : string;
  company : string;
  voucherNo : Z;
  date : option string;
  payTo : option string;
  accountHead : option string;
  account : option string;
  transactionType : option string;
  amount : option string;
  amountRs : option string;
  checkedBy : option string;
  approvedBy : option string;
  receiverSignature : option string;
  pdfLink : option string;
  spreadsheetId : string;
  folderId : string;
  pdfFileId : option string
}.

(** The identity the provider returns and the session caches. *)
Record User : Type := mkUser {
  user_email : string;
  user_name : string;
  user_picture : string
}.

(** [req.body] of submit and edit. *)
Module VoucherData.
Record t : Type := mk {
  filter : option string;
  voucherNo : jsval;
  date : option string;
  payTo : option string;
  accountHead : option string;
  account : option string;
  transactionType : option string;
  amount : option string;
  amountRs : option string;
  checkedBy : option string;
  approvedBy : option string;
  receiverSignature : option string
}.
End VoucherData.

(** What a handler reads of a request besides its body and parameters:
    the session looked up from the cookie and the Authorization header. *)
Record Credentials : Type := mkCredentials {
  session_user : option User;
  authorization : option string
}.

(** [headerValues] *)
Definition headerValues : list string :=
  [ "Voucher No."; "Date"; "Filter"; "Pay to"; "Account Head"; "Towards";
    "Transaction Type"; "The Sum"; "Amount Rs."; "Checked By"; "Approved By";
    "Receiver Signature"; "PDF Link" ].

(** The registry of [["Contentstack", "Surfboard", "RawEngineering"]]. *)
Definition registry : list string :=
  [ "Contentstack"; "Surfboard"; "RawEngineering" ].

(** [registry.includes(filter)]; an absent filter is not included. *)
Definition validFilter (f : option string) : bool :=
  match f with
  | Some s => existsb (String.eqb s) registry
  | None => false
  end.

(** ** Ranges, rendered documents and external calls *)

(** The four range shapes the handlers build, for a sheet title. *)
Inductive Range : Type :=
| HeaderRange (sheet : string)           (* `${sheet}!A1:O1` *)
| SheetRange (sheet : string)            (* `${sheet}!A:O` *)
| DataRange (sheet : string)             (* `${sheet}!A2:O` *)
| RowRange (sheet : string) (row : Z).   (* `${sheet}!A${row}:O${row}` *)

(** `${filterOption}_${voucherNo}.pdf` *)
Record PdfName : Type := mkPdfName {
  pdf_prefix : string;
  pdf_number : jsval
}.

(** The texts drawn on a voucher page. *)
Record PdfDoc : Type := mkPdfDoc {
  doc_date : option string;
  doc_voucherNo : jsval;
  doc_logo : option string;
  doc_lines : list (string * string);
  doc_signatures : list (string * string)
}.

Inductive Call : Type :=
| UserinfoGet (header : string)
| SessionSet (u : User)
| SpreadsheetsCreate (title sheetTitle : string)
| ValuesUpdate (spreadsheet : string) (range : Range) (row : list jsval)
| ValuesAppend (spreadsheet : string) (range : Range) (row : list jsval)
| ValuesGet (spreadsheet : string) (range : Range)
| ValuesClear (spreadsheet : string) (range : Range)
| FolderCreate (name : string)
| FilesCreate (name : PdfName) (parent : string) (content : PdfDoc)
| FilesDelete (fileId : string)
| WriteFile (path : PdfName) (content : PdfDoc)
| UnlinkFile (path : PdfName).

(** ** Results, the world and the handler monad *)

Inductive result (A : Type) : Type :=
| Ok (a : A)
| Throw (message : string).
Arguments Ok {A} a.
Arguments Throw {A} message.

(** What the outside answers during one request, one field per call site. *)
Record Env : Type := mkEnv {
  userinfo : result User;                        (* oauth2 userinfo.get *)
  spreadsheetCreated : result string;            (* spreadsheets.create *)
  headerWritten : result unit;                   (* values.update of A1:O1 *)
  folderCreated : result string;                 (* files.create of a folder *)
  pdfWritten : result unit;                      (* the stream finishes or errors *)
  fileDeleted : result unit;                     (* files.delete *)
  fileUploaded : result (string * option string);  (* files.create: id, webViewLink *)
  rowAppended : result unit;                     (* values.append *)
  rowsRead : result (option (list (list jsval))); (* values.get: data.values *)
  rowUpdated : result unit;                      (* values.update of a row *)
  rowCleared : result unit;                      (* values.clear *)
  fileUnlinked : result unit;                    (* fs.unlinkSync *)
  objectId : string                              (* the _id of a new document *)
}.

Record World : Type := mkWorld {
  db : list Voucher;
  calls : list Call
}.

(** A computation reads and changes the world and returns or throws; what
    it did before throwing stays done. *)
Definition M (A : Type) : Type := World -> result A * World.

Definition ret {A} (a : A) : M A := fun w => (Ok a, w).

Definition throw {A} (message : string) : M A := fun w => (Throw message, w).

Definition bind {A B} (m : M A) (k : A -> M B) : M B :=
  fun w =>
    match m w with
    | (Ok a, w') => k a w'
    | (Throw e, w') => (Throw e, w')
    end.

Notation "x <- m ;; k" := (bind m (fun x => k))
  (at level 61, m at next level, right associativity).
Notation "m ;;; k" := (bind m (fun _ => k))
  (at level 61, right associativity).

(** Issue an external call: it is logged, then answers. *)
Definition call {A} (c : Call) (answer : result A) : M A :=
  fun w => (answer, mkWorld (db w) (calls w ++ [c])).

Definition getDb : M (list Voucher) := fun w => (Ok (db w), w).

Definition putDb (d : list Voucher) : M unit :=
  fun w => (Ok tt, mkWorld d (calls w)).

(** What a handler sends back, if anything. *)
Inductive Body : Type :=
| ErrorBody (error : string)
| MessageBody (message : string)
| SheetBody (message sheetURL pdfFileId : string)
| VoucherNoBody (voucherNo : Z)
| VouchersBody (vouchers : list Voucher).

Inductive Reply : Type :=
| Sent (status : Z) (body : Body)
| NoReply.

(** [try { body } catch (error) { onError(error.message) }] *)
Definition tryCatch (body : M Reply) (onError : string -> Reply)
  : World -> Reply * World :=
  fun w =>
    match body w with
    | (Ok r, w') => (r, w')
    | (Throw e, w') => (onError e, w')
    end.

(** ** The record store *)

(** [Voucher.findOne(q)] *)
Definition findOne (q : Voucher -> bool) (d : list Voucher) : option Voucher :=
  find q d.

Fixpoint insertBy {A} (le : A -> A -> bool) (x : A) (l : list A) : list A :=
  match l with
  | [] => [x]
  | y :: l' => if le x y then x :: l else y :: insertBy le x l'
  end.

(** [.sort(...)]: a stable sort by the given order. *)
Fixpoint sortBy {A} (le : A -> A -> bool) (l : list A) : list A :=
  match l with
  | [] => []
  | x :: l' => insertBy le x (sortBy le l')
  end.

(** [Voucher.findOne(q).sort(order)] *)
Definition findOneSorted (q : Voucher -> bool) (le : Voucher -> Voucher -> bool)
    (d : list Voucher) : option Voucher :=
  hd_error (sortBy le (List.filter q d)).

(** [Voucher.deleteOne(q)] *)
Fixpoint deleteOne (q : Voucher -> bool) (d : list Voucher) : list Voucher :=
  match d with
  | [] => []
  | v :: d' => if q v then d' else v :: deleteOne q d'
  end.

(** [Voucher.updateOne(q, update)] *)
Fixpoint updateOne (q : Voucher -> bool) (f : Voucher -> Voucher)
    (d : list Voucher) : list Voucher :=
  match d with
  | [] => []
  | v :: d' => if q v then f v :: d' else v :: updateOne q f d'
  end.

(** The queries of the handlers. *)
Definition byEmailCompany (e c : string) (v : Voucher) : bool :=
  String.eqb (email v) e && String.eqb (company v) c.

Definition byIdEmail (i e : string) (v : Voucher) : bool :=
  String.eqb (_id v) i && String.eqb (email v) e.

Definition byNumberEmail (n : Z) (e : string) (v : Voucher) : bool :=
  (voucherNo v =? n) && String.eqb (email v) e.

(** [{ voucherNo: -1 }] and [{ voucherNo: 1 }] *)
Definition numberDescending (a b : Voucher) : bool := voucherNo b <=? voucherNo a.
Definition numberAscending (a b : Voucher) : bool := voucherNo a <=? voucherNo b.

(** Order of an optional text field: an absent value sorts first. *)
Definition textLeb (a b : option string) : bool :=
  match a, b with
  | None, _ => true
  | Some _, None => false
  | Some x, Some y => String.leb x y
  end.

(** [{ amount: 1 }] and [{ amount: -1 }] *)
Definition amountAscending (a b : Voucher) : bool := textLeb (amount a) (amount b).
Definition amountDescending (a b : Voucher) : bool := textLeb (amount b) (amount a).

(** ** Instances of the conversions, for the examples

    [decimalNumber] stands in for [Number(s)]: it is right on the decimal
    integer numerals, with an optional minus sign, which convert to the
    nearest double, and on the empty string, which converts to 0.  On any
    other string it answers NaN, where JavaScript may answer a number
    ("1.5", "1e2", " 1", "0x10"); the examples apply it to decimal integer
    numerals only. *)

Definition digitValue (c : Ascii.ascii) : option Z :=
  let n := Z.of_nat (Ascii.nat_of_ascii c) in
  if (48 <=? n) && (n <=? 57) then Some (n - 48) else None.

Fixpoint digitsValue (acc : Z) (s : string) : option Z :=
  match s with
  | EmptyString => Some acc
  | String c s' =>
      match digitValue c with
      | Some d => digitsValue (10 * acc + d) s'
      | None => None
      end
  end.

Definition decimalNumber (s : string) : option Z :=
  option_map roundToDouble
    match s with
    | EmptyString => Some 0
    | String "-"%char EmptyString => None
    | String "-"%char s' => option_map Z.opp (digitsValue 0 s')
    | _ => digitsValue 0 s
    end.

(** [hexObjectId] stands in for the cast of a string to an ObjectId: a
    string of 24 hexadecimal digits is the id it writes, in lower case, and
    any other string fails to cast.  The driver may accept further forms (a
    string of 12 characters); the examples apply it to strings of 24
    hexadecimal digits and to one string that is neither. *)

Definition lowerHexDigit (c : Ascii.ascii) : option Ascii.ascii :=
  let n := Ascii.nat_of_ascii c in
  if ((48 <=? n) && (n <=? 57))%nat then Some c
  else if ((97 <=? n) && (n <=? 102))%nat then Some c
  else if ((65 <=? n) && (n <=? 70))%nat then Some (Ascii.ascii_of_nat (n + 32))
  else None.

Fixpoint lowerHex (s : string) : option string :=
  match s with
  | EmptyString => Some EmptyString
  | String c s' =>
      match lowerHexDigit c, lowerHex s' with
      | Some c', Some t => Some (String c' t)
      | _, _ => None
      end
  end.

Definition hexObjectId (s : string) : option string :=
  if (String.length s =? 24)%nat then lowerHex s else None.

(** ** The server *)

Section Server.

(** JavaScript [Number(s)] on a string; [None] stands for NaN. *)
Variable ToNumber : string -> option Z.

(** The cast of a string to an ObjectId, as the query of a record by [_id]
    applies it: the id the string denotes, or [None] when the cast fails. *)
Variable ToObjectId : string -> option string.

(** [cell == n] against a number [n]: a string cell is converted first, an
    absent cell equals no number. *)
Definition looseEqNumber (cell : jsval) (n : Z) : bool :=
  match cell with
  | JUndefined => false
  | JNumber m => m =? n
  | JString s =>
      match ToNumber s with
      | Some m => m =? n
      | None => false
      end
  end.

(** [row[0]] *)
Definition firstCell (row : list jsval) : jsval := nth 0%nat row JUndefined.

(** [rows.findIndex(p)]; [None] stands for -1. *)
Fixpoint findIndex {A} (p : A -> bool) (l : list A) : option nat :=
  match l with
  | [] => None
  | x :: l' =>
      if p x then Some 0%nat
      else match findIndex p l' with
           | Some i => Some (S i)
           | None => None
           end
  end.

(** [rows.findIndex((row) => row[0] == voucherNo)] *)
Definition locateRow (rows : list (list jsval)) (voucherNo : Z) : option nat :=
  findIndex (fun row => looseEqNumber (firstCell row) voucherNo) rows.

(** [sheetData.data.values || []] *)
Definition valuesOrEmpty (v : option (list (list jsval))) : list (list jsval) :=
  match v with
  | Some rows => rows
  | None => []
  end.

(** The schema's cast of the [voucherNo] path to a Number. *)
Definition castNumber (v : jsval) : option Z :=
  match v with
  | JUndefined => None
  | JNumber n => Some n
  | JString s => if String.eqb s "" then None else ToNumber s
  end.

(** *** Identity *)

Record Identity : Type := mkIdentity {
  user : User;
  auth : option string
}.

Definition authenticateGoogle (req : Credentials) (env : Env) : M Identity :=
  match session_user req with
  | Some u => ret (mkIdentity u None)
  | None =>
      if negb (textTruthy (authorization req))
      then throw "No authorization token provided"
      else
        u <- call (UserinfoGet (orEmpty (authorization req))) (userinfo env) ;;
        call (SessionSet u) (Ok tt) ;;;
        ret (mkIdentity u (authorization req))
  end.

(** *** Provisioning and numbering *)

Definition createSpreadsheet (companyName : string) (env : Env) : M string :=
  spreadsheetId <-
    call (SpreadsheetsCreate (companyName ++ " Vouchers") companyName)
         (spreadsheetCreated env) ;;
  call (ValuesUpdate spreadsheetId (HeaderRange companyName)
          (map JString headerValues))
       (headerWritten env) ;;;
  ret spreadsheetId.

Definition createDriveFolder (companyName : string) (env : Env) : M string :=
  call (FolderCreate (companyName ++ " Vouchers")) (folderCreated env).

Record Resources : Type := mkResources {
  res_spreadsheetId : string;
  res_folderId : string;
  voucherNumber : Z
}.

Definition getUserResources (email companyName : string) (env : Env)
  : M Resources :=
  d <- getDb ;;
  ids <- match findOne (byEmailCompany email companyName) d with
         | Some existingVoucher =>
             ret (spreadsheetId existingVoucher, folderId existingVoucher)
         | None =>
             spreadsheetId <- createSpreadsheet companyName env ;;
             folderId <- createDriveFolder companyName env ;;
             ret (spreadsheetId, folderId)
         end ;;
  d' <- getDb ;;
  let voucherNumber :=
    match findOneSorted (byEmailCompany email companyName) numberDescending d' with
    | Some highestVoucher => plusOne (voucherNo highestVoucher)
    | None => 1
    end in
  ret (mkResources (fst ids) (snd ids) voucherNumber).

(** *** Rendering *)

(** The texts the submit and edit handlers draw, in drawing order; the logo
    is the asset looked up for the filter, drawn when its file exists. *)
Definition renderVoucher (voucherData : VoucherData.t) (voucherNo : jsval)
  : PdfDoc :=
  {| doc_date := VoucherData.date voucherData;
     doc_voucherNo := voucherNo;
     doc_logo := VoucherData.filter voucherData;
     doc_lines :=
       [ ("Pay to:", orEmpty (VoucherData.payTo voucherData));
         ("Account Head:", orEmpty (VoucherData.accountHead voucherData));
         ("Towards:", orEmpty (VoucherData.account voucherData));
         ("Transaction Type:", orEmpty (VoucherData.transactionType voucherData));
         ("Amount Rs.", orEmpty (VoucherData.amount voucherData));
         ("The Sum.", orEmpty (VoucherData.amountRs voucherData)) ];
     doc_signatures :=
       [ ("Checked By", orEmpty (VoucherData.checkedBy voucherData));
         ("Approved By", orEmpty (VoucherData.approvedBy voucherData));
         ("Receiver Signature",
          orEmpty (VoucherData.receiverSignature voucherData)) ] |}.

(** The [values] row of submit and edit. *)
Definition sheetRow (voucherData : VoucherData.t) (voucherNo : jsval)
    (pdfLink : option string) : list jsval :=
  [ voucherNo;
    ofText (VoucherData.date voucherData);
    ofText (VoucherData.filter voucherData);
    ofText (VoucherData.payTo voucherData);
    ofText (VoucherData.accountHead voucherData);
    ofText (VoucherData.account voucherData);
    ofText (VoucherData.transactionType voucherData);
    ofText (VoucherData.amount voucherData);
    ofText (VoucherData.amountRs voucherData);
    ofText (VoucherData.checkedBy voucherData);
    ofText (VoucherData.approvedBy voucherData);
    ofText (VoucherData.receiverSignature voucherData);
    ofText pdfLink ].

Definition sheetURLOf (spreadsheetId : string) : string :=
  "https://docs.google.com/spreadsheets/d/" ++ spreadsheetId ++ "/edit".

(** Run a handler with its own [try]/[catch] inside a computation. *)
Definition settle (h : World -> Reply * World) : M Reply :=
  fun w => let (r, w') := h w in (Ok r, w').

(** *** Submit *)

(** [enum: ["UPI", "Cash", "Account"]] *)
Definition transactionTypes : list string := [ "UPI"; "Cash"; "Account" ].

(** [new Voucher({...})] and the validation [save] runs: the required
    paths are present, the number casts, the transaction type is listed. *)
Definition newVoucher (id email company : string) (voucherNo : jsval)
    (voucherData : VoucherData.t) (pdfLink : option string)
    (spreadsheetId folderId pdfFileId : string) : result Voucher :=
  match castNumber voucherNo with
  | None => Throw "Voucher validation failed"
  | Some n =>
      if String.eqb email "" || String.eqb company "" then
        Throw "Voucher validation failed"
      else
        match VoucherData.transactionType voucherData with
        | None => Throw "Voucher validation failed"
        | Some t =>
            if existsb (String.eqb t) transactionTypes then
              Ok {| _id := id;
                    email := email;
                    company := company;
                    voucherNo := n;
                    date := VoucherData.date voucherData;
                    payTo := VoucherData.payTo voucherData;
                    accountHead := VoucherData.accountHead voucherData;
                    account := VoucherData.account voucherData;
                    transactionType := Some t;
                    amount := VoucherData.amount voucherData;
                    amountRs := VoucherData.amountRs voucherData;
                    checkedBy := VoucherData.checkedBy voucherData;
                    approvedBy := VoucherData.approvedBy voucherData;
                    receiverSignature := VoucherData.receiverSignature voucherData;
                    pdfLink := pdfLink;
                    spreadsheetId := spreadsheetId;
                    folderId := folderId;
                    pdfFileId := Some pdfFileId |}
            else Throw "Voucher validation failed"
        end
  end.

(** [voucher.save()] *)
Definition save (v : result Voucher) : M unit :=
  match v with
  | Ok voucher => d <- getDb ;; putDb (d ++ [voucher])
  | Throw e => throw e
  end.

(** The [finish] callback of submit. *)
Definition submitUpload (who : Identity) (voucherData : VoucherData.t)
    (filterOption : string) (res : Resources) (voucherNo : jsval)
    (env : Env) : World -> Reply * World :=
  tryCatch
    (let pdfFileName := mkPdfName filterOption voucherNo in
     uploaded <-
       call (FilesCreate pdfFileName (res_folderId res)
               (renderVoucher voucherData voucherNo))
            (fileUploaded env) ;;
     let pdfFileId := fst uploaded in
     let pdfLink := snd uploaded in
     call (ValuesAppend (res_spreadsheetId res) (SheetRange filterOption)
             (sheetRow voucherData voucherNo pdfLink))
          (rowAppended env) ;;;
     save (newVoucher (objectId env) (user_email (user who)) filterOption
             voucherNo voucherData pdfLink
             (res_spreadsheetId res) (res_folderId res) pdfFileId) ;;;
     call (UnlinkFile pdfFileName) (fileUnlinked env) ;;;
     ret (Sent 200
            (SheetBody "Data submitted successfully and PDF uploaded!"
               (sheetURLOf (res_spreadsheetId res)) pdfFileId)))
    (fun e =>
       Sent 500 (ErrorBody ("Failed to upload PDF or append to sheet: " ++ e))).

(** [app.post("/submit")] *)
Definition submit (req : Credentials) (voucherData : VoucherData.t)
    (env : Env) : World -> Reply * World :=
  tryCatch
    (if negb (validFilter (VoucherData.filter voucherData)) then
       ret (Sent 400 (ErrorBody "Invalid filter option"))
     else
       let filterOption := orEmpty (VoucherData.filter voucherData) in
       who <- authenticateGoogle req env ;;
       res <- getUserResources (user_email (user who)) filterOption env ;;
       let voucherNo :=
         jsOr (VoucherData.voucherNo voucherData) (JNumber (voucherNumber res)) in
       if negb (truthy voucherNo) then throw "Voucher number is required"
       else
         call (WriteFile (mkPdfName filterOption voucherNo)
                 (renderVoucher voucherData voucherNo)) (Ok tt) ;;;
         match pdfWritten env with
         | Ok _ => settle (submitUpload who voucherData filterOption res voucherNo env)
         | Throw e => ret (Sent 500 (ErrorBody ("Failed to create PDF: " ++ e)))
         end)
    (fun e => Sent 500 (ErrorBody ("Failed to submit data: " ++ e))).

(** *** Edit *)

(** A key whose new value is undefined is left out of the update. *)
Definition setText (new old : option string) : option string :=
  match new with
  | Some s => Some s
  | None => old
  end.

(** The update document of [Voucher.updateOne] in edit. *)
Definition applyEdit (voucherData : VoucherData.t) (newLink : option string)
    (newFileId : string) (v : Voucher) : Voucher :=
  {| _id := _id v;
     email := email v;
     company := company v;
     voucherNo := voucherNo v;
     date := setText (VoucherData.date voucherData) (date v);
     payTo := setText (VoucherData.payTo voucherData) (payTo v);
     accountHead := setText (VoucherData.accountHead voucherData) (accountHead v);
     account := setText (VoucherData.account voucherData) (account v);
     transactionType :=
       setText (VoucherData.transactionType voucherData) (transactionType v);
     amount := setText (VoucherData.amount voucherData) (amount v);
     amountRs := setText (VoucherData.amountRs voucherData) (amountRs v);
     checkedBy := setText (VoucherData.checkedBy voucherData) (checkedBy v);
     approvedBy := setText (VoucherData.approvedBy voucherData) (approvedBy v);
     receiverSignature :=
       setText (VoucherData.receiverSignature voucherData) (receiverSignature v);
     pdfLink := setText newLink (pdfLink v);
     spreadsheetId := spreadsheetId v;
     folderId := folderId v;
     pdfFileId := Some newFileId |}.

(** [if (pdfFileId) await drive.files.delete({ fileId: pdfFileId })] *)
Definition deleteOldPdf (existingVoucher : Voucher) (env : Env) : M unit :=
  if textTruthy (pdfFileId existingVoucher)
  then call (FilesDelete (orEmpty (pdfFileId existingVoucher))) (fileDeleted env)
  else ret tt.

(** The [finish] callback of edit; [recordId] is the id the [voucherId] of
    the request casts to. *)
Definition editUpload (who : Identity) (recordId : string)
    (voucherData : VoucherData.t) (filterOption : string)
    (existingVoucher : Voucher) (env : Env) : World -> Reply * World :=
  tryCatch
    (let voucherNo := voucherNo existingVoucher in
     let sheetTitle := filterOption in
     let pdfFileName := mkPdfName filterOption (JNumber voucherNo) in
     deleteOldPdf existingVoucher env ;;;
     uploaded <-
       call (FilesCreate pdfFileName (folderId existingVoucher)
               (renderVoucher voucherData (JNumber voucherNo)))
            (fileUploaded env) ;;
     let pdfFileId := fst uploaded in
     let pdfLink := snd uploaded in
     sheetData <-
       call (ValuesGet (spreadsheetId existingVoucher) (DataRange sheetTitle))
            (rowsRead env) ;;
     match locateRow (valuesOrEmpty sheetData) voucherNo with
     | None => throw "Voucher not found in sheet"
     | Some rowIndex =>
         call (ValuesUpdate (spreadsheetId existingVoucher)
                 (RowRange sheetTitle (Z.of_nat rowIndex + 2))
                 (sheetRow voucherData (JNumber voucherNo) pdfLink))
              (rowUpdated env) ;;;
         d <- getDb ;;
         putDb (updateOne (byIdEmail recordId (user_email (user who)))
                  (applyEdit voucherData pdfLink pdfFileId) d) ;;;
         call (UnlinkFile pdfFileName) (fileUnlinked env) ;;;
         ret (Sent 200
                (SheetBody "Voucher updated successfully!"
                   (sheetURLOf (spreadsheetId existingVoucher)) pdfFileId))
     end)
    (fun e => Sent 500 (ErrorBody ("Failed to update voucher: " ++ e))).

(** [app.put("/edit-voucher/:id")].  The query by [_id] casts the string of
    the request to an id and fails when it does not cast.  Only the [finish]
    event of the stream has a listener: when the stream errors nothing is
    sent. *)
Definition editVoucher (req : Credentials) (voucherId : string)
    (voucherData : VoucherData.t) (env : Env) : World -> Reply * World :=
  tryCatch
    (if negb (validFilter (VoucherData.filter voucherData)) then
       ret (Sent 400 (ErrorBody "Invalid filter option"))
     else
       let filterOption := orEmpty (VoucherData.filter voucherData) in
       who <- authenticateGoogle req env ;;
       match ToObjectId voucherId with
       | None => throw "Cast to ObjectId failed"
       | Some recordId =>
           d <- getDb ;;
           match findOne (byIdEmail recordId (user_email (user who))) d with
           | None => ret (Sent 404 (ErrorBody "Voucher not found"))
           | Some existingVoucher =>
               let voucherNo := JNumber (voucherNo existingVoucher) in
               call (WriteFile (mkPdfName filterOption voucherNo)
                       (renderVoucher voucherData voucherNo)) (Ok tt) ;;;
               match pdfWritten env with
               | Ok _ =>
                   settle (editUpload who recordId voucherData filterOption
                             existingVoucher env)
               | Throw _ => ret NoReply
               end
           end
       end)
    (fun e => Sent 500 (ErrorBody ("Failed to edit voucher: " ++ e))).

(** *** Delete *)

(** [if (rowIndex !== -1) await sheets.spreadsheets.values.clear(...)] *)
Definition clearRow (existingVoucher : Voucher) (rowIndex : option nat)
    (env : Env) : M unit :=
  match rowIndex with
  | Some i =>
      call (ValuesClear (spreadsheetId existingVoucher)
              (RowRange (company existingVoucher) (Z.of_nat i + 2)))
           (rowCleared env)
  | None => ret tt
  end.

(** [app.delete("/vouchers/:voucherNo")].  A parameter that is not a number
    makes the query fail to cast. *)
Definition deleteVoucher (req : Credentials) (param : string) (env : Env)
  : World -> Reply * World :=
  tryCatch
    (who <- authenticateGoogle req env ;;
     match ToNumber param with
     | None => throw "Cast to Number failed"
     | Some voucherNo =>
         d <- getDb ;;
         match findOne (byNumberEmail voucherNo (user_email (user who))) d with
         | None => ret (Sent 404 (ErrorBody "Voucher not found"))
         | Some existingVoucher =>
             deleteOldPdf existingVoucher env ;;;
             sheetData <-
               call (ValuesGet (spreadsheetId existingVoucher)
                       (DataRange (company existingVoucher)))
                    (rowsRead env) ;;
             clearRow existingVoucher
               (locateRow (valuesOrEmpty sheetData) voucherNo) env ;;;
             d' <- getDb ;;
             putDb (deleteOne (byNumberEmail voucherNo (user_email (user who))) d') ;;;
             ret (Sent 200 (MessageBody "Voucher deleted successfully!"))
         end
     end)
    (fun e => Sent 500 (ErrorBody ("Failed to delete voucher: " ++ e))).

(** *** Listing and the next number *)

(** The query of [app.get("/vouchers")]: the owner, and the company and
    the date when given. *)
Definition listQuery (owner : string) (byCompany byDate : option string)
    (v : Voucher) : bool :=
  String.eqb (email v) owner
  && (if textTruthy byCompany then String.eqb (company v) (orEmpty byCompany)
      else true)
  && (if textTruthy byDate
      then match date v with
           | Some d => String.eqb d (orEmpty byDate)
           | None => false
           end
      else true).

Definition sortOption (sort : option string) : Voucher -> Voucher -> bool :=
  match sort with
  | Some s =>
      if String.eqb s "lowToHigh" then amountAscending
      else if String.eqb s "highToLow" then amountDescending
      else numberAscending
  | None => numberAscending
  end.

(** [app.get("/vouchers")] *)
Definition listVouchers (req : Credentials)
    (byCompany byDate sort : option string) (env : Env)
  : World -> Reply * World :=
  tryCatch
    (who <- authenticateGoogle req env ;;
     d <- getDb ;;
     ret (Sent 200
            (VouchersBody
               (sortBy (sortOption sort)
                  (List.filter (listQuery (user_email (user who)) byCompany byDate)
                     d)))))
    (fun e => Sent 500 (ErrorBody ("Failed to retrieve vouchers: " ++ e))).

(** [app.get("/get-voucher-no")] *)
Definition getVoucherNo (req : Credentials) (filter : option string)
    (env : Env) : World -> Reply * World :=
  if negb (validFilter filter) then
    fun w => (Sent 400 (ErrorBody "Invalid filter option"), w)
  else
    tryCatch
      (who <- authenticateGoogle req env ;;
       res <- getUserResources (user_email (user who)) (orEmpty filter) env ;;
       ret (Sent 200 (VoucherNoBody (voucherNumber res))))
      (fun e => Sent 500 (ErrorBody ("Failed to generate voucher number: " ++ e))).

(** ** Auxiliary definitions for the statements *)

(** The number [getUserResources] computes from the store. *)
Definition nextNumber (e c : string) (d : list Voucher) : Z :=
  match findOneSorted (byEmailCompany e c) numberDescending d with
  | Some highestVoucher => plusOne (voucherNo highestVoucher)
  | None => 1
  end.

(** The calls that provision a workspace for a company. *)
Definition provisioningCalls (c sid : string) : list Call :=
  [ SpreadsheetsCreate (c ++ " Vouchers") c;
    ValuesUpdate sid (HeaderRange c) (map JString headerValues);
    FolderCreate (c ++ " Vouchers") ].

(** The voucher number submit uses: the one of the request when it is
    truthy, the computed one otherwise. *)
Definition submittedNumber (voucherData : VoucherData.t) (res : Resources)
  : jsval :=
  jsOr (VoucherData.voucherNo voucherData) (JNumber (voucherNumber res)).

(** The calls of a submit that succeeds, after provisioning. *)
Definition submitCalls (voucherData : VoucherData.t) (res : Resources)
    (fileId : string) (link : option string) : list Call :=
  let filterOption := orEmpty (VoucherData.filter voucherData) in
  let voucherNo := submittedNumber voucherData res in
  [ WriteFile (mkPdfName filterOption voucherNo)
      (renderVoucher voucherData voucherNo);
    FilesCreate (mkPdfName filterOption voucherNo) (res_folderId res)
      (renderVoucher voucherData voucherNo);
    ValuesAppend (res_spreadsheetId res) (SheetRange filterOption)
      (sheetRow voucherData voucherNo link);
    UnlinkFile (mkPdfName filterOption voucherNo) ].

(** *** Sequences of requests *)

Inductive Request : Type :=
| PostSubmit (req : Credentials) (voucherData : VoucherData.t) (env : Env)
| PutEditVoucher (req : Credentials) (voucherId : string)
    (voucherData : VoucherData.t) (env : Env)
| DeleteVouchers (req : Credentials) (param : string) (env : Env)
| GetVouchers (req : Credentials) (byCompany byDate sort : option string)
    (env : Env)
| GetVoucherNo (req : Credentials) (filter : option string) (env : Env).

Definition handle (r : Request) : World -> Reply * World :=
  match r with
  | PostSubmit req voucherData env => submit req voucherData env
  | PutEditVoucher req voucherId voucherData env =>
      editVoucher req voucherId voucherData env
  | DeleteVouchers req param env => deleteVoucher req param env
  | GetVouchers req byCompany byDate sort env =>
      listVouchers req byCompany byDate sort env
  | GetVoucherNo req filter env => getVoucherNo req filter env
  end.

(** The requests are served one after the other. *)
Fixpoint serve (rs : list Request) (w : World) : World :=
  match rs with
  | [] => w
  | r :: rs' => serve rs' (snd (handle r w))
  end.

Definition emptyWorld : World := mkWorld [] [].

(** A submission that leaves the number to the server. *)
Definition plainSubmit (r : Request) : bool :=
  match r with
  | PostSubmit _ voucherData _ => negb (truthy (VoucherData.voucherNo voucherData))
  | _ => false
  end.

(** A submission that leaves the number to the server, or a deletion. *)
Definition plainSubmitOrDelete (r : Request) : bool :=
  match r with
  | PostSubmit _ voucherData _ => negb (truthy (VoucherData.voucherNo voucherData))
  | DeleteVouchers _ _ _ => true
  | _ => false
  end.

(** The vouchers of an owner and a company in the store. *)
Definition vouchersOf (e c : string) (d : list Voucher) : list Voucher :=
  List.filter (byEmailCompany e c) d.

(** [n] is the sum of the highest number of the pair and 1 as the program's
    numbers add, which is that number plus one as long as the sum is at most
    2^53 in absolute value, or [n] is 1 when the pair has no voucher. *)
Definition highestPlusOne (e c : string) (d : list Voucher) (n : Z) : Prop :=
  (vouchersOf e c d = [] /\ n = 1) \/
  (exists h, In h (vouchersOf e c d) /\
             (forall u, In u (vouchersOf e c d) -> voucherNo u <= voucherNo h) /\
             n = plusOne (voucherNo h) /\
             (Z.abs (voucherNo h + 1) <= twoTo53 -> n = voucherNo h + 1)).

(** Every pair with fewer than 2^53 vouchers has them numbered from 1 to
    their count, and its next number is that count plus one. *)
Definition counted (d : list Voucher) : Prop :=
  forall e c,
    Z.of_nat (List.length (vouchersOf e c d)) < twoTo53 ->
    nextNumber e c d = Z.of_nat (List.length (vouchersOf e c d)) + 1 /\
    forall u, In u (vouchersOf e c d) ->
              1 <= voucherNo u <= Z.of_nat (List.length (vouchersOf e c d)).

(** *** Sample data for the examples *)

Definition alice : User := mkUser "alice@example.com" "Alice" "".

Definition aliceSession : Credentials := mkCredentials (Some alice) None.

(** An outside where every call succeeds: new resources get the given ids,
    the sheet holds the given rows. *)
Definition okEnv (sheet folder file id : string) (rows : list (list jsval))
  : Env :=
  {| userinfo := Ok alice;
     spreadsheetCreated := Ok sheet;
     headerWritten := Ok tt;
     folderCreated := Ok folder;
     pdfWritten := Ok tt;
     fileDeleted := Ok tt;
     fileUploaded := Ok (file, Some ("https://drive.example/" ++ file));
     rowAppended := Ok tt;
     rowsRead := Ok (Some rows);
     rowUpdated := Ok tt;
     rowCleared := Ok tt;
     fileUnlinked := Ok tt;
     objectId := id |}.

Definition cashVoucher (filter : string) (voucherNo : jsval) : VoucherData.t :=
  {| VoucherData.filter := Some filter;
     VoucherData.voucherNo := voucherNo;
     VoucherData.date := Some "2024-01-01";
     VoucherData.payTo := Some "Bob";
     VoucherData.accountHead := Some "Travel";
     VoucherData.account := Some "Taxi";
     VoucherData.transactionType := Some "Cash";
     VoucherData.amount := Some "500";
     VoucherData.amountRs := Some "Five hundred";
     VoucherData.checkedBy := None;
     VoucherData.approvedBy := None;
     VoucherData.receiverSignature := None |}.

(** Two submissions, the deletion of number 1, then what a third
    submission finds. *)
Definition submitSubmitDelete : list Request :=
  [ PostSubmit aliceSession (cashVoucher "Contentstack" JUndefined)
      (okEnv "sheet-1" "folder-1" "file-1" "65f000000000000000000001" []);
    PostSubmit aliceSession (cashVoucher "Contentstack" JUndefined)
      (okEnv "sheet-2" "folder-2" "file-2" "65f000000000000000000002" []);
    DeleteVouchers aliceSession "1"
      (okEnv "sheet-3" "folder-3" "file-3" "65f000000000000000000003" []) ].

(** The calls that write to a spreadsheet, to the document store or to the
    local disk, or create a resource; reading rows and resolving the
    identity are not among them. *)
Definition mutation (c : Call) : bool :=
  match c with
  | UserinfoGet _ | SessionSet _ | ValuesGet _ _ => false
  | _ => true
  end.

(** The calls that create a spreadsheet or a folder. *)
Definition creation (c : Call) : bool :=
  match c with
  | SpreadsheetsCreate _ _ | FolderCreate _ => true
  | _ => false
  end.

(** The call that removes the old document of a voucher, if it has one. *)
Definition oldPdfCalls (v : Voucher) : list Call :=
  if textTruthy (pdfFileId v) then [FilesDelete (orEmpty (pdfFileId v))] else [].

(** The vouchers of an owner: what the list query selects when no company
    and no date is given. *)
Definition ownedBy (e : string) (d : list Voucher) : list Voucher :=
  List.filter (fun v => String.eqb (email v) e) d.

(** A voucher carries the fields of a request body. *)
Definition submittedAs (voucherData : VoucherData.t) (v : Voucher) : Prop :=
  VoucherData.filter voucherData = Some (company v) /\
  date v = VoucherData.date voucherData /\
  payTo v = VoucherData.payTo voucherData /\
  accountHead v = VoucherData.accountHead voucherData /\
  account v = VoucherData.account voucherData /\
  transactionType v = VoucherData.transactionType voucherData /\
  amount v = VoucherData.amount voucherData /\
  amountRs v = VoucherData.amountRs voucherData /\
  checkedBy v = VoucherData.checkedBy voucherData /\
  approvedBy v = VoucherData.approvedBy voucherData /\
  receiverSignature v = VoucherData.receiverSignature voucherData.

(** The calls of an edit that succeeds, after the identity is resolved. *)
Definition editCalls (voucherData : VoucherData.t) (v : Voucher)
    (link : option string) (rowIndex : nat) : list Call :=
  let filterOption := orEmpty (VoucherData.filter voucherData) in
  let name := mkPdfName filterOption (JNumber (voucherNo v)) in
  let doc := renderVoucher voucherData (JNumber (voucherNo v)) in
  ([ WriteFile name doc ] ++ oldPdfCalls v ++
   [ FilesCreate name (folderId v) doc;
     ValuesGet (spreadsheetId v) (DataRange filterOption);
     ValuesUpdate (spreadsheetId v)
       (RowRange filterOption (Z.of_nat rowIndex + 2))
       (sheetRow voucherData (JNumber (voucherNo v)) link);
     UnlinkFile name ])%list.

(** The calls of a delete that succeeds, after the identity is resolved. *)
Definition deleteCalls (v : Voucher) (rowIndex : option nat) : list Call :=
  (oldPdfCalls v ++
   [ ValuesGet (spreadsheetId v) (DataRange (company v)) ] ++
   match rowIndex with
   | Some i =>
       [ ValuesClear (spreadsheetId v) (RowRange (company v) (Z.of_nat i + 2)) ]
   | None => []
   end)%list.


(** *** Requests as a whole *)

(** The credentials and the outside of a request. *)
Definition credentialsOf (r : Request) : Credentials :=
  match r with
  | PostSubmit req _ _ => req
  | PutEditVoucher req _ _ _ => req
  | DeleteVouchers req _ _ => req
  | GetVouchers req _ _ _ _ => req
  | GetVoucherNo req _ _ => req
  end.

Definition envOf (r : Request) : Env :=
  match r with
  | PostSubmit _ _ env => env
  | PutEditVoucher _ _ _ env => env
  | DeleteVouchers _ _ env => env
  | GetVouchers _ _ _ _ env => env
  | GetVoucherNo _ _ env => env
  end.

(** A request that comes with no session and no Authorization header. *)
Definition anonymous (c : Credentials) : bool :=
  match session_user c with
  | Some _ => false
  | None => negb (textTruthy (authorization c))
  end.

(** A reply that reports an error with one of the given statuses. *)
Definition errorReply (statuses : list Z) (reply : Reply) : Prop :=
  exists status message,
    reply = Sent status (ErrorBody message) /\ In status statuses.

(** A reply with status 200. *)
Definition accepted (reply : Reply) : Prop :=
  exists body, reply = Sent 200 body.

(** A request that does not bring its own voucher number: any request but
    a submit whose body has a truthy [voucherNo]. *)
Definition serverNumbered (r : Request) : bool :=
  match r with
  | PostSubmit _ voucherData _ => negb (truthy (VoucherData.voucherNo voucherData))
  | _ => true
  end.

(** All vouchers of an owner and a company name one spreadsheet and one
    folder. *)
Definition oneWorkspace (d : list Voucher) : Prop :=
  forall u v, In u d -> In v d ->
    email u = email v -> company u = company v ->
    spreadsheetId u = spreadsheetId v /\ folderId u = folderId v.

(** No two vouchers of an owner and a company have the same number. *)
Definition uniqueNumbers (d : list Voucher) : Prop :=
  forall e c, NoDup (map voucherNo (vouchersOf e c d)).

(** Two vouchers agree on what an edit must keep. *)
Definition sameIdentity (u v : Voucher) : Prop :=
  _id u = _id v /\ email u = email v /\ company u = company v /\
  voucherNo u = voucherNo v /\
  spreadsheetId u = spreadsheetId v /\ folderId u = folderId v.

(** The three ways a request changes the record store, with the caller
    that the request is served for. *)
Definition appends (r : Request) (w : World) (v : Voucher) : Prop :=
  db (snd (handle r w)) = (db w ++ [v])%list /\
  In (company v) registry /\ email v <> "" /\ pdfFileId v <> None /\
  (forall u, findOne (byEmailCompany (email v) (company v)) (db w) = Some u ->
             spreadsheetId v = spreadsheetId u /\ folderId v = folderId u) /\
  (serverNumbered r = true ->
   voucherNo v = nextNumber (email v) (company v) (db w)).

Definition replaces (r : Request) (w : World) (v : Voucher) : Prop :=
  exists v' l1 l2,
    db w = (l1 ++ v :: l2)%list /\
    db (snd (handle r w)) = (l1 ++ v' :: l2)%list /\
    sameIdentity v' v /\ pdfFileId v' <> None.

Definition removes (r : Request) (w : World) (v : Voucher) : Prop :=
  exists l1 l2,
    db w = (l1 ++ v :: l2)%list /\
    db (snd (handle r w)) = (l1 ++ l2)%list.

(** What the server stores of a voucher is well formed: a company of the
    registry, an owner and a document id. *)
Definition wellFormed (v : Voucher) : Prop :=
  In (company v) registry /\ email v <> "" /\ pdfFileId v <> None.

(** The content fields a request body carries are those of a voucher:
    each field present in the body is the field stored. *)
Definition carriedBy (voucherData : VoucherData.t) (v : Voucher) : Prop :=
  (forall s, VoucherData.date voucherData = Some s -> date v = Some s) /\
  (forall s, VoucherData.payTo voucherData = Some s -> payTo v = Some s) /\
  (forall s, VoucherData.accountHead voucherData = Some s -> accountHead v = Some s) /\
  (forall s, VoucherData.account voucherData = Some s -> account v = Some s) /\
  (forall s, VoucherData.transactionType voucherData = Some s ->
             transactionType v = Some s) /\
  (forall s, VoucherData.amount voucherData = Some s -> amount v = Some s) /\
  (forall s, VoucherData.amountRs voucherData = Some s -> amountRs v = Some s) /\
  (forall s, VoucherData.checkedBy voucherData = Some s -> checkedBy v = Some s) /\
  (forall s, VoucherData.approvedBy voucherData = Some s -> approvedBy v = Some s) /\
  (forall s, VoucherData.receiverSignature voucherData = Some s ->
             receiverSignature v = Some s).

(** The calls of a submit up to the appended row: the local file is
    written, the document uploaded, the row appended. *)
Definition submitCallsBeforeSave (voucherData : VoucherData.t) (res : Resources)
    (link : option string) : list Call :=
  let filterOption := orEmpty (VoucherData.filter voucherData) in
  let voucherNo := submittedNumber voucherData res in
  [ WriteFile (mkPdfName filterOption voucherNo)
      (renderVoucher voucherData voucherNo);
    FilesCreate (mkPdfName filterOption voucherNo) (res_folderId res)
      (renderVoucher voucherData voucherNo);
    ValuesAppend (res_spreadsheetId res) (SheetRange filterOption)
      (sheetRow voucherData voucherNo link) ].

End Server.

(** ** Sample runs for the examples *)

Definition firstSubmit : Request :=
  PostSubmit aliceSession (cashVoucher "Contentstack" JUndefined)
    (okEnv "sheet-1" "folder-1" "file-1" "65f000000000000000000001" []).

Definition otherCompanySubmit : Request :=
  PostSubmit aliceSession (cashVoucher "Surfboard" JUndefined)
    (okEnv "sheet-2" "folder-2" "file-2" "65f000000000000000000002" []).

(** The store after one submission. *)
Definition oneVoucher : World := serve decimalNumber hexObjectId [firstSubmit] emptyWorld.

(** The store after one submission for each of two companies: both
    vouchers have number 1. *)
Definition twoCompanies : World :=
  serve decimalNumber hexObjectId [firstSubmit; otherCompanySubmit] emptyWorld.

Definition secondSubmit : Request :=
  PostSubmit aliceSession (cashVoucher "Contentstack" JUndefined)
    (okEnv "sheet-2" "folder-2" "file-2" "65f000000000000000000002" []).

(** The store after two submissions for one company: numbers 1 and 2. *)
Definition twoVouchers : World :=
  serve decimalNumber hexObjectId [firstSubmit; secondSubmit] emptyWorld.

(** What the second submission is answered. *)
Definition secondBody : Body :=
  SheetBody "Data submitted successfully and PDF uploaded!"
    "https://docs.google.com/spreadsheets/d/sheet-1/edit" "file-2".

(** An outside for edit and delete whose sheet has the row of number 1. *)
Definition rowEnv : Env :=
  okEnv "sheet-9" "folder-9" "file-9" "65f000000000000000000009" [[JString "1"; JString "2024-01-01"]].

(** An outside for edit and delete whose sheet has no row. *)
Definition noRowEnv : Env := okEnv "sheet-9" "folder-9" "file-9" "65f000000000000000000009" [].

(** The stored voucher of [oneVoucher]. *)
Definition storedVoucher : Voucher :=
  {| _id := "65f000000000000000000001";
     email := "alice@example.com";
     company := "Contentstack";
     voucherNo := 1;
     date := Some "2024-01-01";
     payTo := Some "Bob";
     accountHead := Some "Travel";
     account := Some "Taxi";
     transactionType := Some "Cash";
     amount := Some "500";
     amountRs := Some "Five hundred";
     checkedBy := None;
     approvedBy := None;
     receiverSignature := None;
     pdfLink := Some "https://drive.example/file-1";
     spreadsheetId := "sheet-1";
     folderId := "folder-1";
     pdfFileId := Some "file-1" |}.

(** *** Further sample data *)

Definition bob : User := mkUser "bob@example.com" "Bob" "".

Definition bobSession : Credentials := mkCredentials (Some bob) None.

(** A request that comes with nothing. *)
Definition noCredentials : Credentials := mkCredentials None None.

(** A body whose transaction type is not one of the schema. *)
Definition bitcoinVoucher : VoucherData.t :=
  {| VoucherData.filter := Some "Contentstack";
     VoucherData.voucherNo := JUndefined;
     VoucherData.date := Some "2024-02-02";
     VoucherData.payTo := Some "Carol";
     VoucherData.accountHead := None;
     VoucherData.account := None;
     VoucherData.transactionType := Some "Bitcoin";
     VoucherData.amount := Some "70";
     VoucherData.amountRs := None;
     VoucherData.checkedBy := None;
     VoucherData.approvedBy := None;
     VoucherData.receiverSignature := None |}.

(** A body with a given amount. *)
Definition pricedVoucher (amount : string) : VoucherData.t :=
  {| VoucherData.filter := Some "Contentstack";
     VoucherData.voucherNo := JUndefined;
     VoucherData.date := Some "2024-03-03";
     VoucherData.payTo := Some "Dave";
     VoucherData.accountHead := None;
     VoucherData.account := None;
     VoucherData.transactionType := Some "UPI";
     VoucherData.amount := Some amount;
     VoucherData.amountRs := None;
     VoucherData.checkedBy := None;
     VoucherData.approvedBy := None;
     VoucherData.receiverSignature := None |}.

(** The store after a submission of amount 500 and one of amount 1000. *)
Definition twoAmounts : World :=
  serve decimalNumber hexObjectId
    [ PostSubmit aliceSession (pricedVoucher "500")
        (okEnv "sheet-1" "folder-1" "file-1" "65f000000000000000000001" []);
      PostSubmit aliceSession (pricedVoucher "1000")
        (okEnv "sheet-2" "folder-2" "file-2" "65f000000000000000000002" []) ]
    emptyWorld.

(** The store after a submission that brought the number -1. *)
Definition minusOne : World :=
  serve decimalNumber hexObjectId
    [ PostSubmit aliceSession (cashVoucher "Contentstack" (JNumber (-1)))
        (okEnv "sheet-1" "folder-1" "file-1" "65f000000000000000000001" []) ]
    emptyWorld.

(** Outsides where one call fails: the upload, the clearing of a row whose
    sheet has the row of number 1, the creation of the folder. *)
Definition uploadFailsEnv : Env :=
  {| userinfo := Ok alice;
     spreadsheetCreated := Ok "sheet-9";
     headerWritten := Ok tt;
     folderCreated := Ok "folder-9";
     pdfWritten := Ok tt;
     fileDeleted := Ok tt;
     fileUploaded := Throw "quota exceeded";
     rowAppended := Ok tt;
     rowsRead := Ok (Some [[JString "1"]]);
     rowUpdated := Ok tt;
     rowCleared := Ok tt;
     fileUnlinked := Ok tt;
     objectId := "65f000000000000000000009" |}.

Definition clearFailsEnv : Env :=
  {| userinfo := Ok alice;
     spreadsheetCreated := Ok "sheet-9";
     headerWritten := Ok tt;
     folderCreated := Ok "folder-9";
     pdfWritten := Ok tt;
     fileDeleted := Ok tt;
     fileUploaded := Ok ("file-9", Some "https://drive.example/file-9");
     rowAppended := Ok tt;
     rowsRead := Ok (Some [[]; [JString "1"]]);
     rowUpdated := Ok tt;
     rowCleared := Throw "sheet is protected";
     fileUnlinked := Ok tt;
     objectId := "65f000000000000000000009" |}.

Definition folderFailsEnv : Env :=
  {| userinfo := Ok alice;
     spreadsheetCreated := Ok "sheet-9";
     headerWritten := Ok tt;
     folderCreated := Throw "quota exceeded";
     pdfWritten := Ok tt;
     fileDeleted := Ok tt;
     fileUploaded := Ok ("file-9", Some "https://drive.example/file-9");
     rowAppended := Ok tt;
     rowsRead := Ok (Some []);
     rowUpdated := Ok tt;
     rowCleared := Ok tt;
     fileUnlinked := Ok tt;
     objectId := "65f000000000000000000009" |}.

(** Outsides where the removal of the local file fails, and where the
    document store answers an upload without a link. *)
Definition unlinkFailsEnv : Env :=
  {| userinfo := Ok alice;
     spreadsheetCreated := Ok "sheet-2";
     headerWritten := Ok tt;
     folderCreated := Ok "folder-2";
     pdfWritten := Ok tt;
     fileDeleted := Ok tt;
     fileUploaded := Ok ("file-2", Some "https://drive.example/file-2");
     rowAppended := Ok tt;
     rowsRead := Ok (Some [[JString "1"]]);
     rowUpdated := Ok tt;
     rowCleared := Ok tt;
     fileUnlinked := Throw "ENOENT: no such file or directory";
     objectId := "65f000000000000000000002" |}.

Definition noLinkEnv : Env :=
  {| userinfo := Ok alice;
     spreadsheetCreated := Ok "sheet-1";
     headerWritten := Ok tt;
     folderCreated := Ok "folder-1";
     pdfWritten := Ok tt;
     fileDeleted := Ok tt;
     fileUploaded := Ok ("file-1", None);
     rowAppended := Ok tt;
     rowsRead := Ok (Some []);
     rowUpdated := Ok tt;
     rowCleared := Ok tt;
     fileUnlinked := Ok tt;
     objectId := "65f000000000000000000001" |}.

(** A submit whose local file cannot be removed. *)
Definition unlinkFailsSubmit : Request :=
  PostSubmit aliceSession (cashVoucher "Contentstack" JUndefined) unlinkFailsEnv.

(** The store after a submission that brought the number 2^53. *)
Definition hugeNumber : World :=
  serve decimalNumber hexObjectId
    [ PostSubmit aliceSession (cashVoucher "Contentstack" (JNumber twoTo53))
        (okEnv "sheet-1" "folder-1" "file-1" "65f000000000000000000001" []) ]
    emptyWorld.

(** Sample requests. *)
Definition bitcoinSubmit : Request :=
  PostSubmit aliceSession bitcoinVoucher
    (okEnv "sheet-2" "folder-2" "file-2" "65f000000000000000000002" []).

Definition anonymousDelete : Request :=
  DeleteVouchers noCredentials "1" noRowEnv.

Definition bobDelete : Request := DeleteVouchers bobSession "1" noRowEnv.

(** * Properties *)

Section Properties.

Variable ToNumber : string -> option Z.
Variable ToObjectId : string -> option string.

(** ** Facts about the record store *)

Lemma byEmailCompany_true e c v :
  byEmailCompany e c v = true <-> email v = e /\ company v = c.
Proof.
  unfold byEmailCompany.
  rewrite andb_true_iff, !String.eqb_eq. reflexivity.
Qed.

Lemma byNumberEmail_true n e v :
  byNumberEmail n e v = true <-> voucherNo v = n /\ email v = e.
Proof.
  unfold byNumberEmail.
  rewrite andb_true_iff, Z.eqb_eq, String.eqb_eq. reflexivity.
Qed.

Lemma byIdEmail_true i e v :
  byIdEmail i e v = true <-> _id v = i /\ email v = e.
Proof.
  unfold byIdEmail.
  rewrite andb_true_iff, !String.eqb_eq. reflexivity.
Qed.

Lemma insertBy_perm {A} (le : A -> A -> bool) x l :
  Permutation (insertBy le x l) (x :: l).
Proof.
  induction l as [|y l IH]; simpl.
  - apply Permutation_refl.
  - destruct (le x y).
    + apply Permutation_refl.
    + eapply Permutation_trans; [apply perm_skip, IH | apply perm_swap].
Qed.

Lemma sortBy_perm {A} (le : A -> A -> bool) l :
  Permutation (sortBy le l) l.
Proof.
  induction l as [|x l IH]; simpl.
  - apply perm_nil.
  - eapply Permutation_trans; [apply insertBy_perm | apply perm_skip, IH].
Qed.

Lemma sortBy_In {A} (le : A -> A -> bool) l x :
  In x (sortBy le l) <-> In x l.
Proof.
  split; apply Permutation_in.
  - apply sortBy_perm.
  - apply Permutation_sym, sortBy_perm.
Qed.

(** The head of a list sorted by descending number carries the highest
    number of the list. *)
Lemma sortBy_descending_head l h :
  hd_error (sortBy numberDescending l) = Some h ->
  In h l /\ forall u, In u l -> voucherNo u <= voucherNo h.
Proof.
  revert h. induction l as [|x l IH]; intros h; simpl.
  - discriminate.
  - destruct (sortBy numberDescending l) as [|y s] eqn:Es; simpl.
    + intros [= <-]. split; [now left|].
      intros u [<-|Hu]; [lia|].
      apply (sortBy_In numberDescending) in Hu. rewrite Es in Hu. destruct Hu.
    + destruct (IH y eq_refl) as [Hy Hmax].
      unfold numberDescending at 1.
      destruct (Z.leb_spec (voucherNo y) (voucherNo x)); simpl; intros [= <-].
      * split; [now left|].
        intros u [<-|Hu]; [lia|]. specialize (Hmax u Hu). lia.
      * split; [now right|].
        intros u [<-|Hu]; [lia|]. now apply Hmax.
Qed.

Lemma findOne_None q d :
  findOne q d = None <-> forall v, In v d -> q v = false.
Proof.
  unfold findOne. split.
  - intros H v Hv. exact (find_none q d H v Hv).
  - induction d as [|x d IH]; simpl; intros H; [reflexivity|].
    rewrite (H x (or_introl eq_refl)). apply IH.
    intros v Hv. apply H. now right.
Qed.

Lemma findOne_Some q d v :
  findOne q d = Some v -> In v d /\ q v = true.
Proof. apply find_some. Qed.

Lemma findOne_exists q d v :
  In v d -> q v = true -> exists u, findOne q d = Some u.
Proof.
  intros Hin Hq. destruct (findOne q d) as [u|] eqn:E; [now exists u|].
  rewrite findOne_None in E. rewrite (E v Hin) in Hq. discriminate.
Qed.

Lemma findOneSorted_None q le d :
  (forall v, In v d -> q v = false) -> findOneSorted q le d = None.
Proof.
  intros H. unfold findOneSorted.
  assert (E : List.filter q d = []).
  { induction d as [|x d IH]; simpl; [reflexivity|].
    rewrite (H x (or_introl eq_refl)). apply IH. intros v Hv. apply H. now right. }
  rewrite E. reflexivity.
Qed.

Lemma findOneSorted_highest q d v :
  In v d -> q v = true ->
  exists h, findOneSorted q numberDescending d = Some h /\
            In h d /\ q h = true /\
            forall u, In u d -> q u = true -> voucherNo u <= voucherNo h.
Proof.
  intros Hin Hq. unfold findOneSorted.
  destruct (hd_error (sortBy numberDescending (List.filter q d))) as [h|] eqn:E.
  - exists h. split; [reflexivity|].
    destruct (sortBy_descending_head _ _ E) as [Hh Hmax].
    apply filter_In in Hh. destruct Hh as [Hh1 Hh2].
    repeat split; trivial.
    intros u Hu Hqu. apply Hmax. apply filter_In. now split.
  - exfalso.
    assert (Hv : In v (sortBy numberDescending (List.filter q d))).
    { apply sortBy_In. apply filter_In. now split. }
    destruct (sortBy numberDescending (List.filter q d)); [destruct Hv | discriminate].
Qed.

Lemma deleteOne_split q d v :
  findOne q d = Some v ->
  exists l1 l2, d = (l1 ++ v :: l2)%list /\ deleteOne q d = (l1 ++ l2)%list.
Proof.
  unfold findOne. induction d as [|x d IH]; simpl; [discriminate|].
  destruct (q x).
  - intros [= ->]. now exists [], d.
  - intros H. destruct (IH H) as (l1 & l2 & -> & ->).
    now exists (x :: l1), l2.
Qed.

Lemma deleteOne_first q d v :
  findOne q d = Some v ->
  exists l1 l2, d = (l1 ++ v :: l2)%list /\ deleteOne q d = (l1 ++ l2)%list /\
                forall u, In u l1 -> q u = false.
Proof.
  unfold findOne. induction d as [|x d IH]; simpl; [discriminate|].
  destruct (q x) eqn:Eq.
  - intros [= ->]. exists [], d. repeat split. intros u [].
  - intros H. destruct (IH H) as (l1 & l2 & -> & -> & Hl).
    exists (x :: l1), l2. repeat split.
    intros u [<-|Hu]; [exact Eq | now apply Hl].
Qed.

(** ** Provisioning and numbering *)

Lemma world_eta w : mkWorld (db w) (calls w) = w.
Proof. destruct w; reflexivity. Qed.

Lemma getUserResources_existing e c env w v :
  findOne (byEmailCompany e c) (db w) = Some v ->
  getUserResources e c env w =
    (Ok (mkResources (spreadsheetId v) (folderId v) (nextNumber e c (db w))), w).
Proof.
  intros H. unfold getUserResources, bind, getDb, ret, nextNumber.
  rewrite H. reflexivity.
Qed.

Lemma getUserResources_fresh e c env w sid fid :
  findOne (byEmailCompany e c) (db w) = None ->
  spreadsheetCreated env = Ok sid ->
  headerWritten env = Ok tt ->
  folderCreated env = Ok fid ->
  getUserResources e c env w =
    (Ok (mkResources sid fid 1),
     mkWorld (db w) (calls w ++ provisioningCalls c sid)%list).
Proof.
  intros H Hs Hh Hf.
  unfold getUserResources, createSpreadsheet, createDriveFolder,
    bind, call, getDb, ret.
  rewrite H. simpl. rewrite Hs, Hh. simpl. rewrite Hf. simpl.
  rewrite findOne_None in H.
  rewrite (findOneSorted_None _ _ _ H).
  unfold provisioningCalls. rewrite <- !app_assoc. reflexivity.
Qed.

(** Whatever [getUserResources] returns, it returns the number computed
    from the store, it leaves the store as it is, and it either reuses the
    ids of the first voucher of the pair or has created both resources. *)
Lemma getUserResources_inv e c env w r w' :
  getUserResources e c env w = (Ok r, w') ->
  db w' = db w /\
  voucherNumber r = nextNumber e c (db w) /\
  match findOne (byEmailCompany e c) (db w) with
  | Some v =>
      res_spreadsheetId r = spreadsheetId v /\ res_folderId r = folderId v /\
      w' = w
  | None =>
      spreadsheetCreated env = Ok (res_spreadsheetId r) /\
      folderCreated env = Ok (res_folderId r) /\
      calls w' = (calls w ++ provisioningCalls c (res_spreadsheetId r))%list
  end.
Proof.
  intros H.
  destruct (findOne (byEmailCompany e c) (db w)) as [v|] eqn:E.
  - rewrite (getUserResources_existing _ _ _ _ _ E) in H.
    injection H as <- <-. simpl. auto.
  - revert H.
    unfold getUserResources, createSpreadsheet, createDriveFolder,
      bind, call, getDb, ret.
    rewrite E. simpl.
    destruct (spreadsheetCreated env) as [sid|m]; simpl; [|discriminate].
    destruct (headerWritten env) as [[]|m]; simpl; [|discriminate].
    destruct (folderCreated env) as [fid|m]; simpl; [|discriminate].
    intros [= <- <-]. simpl.
    unfold provisioningCalls, nextNumber. rewrite <- !app_assoc.
    auto.
Qed.

Lemma roundToDouble_exact x :
  Z.abs x <= twoTo53 -> roundToDouble x = x.
Proof.
  intros H. unfold roundToDouble.
  destruct (Z.leb_spec (Z.abs x) twoTo53); [reflexivity | lia].
Qed.

Lemma plusOne_exact n :
  Z.abs (n + 1) <= twoTo53 -> plusOne n = n + 1.
Proof. apply roundToDouble_exact. Qed.

(** C1, amended.  The numbering operation [getUserResources] returns, for
    an owner and a company with a stored voucher, the sum of the highest
    stored sequence number of the pair and 1 as the program's numbers add,
    which is that number plus one as long as the sum is at most 2^53 in
    absolute value; it always returns then, and changes nothing.  For a pair
    without voucher it returns 1, as soon as the two resources of the
    workspace are created. *)
Theorem getUserResources_next_number (e c : string) (env : Env) (w : World) :
  ((exists v, In v (db w) /\ email v = e /\ company v = c) ->
   exists h r,
     In h (db w) /\ email h = e /\ company h = c /\
     (forall u, In u (db w) -> email u = e -> company u = c ->
                voucherNo u <= voucherNo h) /\
     getUserResources e c env w = (Ok r, w) /\
     voucherNumber r = plusOne (voucherNo h) /\
     (Z.abs (voucherNo h + 1) <= twoTo53 -> voucherNumber r = voucherNo h + 1))
  /\
  ((forall v, In v (db w) -> ~ (email v = e /\ company v = c)) ->
   (forall r w', getUserResources e c env w = (Ok r, w') -> voucherNumber r = 1) /\
   (forall sid fid,
      spreadsheetCreated env = Ok sid -> headerWritten env = Ok tt ->
      folderCreated env = Ok fid ->
      exists r w', getUserResources e c env w = (Ok r, w') /\ voucherNumber r = 1)).
Proof.
  split.
  - intros (v & Hin & He & Hc).
    assert (Hq : byEmailCompany e c v = true) by (apply byEmailCompany_true; auto).
    destruct (findOne_exists _ _ _ Hin Hq) as [u Hu].
    destruct (findOneSorted_highest _ _ _ Hin Hq) as (h & Hh & Hhin & Hhq & Hmax).
    apply byEmailCompany_true in Hhq. destruct Hhq as [Hhe Hhc].
    exists h, (mkResources (spreadsheetId u) (folderId u) (plusOne (voucherNo h))).
    repeat split; trivial.
    + intros x Hx Hxe Hxc. apply Hmax; trivial.
      apply byEmailCompany_true; auto.
    + rewrite (getUserResources_existing _ _ _ _ _ Hu).
      unfold nextNumber. rewrite Hh. reflexivity.
    + intros Hr. simpl. now apply plusOne_exact.
  - intros Hnone.
    assert (Hf : findOne (byEmailCompany e c) (db w) = None).
    { apply findOne_None. intros v Hv.
      destruct (byEmailCompany e c v) eqn:Eq; [|reflexivity].
      apply byEmailCompany_true in Eq. destruct (Hnone v Hv Eq). }
    assert (Hn : nextNumber e c (db w) = 1).
    { unfold nextNumber. rewrite findOneSorted_None; [reflexivity|].
      now apply findOne_None. }
    split.
    + intros r w' H. apply getUserResources_inv in H.
      destruct H as (_ & H & _). now rewrite H.
    + intros sid fid Hs Hh Hfo.
      eexists _, _. split.
      * apply (getUserResources_fresh _ _ _ _ _ _ Hf Hs Hh Hfo).
      * reflexivity.
Qed.

(** ** Submit *)

Lemma authenticateGoogle_db req env w r w' :
  authenticateGoogle req env w = (r, w') -> db w' = db w.
Proof.
  unfold authenticateGoogle, bind, call, ret, throw.
  destruct (session_user req); [intros [= <- <-]; reflexivity|].
  destruct (negb (textTruthy (authorization req))); [intros [= <- <-]; reflexivity|].
  simpl. destruct (userinfo env); simpl; intros [= <- <-]; reflexivity.
Qed.

Lemma authenticateGoogle_calls req env w r w' :
  authenticateGoogle req env w = (r, w') ->
  exists l, calls w' = (calls w ++ l)%list /\
            forallb (fun c => negb (mutation c)) l = true.
Proof.
  unfold authenticateGoogle, bind, call, ret, throw.
  destruct (session_user req).
  { intros [= <- <-]. exists []. now rewrite app_nil_r. }
  destruct (negb (textTruthy (authorization req))).
  { intros [= <- <-]. exists []. now rewrite app_nil_r. }
  simpl. destruct (userinfo env) as [u|m]; simpl; intros [= <- <-]; simpl.
  - exists [UserinfoGet (orEmpty (authorization req)); SessionSet u].
    now rewrite <- app_assoc.
  - now exists [UserinfoGet (orEmpty (authorization req))].
Qed.

(** What a submit answered with status 200 has done. *)
Lemma submit_sent_200 req voucherData env w body w' :
  submit ToNumber req voucherData env w = (Sent 200 body, w') ->
  exists who w1 res w2 fileId link v,
    validFilter (VoucherData.filter voucherData) = true /\
    authenticateGoogle req env w = (Ok who, w1) /\
    getUserResources (user_email (user who))
      (orEmpty (VoucherData.filter voucherData)) env w1 = (Ok res, w2) /\
    truthy (submittedNumber voucherData res) = true /\
    fileUploaded env = Ok (fileId, link) /\
    newVoucher ToNumber (objectId env) (user_email (user who))
      (orEmpty (VoucherData.filter voucherData))
      (submittedNumber voucherData res) voucherData link
      (res_spreadsheetId res) (res_folderId res) fileId = Ok v /\
    db w' = (db w ++ [v])%list /\
    calls w' = (calls w2 ++ submitCalls voucherData res fileId link)%list /\
    body = SheetBody "Data submitted successfully and PDF uploaded!"
             (sheetURLOf (res_spreadsheetId res)) fileId.
Proof.
  unfold submit, tryCatch, bind.
  destruct (validFilter (VoucherData.filter voucherData)) eqn:Ef; simpl;
    [|unfold ret; intros [= ]].
  destruct (authenticateGoogle req env w) as [[who|m] w1] eqn:Ea; [|intros [= ]].
  destruct (getUserResources _ _ env w1) as [[res|m] w2] eqn:Er; [|intros [= ]].
  fold (submittedNumber voucherData res).
  destruct (truthy (submittedNumber voucherData res)) eqn:Et; simpl;
    [|unfold throw; intros [= ]].
  destruct (pdfWritten env) as [[]|m]; [|unfold ret; intros [= ]].
  unfold settle, submitUpload, tryCatch, bind, call. simpl.
  destruct (fileUploaded env) as [[fileId link]|m] eqn:Eu; simpl; [|intros [= ]].
  destruct (rowAppended env) as [[]|m]; simpl; [|intros [= ]].
  destruct (newVoucher ToNumber _ _ _ _ _ _ _ _ _) as [v|m] eqn:En; simpl;
    [|unfold throw; intros [= ]].
  unfold getDb, putDb, ret. simpl.
  destruct (fileUnlinked env) as [[]|m]; simpl; [|intros [= ]].
  intros [= <- <-]. simpl.
  exists who, w1, res, w2, fileId, link, v.
  apply authenticateGoogle_db in Ea.
  pose proof (getUserResources_inv _ _ _ _ _ _ Er) as (Hd & _).
  repeat split; trivial.
  - now rewrite Hd, Ea.
  - unfold submitCalls. rewrite <- !app_assoc. reflexivity.
Qed.

Lemma jsOr_falsy a b : truthy a = false -> jsOr a b = b.
Proof. unfold jsOr. now intros ->. Qed.

Lemma jsOr_truthy a b : truthy a = true -> jsOr a b = a.
Proof. unfold jsOr. now intros ->. Qed.

(** What passes validation is stored as submitted. *)
Lemma newVoucher_Ok id e c no voucherData link sid fid file v :
  newVoucher ToNumber id e c no voucherData link sid fid file = Ok v ->
  castNumber ToNumber no = Some (voucherNo v) /\
  _id v = id /\ email v = e /\ company v = c /\
  date v = VoucherData.date voucherData /\
  payTo v = VoucherData.payTo voucherData /\
  accountHead v = VoucherData.accountHead voucherData /\
  account v = VoucherData.account voucherData /\
  transactionType v = VoucherData.transactionType voucherData /\
  amount v = VoucherData.amount voucherData /\
  amountRs v = VoucherData.amountRs voucherData /\
  checkedBy v = VoucherData.checkedBy voucherData /\
  approvedBy v = VoucherData.approvedBy voucherData /\
  receiverSignature v = VoucherData.receiverSignature voucherData /\
  pdfLink v = link /\ spreadsheetId v = sid /\ folderId v = fid /\
  pdfFileId v = Some file.
Proof.
  unfold newVoucher.
  destruct (castNumber ToNumber no) as [n|]; [|discriminate].
  destruct (String.eqb e "" || String.eqb c ""); [discriminate|].
  destruct (VoucherData.transactionType voucherData) as [t|]; [|discriminate].
  destruct (existsb (String.eqb t) transactionTypes); [|discriminate].
  intros [= <-]. simpl. repeat split; reflexivity.
Qed.

Lemma getUserResources_db e c env w r w' :
  getUserResources e c env w = (r, w') -> db w' = db w.
Proof.
  unfold getUserResources, createSpreadsheet, createDriveFolder,
    bind, call, getDb, ret.
  destruct (findOne _ (db w)); simpl.
  - intros H; inversion H; reflexivity.
  - destruct (spreadsheetCreated env); simpl;
      [|intros H; inversion H; reflexivity].
    destruct (headerWritten env); simpl;
      [|intros H; inversion H; reflexivity].
    destruct (folderCreated env); simpl;
      intros H; inversion H; reflexivity.
Qed.

(** Any submit either leaves the store as it is, or has uploaded the
    document, appended the row and stored the voucher; it then answers 200
    when the local file is removed, and 500 when that removal fails. *)
Lemma submit_inv req voucherData env w reply w' :
  submit ToNumber req voucherData env w = (reply, w') ->
  (db w' = db w /\ forall body, reply <> Sent 200 body) \/
  exists who w1 res w2 fileId link v,
    validFilter (VoucherData.filter voucherData) = true /\
    authenticateGoogle req env w = (Ok who, w1) /\
    getUserResources (user_email (user who))
      (orEmpty (VoucherData.filter voucherData)) env w1 = (Ok res, w2) /\
    truthy (submittedNumber voucherData res) = true /\
    fileUploaded env = Ok (fileId, link) /\
    newVoucher ToNumber (objectId env) (user_email (user who))
      (orEmpty (VoucherData.filter voucherData))
      (submittedNumber voucherData res) voucherData link
      (res_spreadsheetId res) (res_folderId res) fileId = Ok v /\
    db w' = (db w ++ [v])%list /\
    calls w' = (calls w2 ++ submitCalls voucherData res fileId link)%list /\
    ((fileUnlinked env = Ok tt /\
      reply = Sent 200
                (SheetBody "Data submitted successfully and PDF uploaded!"
                   (sheetURLOf (res_spreadsheetId res)) fileId)) \/
     (exists m, fileUnlinked env = Throw m /\
        reply = Sent 500
                  (ErrorBody ("Failed to upload PDF or append to sheet: " ++ m)))).
Proof.
  unfold submit, tryCatch, bind.
  destruct (validFilter (VoucherData.filter voucherData)) eqn:Ef; simpl;
    [|unfold ret; intros [= <- <-]; left; split; [reflexivity | discriminate]].
  destruct (authenticateGoogle req env w) as [[who|m] w1] eqn:Ea;
    [|intros [= <- <-]; left; split;
      [exact (authenticateGoogle_db _ _ _ _ _ Ea) | discriminate]].
  destruct (getUserResources _ _ env w1) as [[res|m] w2] eqn:Er.
  2:{ intros [= <- <-]. left. split; [|discriminate].
      rewrite <- (authenticateGoogle_db _ _ _ _ _ Ea).
      exact (getUserResources_db _ _ _ _ _ _ Er). }
  pose proof (authenticateGoogle_db _ _ _ _ _ Ea) as Ha.
  pose proof (getUserResources_inv _ _ _ _ _ _ Er) as (Hd & _).
  fold (submittedNumber voucherData res).
  destruct (truthy (submittedNumber voucherData res)) eqn:Et; simpl;
    [|unfold throw; intros [= <- <-]; left; split; [congruence | discriminate]].
  destruct (pdfWritten env) as [[]|m];
    [|unfold ret; intros [= <- <-]; left; simpl; split;
      [congruence | discriminate]].
  unfold settle, submitUpload, tryCatch, bind, call. simpl.
  destruct (fileUploaded env) as [[fileId link]|m] eqn:Eu; simpl;
    [|intros [= <- <-]; left; simpl; split; [congruence | discriminate]].
  destruct (rowAppended env) as [[]|m]; simpl;
    [|intros [= <- <-]; left; simpl; split; [congruence | discriminate]].
  destruct (newVoucher ToNumber _ _ _ _ _ _ _ _ _) as [v|m] eqn:En; simpl;
    [|unfold throw; intros [= <- <-]; left; simpl; split;
      [congruence | discriminate]].
  unfold getDb, putDb, ret. simpl.
  destruct (fileUnlinked env) as [[]|m] eqn:El; simpl;
    intros [= <- <-]; simpl; right;
    exists who, w1, res, w2, fileId, link, v;
    (repeat split; trivial;
     [ now rewrite Hd, Ha
     | unfold submitCalls; rewrite <- !app_assoc; reflexivity
     | ]).
  - left. split; reflexivity.
  - right. exists m. split; reflexivity.
Qed.

(** *** The next number against the store *)

Lemma nextNumber_empty e c d :
  vouchersOf e c d = [] -> nextNumber e c d = 1.
Proof.
  intros H. unfold nextNumber, findOneSorted. fold (vouchersOf e c d).
  rewrite H. reflexivity.
Qed.

Lemma nextNumber_highest e c d h :
  In h (vouchersOf e c d) ->
  (forall u, In u (vouchersOf e c d) -> voucherNo u <= voucherNo h) ->
  nextNumber e c d = plusOne (voucherNo h).
Proof.
  unfold vouchersOf. intros Hh Hmax.
  pose proof Hh as Hh'. apply filter_In in Hh'. destruct Hh' as [Hin Hq].
  destruct (findOneSorted_highest _ _ _ Hin Hq) as (h0 & E & Hin0 & Hq0 & Hmax0).
  unfold nextNumber. rewrite E.
  assert (voucherNo h0 <= voucherNo h)
    by (apply Hmax; apply filter_In; now split).
  specialize (Hmax0 h Hin Hq).
  replace (voucherNo h0) with (voucherNo h) by lia. reflexivity.
Qed.

Lemma nextNumber_highestPlusOne e c d :
  highestPlusOne e c d (nextNumber e c d).
Proof.
  unfold highestPlusOne.
  destruct (vouchersOf e c d) as [|x l] eqn:El.
  - left. split; [reflexivity|]. now apply nextNumber_empty.
  - right. rewrite <- El.
    assert (Hx : In x (d)  /\ byEmailCompany e c x = true).
    { apply filter_In. fold (vouchersOf e c d). rewrite El. now left. }
    destruct Hx as [Hin Hq].
    destruct (findOneSorted_highest _ _ _ Hin Hq) as (h & E & Hhin & Hhq & Hmax).
    assert (Hh : In h (vouchersOf e c d)) by (apply filter_In; now split).
    assert (Hm : forall u, In u (vouchersOf e c d) -> voucherNo u <= voucherNo h).
    { intros u Hu. apply filter_In in Hu. destruct Hu. now apply Hmax. }
    exists h. rewrite (nextNumber_highest _ _ _ _ Hh Hm).
    repeat split; trivial. intros Hr. now apply plusOne_exact.
Qed.

(** As long as the numbers of a pair are between 1 and a bound below 2^53,
    the next number is above them all and at most the bound plus one. *)
Lemma nextNumber_fresh e c d k :
  0 <= k < twoTo53 ->
  (forall u, In u (vouchersOf e c d) -> 1 <= voucherNo u <= k) ->
  1 <= nextNumber e c d <= k + 1 /\
  forall u, In u (vouchersOf e c d) -> voucherNo u < nextNumber e c d.
Proof.
  intros Hk Hrange.
  destruct (nextNumber_highestPlusOne e c d)
    as [[E ->]|(h & Hh & Hmax & _ & Hn)].
  - rewrite E. split; [lia | intros u []].
  - specialize (Hrange h Hh). rewrite Hn by (unfold twoTo53 in *; lia).
    split; [lia|]. intros u Hu. specialize (Hmax u Hu). lia.
Qed.

Lemma nextNumber_app_other e c d v :
  byEmailCompany e c v = false -> nextNumber e c (d ++ [v]) = nextNumber e c d.
Proof.
  intros H. unfold nextNumber, findOneSorted.
  rewrite filter_app. simpl. rewrite H, app_nil_r. reflexivity.
Qed.

Lemma vouchersOf_app e c d1 d2 :
  vouchersOf e c (d1 ++ d2) = (vouchersOf e c d1 ++ vouchersOf e c d2)%list.
Proof. apply filter_app. Qed.

Lemma vouchersOf_snoc e c d v :
  vouchersOf e c (d ++ [v]) =
    (vouchersOf e c d ++ if byEmailCompany e c v then [v] else [])%list.
Proof. unfold vouchersOf. rewrite filter_app. simpl.
  now destruct (byEmailCompany e c v). Qed.

Lemma nextNumber_app_same e c d v :
  byEmailCompany e c v = true ->
  (forall u, In u (vouchersOf e c d) -> voucherNo u <= voucherNo v) ->
  nextNumber e c (d ++ [v]) = plusOne (voucherNo v).
Proof.
  intros Hq Hmax. apply nextNumber_highest.
  - rewrite vouchersOf_snoc, Hq. apply in_or_app. right. now left.
  - intros u Hu. rewrite vouchersOf_snoc, Hq in Hu.
    apply in_app_or in Hu. destruct Hu as [Hu|[<-|[]]]; [now apply Hmax | lia].
Qed.

Lemma counted_app d v :
  counted d -> voucherNo v = nextNumber (email v) (company v) d ->
  counted (d ++ [v]).
Proof.
  intros Hc Hn e c. rewrite vouchersOf_snoc.
  destruct (byEmailCompany e c v) eqn:Eq.
  - pose proof Eq as Eq'. apply byEmailCompany_true in Eq'. destruct Eq' as [<- <-].
    rewrite length_app. simpl. intros Hb.
    destruct (Hc (email v) (company v)) as [Hnext Hrange]; [lia|].
    rewrite Hnext in Hn.
    split.
    + rewrite (nextNumber_app_same _ _ _ _ Eq).
      * rewrite Hn. rewrite plusOne_exact; unfold twoTo53 in *; lia.
      * intros u Hu. specialize (Hrange u Hu). lia.
    + intros u Hu. apply in_app_or in Hu. destruct Hu as [Hu|[<-|[]]].
      * specialize (Hrange u Hu). lia.
      * lia.
  - rewrite app_nil_r. rewrite (nextNumber_app_other _ _ _ _ Eq). apply Hc.
Qed.

Lemma counted_nil : counted [].
Proof. intros e c _. split; [reflexivity | intros u []]. Qed.

(** A submission that leaves the number to the server stores, when it
    stores, a voucher of the caller and the requested company under the next
    number. *)
Lemma plain_submit_stores req voucherData env w reply w' :
  truthy (VoucherData.voucherNo voucherData) = false ->
  submit ToNumber req voucherData env w = (reply, w') ->
  db w' = db w \/
  exists v,
    db w' = (db w ++ [v])%list /\
    VoucherData.filter voucherData = Some (company v) /\
    voucherNo v = nextNumber (email v) (company v) (db w).
Proof.
  intros Hf H.
  destruct (submit_inv _ _ _ _ _ _ H)
    as [[Hd _]|(who & w1 & res & w2 & fileId & link & v &
                Hv & Ha & Hr & _ & _ & Hn & Hd & _)]; [now left|].
  right. exists v. split; [exact Hd|].
  apply newVoucher_Ok in Hn.
  destruct Hn as (Hno & _ & He & Hc & _).
  unfold submittedNumber in Hno. rewrite (jsOr_falsy _ _ Hf) in Hno.
  simpl in Hno. injection Hno as Hno.
  apply getUserResources_inv in Hr. destruct Hr as (_ & Hr & _).
  apply authenticateGoogle_db in Ha.
  split.
  - destruct (VoucherData.filter voucherData); [|discriminate].
    simpl in Hc. now rewrite Hc.
  - rewrite <- Hno, Hr, He, Hc, Ha. reflexivity.
Qed.

Lemma plain_submit_appends req voucherData env w body w' :
  truthy (VoucherData.voucherNo voucherData) = false ->
  submit ToNumber req voucherData env w = (Sent 200 body, w') ->
  exists v,
    db w' = (db w ++ [v])%list /\
    VoucherData.filter voucherData = Some (company v) /\
    voucherNo v = nextNumber (email v) (company v) (db w).
Proof.
  intros Hf H.
  destruct (submit_sent_200 _ _ _ _ _ _ H)
    as (who & w1 & res & w2 & fileId & link & v &
        Hv & Ha & Hr & _ & _ & Hn & Hd & _).
  exists v. split; [exact Hd|].
  apply newVoucher_Ok in Hn.
  destruct Hn as (Hno & _ & He & Hc & _).
  unfold submittedNumber in Hno. rewrite (jsOr_falsy _ _ Hf) in Hno.
  simpl in Hno. injection Hno as Hno.
  apply getUserResources_inv in Hr. destruct Hr as (_ & Hr & _).
  apply authenticateGoogle_db in Ha.
  split.
  - destruct (VoucherData.filter voucherData); [|discriminate].
    simpl in Hc. now rewrite Hc.
  - rewrite <- Hno, Hr, He, Hc, Ha. reflexivity.
Qed.

Lemma serve_plain_counted rs :
  (forall r, In r rs -> plainSubmit r = true) ->
  forall w, counted (db w) -> counted (db (serve ToNumber ToObjectId rs w)).
Proof.
  induction rs as [|r rs IH]; intros Hall w Hc; simpl; [exact Hc|].
  apply IH; [intros r' Hr'; apply Hall; now right|].
  assert (Hp : plainSubmit r = true) by (apply Hall; now left).
  destruct r as [req voucherData env| | | |]; try discriminate.
  simpl in Hp. apply negb_true_iff in Hp. simpl.
  destruct (submit ToNumber req voucherData env w) as [reply w1] eqn:E. simpl.
  destruct (plain_submit_stores _ _ _ _ _ _ Hp E) as [Hd|(v & Hd & _ & Hn)].
  - now rewrite Hd.
  - rewrite Hd. now apply counted_app.
Qed.

(** C2, amended.  A successful submission that leaves the number to the
    server is stored under the sum of the highest number of its owner and
    company and 1 as the program's numbers add, which is that number plus
    one as long as the sum is at most 2^53 in absolute value, and under 1
    when the pair has no voucher.  After a sequence of such submissions from
    the empty store (no deletion), that number is the count of the pair's
    earlier stored submissions plus one, as long as that count is below
    2^53. *)
Theorem submit_number_is_next (req : Credentials) (voucherData : VoucherData.t)
    (env : Env) (w : World) (body : Body) (w' : World) :
  truthy (VoucherData.voucherNo voucherData) = false ->
  submit ToNumber req voucherData env w = (Sent 200 body, w') ->
  exists v,
    db w' = (db w ++ [v])%list /\
    VoucherData.filter voucherData = Some (company v) /\
    highestPlusOne (email v) (company v) (db w) (voucherNo v) /\
    (forall rs,
       (forall r, In r rs -> plainSubmit r = true) ->
       w = serve ToNumber ToObjectId rs emptyWorld ->
       Z.of_nat (List.length (vouchersOf (email v) (company v) (db w))) < twoTo53 ->
       voucherNo v =
         Z.of_nat (List.length (vouchersOf (email v) (company v) (db w))) + 1).
Proof.
  intros Hf H.
  destruct (plain_submit_appends _ _ _ _ _ _ Hf H) as (v & Hd & Hc & Hn).
  exists v. repeat split; trivial.
  - rewrite Hn. apply nextNumber_highestPlusOne.
  - intros rs Hall -> Hb. rewrite Hn.
    apply (serve_plain_counted rs Hall emptyWorld counted_nil); exact Hb.
Qed.

(** *** The appended row and the header *)


(** *** Numbers supplied by the client *)

(** C4.  A truthy number in the body of a submit is the number stored:
    every successful submit that carries a non-zero number [n] stores its
    voucher under [n], whatever the store holds.  So there is a submit,
    after one earlier voucher of the same owner and company, whose voucher
    is stored under the number of the earlier one instead of the next
    number: the pair then has two vouchers of one number, and the later
    number is not above the earlier. *)
Theorem submit_client_number :
  (forall req voucherData env w body w' n,
     VoucherData.voucherNo voucherData = JNumber n -> n <> 0 ->
     submit ToNumber req voucherData env w = (Sent 200 body, w') ->
     exists v, db w' = (db w ++ [v])%list /\ voucherNo v = n)
  /\
  (exists req voucherData env w body w' u v,
     truthy (VoucherData.voucherNo voucherData) = true /\
     submit ToNumber req voucherData env w = (Sent 200 body, w') /\
     db w = [u] /\ db w' = [u; v] /\
     VoucherData.voucherNo voucherData = JNumber (voucherNo v) /\
     voucherNo v <> nextNumber (email v) (company v) (db w) /\
     email u = email v /\ company u = company v /\
     voucherNo u = voucherNo v /\ _id u <> _id v).
Proof.
  split.
  - intros req voucherData env w body w' n Hn Hz H.
    destruct (submit_sent_200 _ _ _ _ _ _ H)
      as (who & w1 & res & w2 & fileId & link & v & _ & _ & _ & _ & _ & Hv & Hd & _).
    exists v. split; [exact Hd|].
    apply newVoucher_Ok in Hv. destruct Hv as (Hno & _).
    unfold submittedNumber in Hno. rewrite Hn in Hno.
    rewrite jsOr_truthy in Hno
      by (simpl; apply negb_true_iff, Z.eqb_neq; exact Hz).
    simpl in Hno. congruence.
  - exists aliceSession, (cashVoucher "Contentstack" (JNumber 1)),
      (okEnv "sheet-2" "folder-2" "file-2" "65f000000000000000000002" []),
      (serve ToNumber ToObjectId [firstSubmit] emptyWorld).
    eexists _, _, _, _.
    split; [reflexivity|].
    split; [reflexivity|].
    split; [reflexivity|].
    split; [reflexivity|].
    split; [reflexivity|].
    split; [vm_compute; discriminate|].
    repeat split; try reflexivity.
    vm_compute. discriminate.
Qed.

(** ** Edit and delete *)

(** C5, amended.  An edit request with a category of the registry, from an
    identified caller, whose record id is well formed (it casts to an id) and
    is not the id of a voucher of that caller, is answered 404 "Voucher not
    found"; it writes to no spreadsheet, uploads and deletes no document and
    leaves the record store as it is.  A request whose category is not in the
    registry is answered 400 "Invalid filter option" before the voucher is
    looked up, and a request whose record id does not cast to an id is
    answered 500 by the handler's own catch; they change nothing either. *)
Theorem edit_unknown_voucher (req : Credentials) (voucherId : string)
    (voucherData : VoucherData.t) (env : Env) (w : World) :
  (validFilter (VoucherData.filter voucherData) = false ->
   editVoucher ToNumber ToObjectId req voucherId voucherData env w =
     (Sent 400 (ErrorBody "Invalid filter option"), w))
  /\
  (forall who w1,
     validFilter (VoucherData.filter voucherData) = true ->
     authenticateGoogle req env w = (Ok who, w1) ->
     (forall recordId,
        ToObjectId voucherId = Some recordId ->
        (forall v, In v (db w) ->
                   ~ (_id v = recordId /\ email v = user_email (user who))) ->
        editVoucher ToNumber ToObjectId req voucherId voucherData env w =
          (Sent 404 (ErrorBody "Voucher not found"), w1)) /\
     (ToObjectId voucherId = None ->
        exists m,
          editVoucher ToNumber ToObjectId req voucherId voucherData env w =
            (Sent 500 (ErrorBody ("Failed to edit voucher: " ++ m)), w1)) /\
     db w1 = db w /\
     exists l, calls w1 = (calls w ++ l)%list /\
               forallb (fun c => negb (mutation c)) l = true).
Proof.
  split.
  - intros Hf. unfold editVoucher, tryCatch. rewrite Hf. reflexivity.
  - intros who w1 Hf Ha.
    pose proof (authenticateGoogle_db _ _ _ _ _ Ha) as Hd.
    split; [|split; [|split;
      [exact Hd | exact (authenticateGoogle_calls _ _ _ _ _ Ha)]]].
    + intros recordId Hid Hnone.
      unfold editVoucher, tryCatch, bind. rewrite Hf. simpl. rewrite Ha, Hid.
      assert (E : findOne (byIdEmail recordId (user_email (user who))) (db w1) = None).
      { apply findOne_None. intros v Hv. rewrite Hd in Hv.
        destruct (byIdEmail recordId (user_email (user who)) v) eqn:Eq; [|reflexivity].
        apply byIdEmail_true in Eq. destruct (Hnone v Hv Eq). }
      unfold getDb. rewrite E. reflexivity.
    + intros Hid. eexists.
      unfold editVoucher, tryCatch, bind. rewrite Hf. simpl. rewrite Ha, Hid.
      reflexivity.
Qed.

Lemma deleteOldPdf_ok v env w :
  (textTruthy (pdfFileId v) = true -> fileDeleted env = Ok tt) ->
  deleteOldPdf v env w = (Ok tt, mkWorld (db w) (calls w ++ oldPdfCalls v)).
Proof.
  unfold deleteOldPdf, oldPdfCalls, call, ret.
  destruct (textTruthy (pdfFileId v)); intros H.
  - now rewrite H.
  - now rewrite app_nil_r, world_eta.
Qed.

(** C6.  When no row of the sheet has the voucher number in its first
    cell, delete goes on: it clears no row, removes the record (the first
    stored voucher with that number and owner, and nothing else) and answers
    200; edit stops: it answers 500 "Voucher not found in sheet", updates no
    row and leaves the record store as it is. *)
Theorem row_not_found_delete_proceeds_edit_aborts (req : Credentials)
    (env : Env) (w : World) (who : Identity) (w1 : World) (v : Voucher)
    (rows : option (list (list jsval))) :
  authenticateGoogle req env w = (Ok who, w1) ->
  (textTruthy (pdfFileId v) = true -> fileDeleted env = Ok tt) ->
  rowsRead env = Ok rows ->
  locateRow ToNumber (valuesOrEmpty rows) (voucherNo v) = None ->
  (forall param,
     ToNumber param = Some (voucherNo v) ->
     findOne (byNumberEmail (voucherNo v) (user_email (user who))) (db w) = Some v ->
     exists w',
       deleteVoucher ToNumber req param env w =
         (Sent 200 (MessageBody "Voucher deleted successfully!"), w') /\
       db w' = deleteOne (byNumberEmail (voucherNo v) (user_email (user who))) (db w) /\
       (exists l1 l2,
          db w = (l1 ++ v :: l2)%list /\ db w' = (l1 ++ l2)%list /\
          forall u, In u l1 ->
            ~ (voucherNo u = voucherNo v /\ email u = user_email (user who))) /\
       List.length (db w) = S (List.length (db w')) /\
       calls w' =
         (calls w1 ++ oldPdfCalls v ++
            [ValuesGet (spreadsheetId v) (DataRange (company v))])%list)
  /\
  (forall voucherId recordId voucherData uploaded,
     validFilter (VoucherData.filter voucherData) = true ->
     ToObjectId voucherId = Some recordId ->
     findOne (byIdEmail recordId (user_email (user who))) (db w) = Some v ->
     pdfWritten env = Ok tt ->
     fileUploaded env = Ok uploaded ->
     exists w',
       editVoucher ToNumber ToObjectId req voucherId voucherData env w =
         (Sent 500 (ErrorBody "Failed to update voucher: Voucher not found in sheet"),
          w') /\
       db w' = db w /\
       forall c, In c (calls w') ->
         match c with ValuesUpdate _ _ _ => In c (calls w1) | _ => True end).
Proof.
  intros Ha Hdel Hrows Hloc.
  pose proof (authenticateGoogle_db _ _ _ _ _ Ha) as Hd.
  split.
  - intros param Hp Hfind.
    destruct (deleteOne_first _ _ _ Hfind) as (l1 & l2 & El & Ed & Hl1).
    rewrite <- Hd in Hfind.
    eexists. unfold deleteVoucher, tryCatch, bind.
    rewrite Ha, Hp. unfold getDb at 1. rewrite Hfind.
    rewrite (deleteOldPdf_ok _ _ _ Hdel).
    unfold call at 1. simpl. rewrite Hrows, Hloc. simpl.
    rewrite Hd, <- app_assoc.
    split; [reflexivity|]. split; [reflexivity|].
    split; [|split; [|reflexivity]].
    + exists l1, l2. repeat split; trivial.
      intros u Hu Hq. apply byNumberEmail_true in Hq.
      rewrite (Hl1 u Hu) in Hq. discriminate.
    + simpl. rewrite Ed, El. repeat rewrite length_app. simpl. lia.
  - intros voucherId recordId voucherData uploaded Hf Hid Hfind Hpdf Hup.
    rewrite <- Hd in Hfind.
    eexists. unfold editVoucher, tryCatch, bind.
    rewrite Hf. simpl. rewrite Ha, Hid. simpl. rewrite Hfind, Hpdf.
    unfold settle, editUpload, tryCatch, bind.
    rewrite (deleteOldPdf_ok _ _ _ Hdel).
    unfold call. simpl. rewrite Hup, Hrows, Hloc. unfold throw. simpl.
    split; [reflexivity|]. split; [exact Hd|].
    intros c Hc. destruct c; trivial.
    repeat (apply in_app_or in Hc; destruct Hc as [Hc|Hc]); trivial;
      try (simpl in Hc; destruct Hc as [Hc|Hc]; [discriminate | destruct Hc]).
    unfold oldPdfCalls in Hc.
    destruct (textTruthy (pdfFileId v)); simpl in Hc;
      [destruct Hc as [Hc|[]]; discriminate | destruct Hc].
Qed.

(** ** Provisioning through submit *)

Lemma submitCalls_no_creation voucherData res fileId link c :
  In c (submitCalls voucherData res fileId link) -> creation c = false.
Proof.
  unfold submitCalls. simpl.
  intros [<-|[<-|[<-|[<-|[]]]]]; reflexivity.
Qed.

(** C7.  A successful submit for an owner and a company that already has
    a voucher stores the new voucher with the spreadsheet and folder ids of
    a stored voucher of the pair and creates no spreadsheet and no folder.
    A successful submit for a pair without voucher, as for a further company
    of an owner, creates a spreadsheet and a folder and stores their ids:
    they differ from the ids of every stored voucher the services did not
    answer again. *)
Theorem submit_provisioning (req : Credentials) (voucherData : VoucherData.t)
    (env : Env) (w : World) (body : Body) (w' : World) :
  submit ToNumber req voucherData env w = (Sent 200 body, w') ->
  exists v,
    db w' = (db w ++ [v])%list /\
    ((exists u, In u (db w) /\ email u = email v /\ company u = company v) ->
     (exists u, In u (db w) /\ email u = email v /\ company u = company v /\
                spreadsheetId v = spreadsheetId u /\ folderId v = folderId u) /\
     (forall c, In c (calls w') -> creation c = true -> In c (calls w)))
    /\
    ((forall u, In u (db w) -> ~ (email u = email v /\ company u = company v)) ->
     spreadsheetCreated env = Ok (spreadsheetId v) /\
     folderCreated env = Ok (folderId v) /\
     (exists l1 l2,
        calls w' =
          (l1 ++ provisioningCalls (company v) (spreadsheetId v) ++ l2)%list) /\
     (forall u, In u (db w) ->
        spreadsheetCreated env <> Ok (spreadsheetId u) ->
        folderCreated env <> Ok (folderId u) ->
        spreadsheetId v <> spreadsheetId u /\ folderId v <> folderId u)).
Proof.
  intros H.
  destruct (submit_sent_200 _ _ _ _ _ _ H)
    as (who & w1 & res & w2 & fileId & link & v &
        Hf & Ha & Hr & _ & _ & Hv & Hd & Hc & _).
  exists v. split; [exact Hd|].
  apply newVoucher_Ok in Hv.
  destruct Hv as (_ & _ & He & Hco & _ & _ & _ & _ & _ & _ & _ & _ & _ & _ & _ & Hs & Hfo & _).
  pose proof (authenticateGoogle_db _ _ _ _ _ Ha) as Hd1.
  destruct (authenticateGoogle_calls _ _ _ _ _ Ha) as (la & Hla & Hnm).
  apply getUserResources_inv in Hr. destruct Hr as (_ & _ & Hr).
  rewrite Hd1, <- He, <- Hco in Hr.
  split.
  - intros (u & Hu & Hue & Huc).
    assert (Hq : byEmailCompany (email v) (company v) u = true)
      by (apply byEmailCompany_true; auto).
    destruct (findOne_exists _ _ _ Hu Hq) as [u' Hu'].
    rewrite Hu' in Hr. destruct Hr as (Hrs & Hrf & ->).
    apply findOne_Some in Hu'. destruct Hu' as [Hin' Hq'].
    apply byEmailCompany_true in Hq'. destruct Hq' as [He' Hc'].
    split.
    + exists u'. repeat split; trivial; congruence.
    + intros c Hin Hcr. rewrite Hc, Hla in Hin.
      apply in_app_or in Hin. destruct Hin as [Hin|Hin].
      * apply in_app_or in Hin. destruct Hin as [Hin|Hin]; [exact Hin|].
        rewrite forallb_forall in Hnm. specialize (Hnm c Hin).
        destruct c; simpl in *; discriminate.
      * apply submitCalls_no_creation in Hin. congruence.
  - intros Hnone.
    assert (E : findOne (byEmailCompany (email v) (company v)) (db w) = None).
    { apply findOne_None. intros u Hu.
      destruct (byEmailCompany (email v) (company v) u) eqn:Eq; [|reflexivity].
      apply byEmailCompany_true in Eq. destruct (Hnone u Hu Eq). }
    rewrite E in Hr. destruct Hr as (Hrs & Hrf & Hrc).
    rewrite <- Hs in Hrs, Hrc. rewrite <- Hfo in Hrf.
    repeat split; trivial.
    + exists (calls w1), (submitCalls voucherData res fileId link).
      rewrite Hc, Hrc, <- app_assoc. reflexivity.
    + intros Heq. rewrite Heq in Hrs. contradiction.
    + intros Heq. rewrite Heq in Hrf. contradiction.
Qed.

(** ** Submit, then list *)

Lemma listQuery_owner e v :
  listQuery e None None v = String.eqb (email v) e.
Proof. unfold listQuery. simpl. now rewrite !andb_true_r. Qed.

Lemma filter_listQuery_owner e d :
  List.filter (listQuery e None None) d = ownedBy e d.
Proof.
  unfold ownedBy. apply filter_ext. intros v. apply listQuery_owner.
Qed.

(** The list of an identified caller without filters. *)
Lemma listVouchers_owner req env w who w1 :
  authenticateGoogle req env w = (Ok who, w1) ->
  listVouchers req None None None env w =
    (Sent 200
       (VouchersBody (sortBy numberAscending (ownedBy (user_email (user who)) (db w)))),
     w1).
Proof.
  intros Ha. unfold listVouchers, tryCatch, bind. rewrite Ha.
  unfold getDb, ret. simpl.
  rewrite filter_listQuery_owner, (authenticateGoogle_db _ _ _ _ _ Ha).
  reflexivity.
Qed.

(** C8, amended.  After a successful submit, the list of the owner holds
    the vouchers the owner had before and one new voucher: the new voucher
    carries the submitted fields and the link the document store returned for
    the uploaded document, a non-empty link when the store returned one.  It
    is the only voucher of the list when the owner had none before. *)
Theorem submit_then_list (req : Credentials) (voucherData : VoucherData.t)
    (env : Env) (w : World) (body : Body) (w' : World) :
  submit ToNumber req voucherData env w = (Sent 200 body, w') ->
  exists who w1 v fileId,
    authenticateGoogle req env w = (Ok who, w1) /\
    email v = user_email (user who) /\
    db w' = (db w ++ [v])%list /\
    submittedAs voucherData v /\
    fileUploaded env = Ok (fileId, pdfLink v) /\
    (forall link, fileUploaded env = Ok (fileId, link) ->
                  textTruthy link = true ->
                  exists s, pdfLink v = Some s /\ s <> "") /\
    forall req2 env2 who2 w2,
      authenticateGoogle req2 env2 w' = (Ok who2, w2) ->
      user_email (user who2) = email v ->
      exists l,
        listVouchers req2 None None None env2 w' = (Sent 200 (VouchersBody l), w2) /\
        Permutation l (v :: ownedBy (email v) (db w)) /\
        (ownedBy (email v) (db w) = [] -> l = [v]).
Proof.
  intros H.
  destruct (submit_sent_200 _ _ _ _ _ _ H)
    as (who & w1 & res & w2 & fileId & link & v &
        Hf & Ha & _ & _ & Hu & Hv & Hd & _).
  exists who, w1, v, fileId.
  apply newVoucher_Ok in Hv.
  destruct Hv as (_ & _ & He & Hco & H1 & H2 & H3 & H4 & H5 & H6 & H7 & H8
                  & H9 & H10 & Hl & _).
  split; [exact Ha|]. split; [exact He|]. split; [exact Hd|].
  split.
  { unfold submittedAs. repeat split; trivial.
    destruct (VoucherData.filter voucherData); [|discriminate].
    simpl in Hco. now rewrite Hco. }
  split; [now rewrite Hl|].
  split.
  { intros link' Hu' Ht. rewrite Hu in Hu'. injection Hu' as <-.
    rewrite Hl. destruct link as [s|]; [|discriminate].
    exists s. split; [reflexivity|]. intros ->. discriminate. }
  intros req2 env2 who2 w3 Ha2 He2.
  eexists. split; [apply (listVouchers_owner _ _ _ _ _ Ha2)|].
  rewrite He2, Hd. unfold ownedBy. rewrite filter_app. simpl.
  rewrite String.eqb_refl.
  split.
  - eapply Permutation_trans; [apply sortBy_perm|].
    apply Permutation_sym, Permutation_cons_append.
  - intros ->. reflexivity.
Qed.

(** ** Edit *)

Lemma deleteOldPdf_Ok v env w u w' :
  deleteOldPdf v env w = (Ok u, w') ->
  w' = mkWorld (db w) (calls w ++ oldPdfCalls v).
Proof.
  unfold deleteOldPdf, oldPdfCalls, call, ret.
  destruct (textTruthy (pdfFileId v)).
  - intros [= _ <-]. reflexivity.
  - intros [= _ <-]. now rewrite app_nil_r, world_eta.
Qed.

(** What an edit answered with status 200 has done. *)
Lemma editVoucher_sent_200 req voucherId voucherData env w body w' :
  editVoucher ToNumber ToObjectId req voucherId voucherData env w = (Sent 200 body, w') ->
  exists who w1 recordId v fileId link rows rowIndex,
    validFilter (VoucherData.filter voucherData) = true /\
    authenticateGoogle req env w = (Ok who, w1) /\
    ToObjectId voucherId = Some recordId /\
    findOne (byIdEmail recordId (user_email (user who))) (db w) = Some v /\
    fileUploaded env = Ok (fileId, link) /\
    rowsRead env = Ok rows /\
    locateRow ToNumber (valuesOrEmpty rows) (voucherNo v) = Some rowIndex /\
    db w' = updateOne (byIdEmail recordId (user_email (user who)))
              (applyEdit voucherData link fileId) (db w) /\
    calls w' = (calls w1 ++ editCalls voucherData v link rowIndex)%list.
Proof.
  unfold editVoucher, tryCatch, bind.
  destruct (validFilter (VoucherData.filter voucherData)) eqn:Ef; simpl;
    [|unfold ret; intros [= ]].
  destruct (authenticateGoogle req env w) as [[who|m] w1] eqn:Ea; [|intros [= ]].
  destruct (ToObjectId voucherId) as [recordId|] eqn:Eid;
    [|unfold throw; intros [= ]].
  destruct (findOne _ (db w1)) as [v|] eqn:Efind; [|unfold ret; intros [= ]].
  destruct (pdfWritten env) as [[]|m]; [|unfold ret; intros [= ]].
  unfold settle, editUpload, tryCatch, bind.
  destruct (deleteOldPdf v env _) as [[u|m] w2] eqn:Edel; [|intros [= ]].
  apply deleteOldPdf_Ok in Edel. subst w2.
  unfold call. simpl.
  destruct (fileUploaded env) as [[fileId link]|m] eqn:Eu; simpl; [|intros [= ]].
  destruct (rowsRead env) as [rows|m] eqn:Erows; simpl; [|intros [= ]].
  destruct (locateRow ToNumber (valuesOrEmpty rows) (voucherNo v)) as [i|] eqn:Eloc;
    [|unfold throw; intros [= ]].
  destruct (rowUpdated env) as [[]|m]; simpl; [|intros [= ]].
  destruct (fileUnlinked env) as [[]|m]; simpl; [|intros [= ]].
  intros [= <- <-]. simpl.
  pose proof (authenticateGoogle_db _ _ _ _ _ Ea) as Hd.
  rewrite Hd in Efind.
  exists who, w1, recordId, v, fileId, link, rows, i.
  repeat split; trivial.
  - now rewrite Hd.
  - unfold editCalls. rewrite <- !app_assoc. reflexivity.
Qed.

Lemma deleteOldPdf_db v env w r w' :
  deleteOldPdf v env w = (r, w') -> db w' = db w.
Proof.
  unfold deleteOldPdf, call, ret.
  destruct (textTruthy (pdfFileId v)); intros H; inversion H; reflexivity.
Qed.

(** Any edit either leaves the store as it is, or has replaced the
    document, overwritten the row and updated the voucher; it then answers
    200 when the local file is removed, and 500 when that removal fails. *)
Lemma editVoucher_inv req voucherId voucherData env w reply w' :
  editVoucher ToNumber ToObjectId req voucherId voucherData env w = (reply, w') ->
  (db w' = db w /\ forall body, reply <> Sent 200 body) \/
  exists who w1 recordId v fileId link rows rowIndex,
    validFilter (VoucherData.filter voucherData) = true /\
    authenticateGoogle req env w = (Ok who, w1) /\
    ToObjectId voucherId = Some recordId /\
    findOne (byIdEmail recordId (user_email (user who))) (db w) = Some v /\
    fileUploaded env = Ok (fileId, link) /\
    rowsRead env = Ok rows /\
    locateRow ToNumber (valuesOrEmpty rows) (voucherNo v) = Some rowIndex /\
    db w' = updateOne (byIdEmail recordId (user_email (user who)))
              (applyEdit voucherData link fileId) (db w) /\
    calls w' = (calls w1 ++ editCalls voucherData v link rowIndex)%list /\
    ((fileUnlinked env = Ok tt /\
      reply = Sent 200
                (SheetBody "Voucher updated successfully!"
                   (sheetURLOf (spreadsheetId v)) fileId)) \/
     (exists m, fileUnlinked env = Throw m /\
        reply = Sent 500 (ErrorBody ("Failed to update voucher: " ++ m)))).
Proof.
  unfold editVoucher, tryCatch, bind.
  destruct (validFilter (VoucherData.filter voucherData)) eqn:Ef; simpl;
    [|unfold ret; intros [= <- <-]; left; split; [reflexivity | discriminate]].
  destruct (authenticateGoogle req env w) as [[who|m] w1] eqn:Ea;
    [|intros [= <- <-]; left; split;
      [exact (authenticateGoogle_db _ _ _ _ _ Ea) | discriminate]].
  pose proof (authenticateGoogle_db _ _ _ _ _ Ea) as Hd.
  destruct (ToObjectId voucherId) as [recordId|] eqn:Eid;
    [|unfold throw; intros [= <- <-]; left; split; [exact Hd | discriminate]].
  destruct (findOne _ (db w1)) as [v|] eqn:Efind;
    [|unfold ret; intros [= <- <-]; left; split; [exact Hd | discriminate]].
  destruct (pdfWritten env) as [[]|m];
    [|unfold ret; intros [= <- <-]; left; simpl; split;
      [exact Hd | discriminate]].
  unfold settle, editUpload, tryCatch, bind.
  destruct (deleteOldPdf v env _) as [[u|m] w2] eqn:Edel.
  2:{ apply deleteOldPdf_db in Edel. simpl in Edel.
      intros [= <- <-]. left. split; [congruence | discriminate]. }
  apply deleteOldPdf_Ok in Edel. subst w2.
  unfold call. simpl.
  destruct (fileUploaded env) as [[fileId link]|m] eqn:Eu; simpl;
    [|intros [= <- <-]; left; simpl; split; [exact Hd | discriminate]].
  destruct (rowsRead env) as [rows|m] eqn:Erows; simpl;
    [|intros [= <- <-]; left; simpl; split; [exact Hd | discriminate]].
  destruct (locateRow ToNumber (valuesOrEmpty rows) (voucherNo v)) as [i|] eqn:Eloc;
    [|unfold throw; intros [= <- <-]; left; simpl; split;
      [exact Hd | discriminate]].
  destruct (rowUpdated env) as [[]|m]; simpl;
    [|intros [= <- <-]; left; simpl; split; [exact Hd | discriminate]].
  rewrite Hd in Efind.
  destruct (fileUnlinked env) as [[]|m] eqn:El; simpl;
    intros [= <- <-]; simpl; right;
    exists who, w1, recordId, v, fileId, link, rows, i;
    (repeat split; trivial;
     [ now rewrite Hd
     | unfold editCalls; rewrite <- !app_assoc; reflexivity
     | ]).
  - left. split; reflexivity.
  - right. exists m. split; reflexivity.
Qed.

Lemma updateOne_split q f d v :
  findOne q d = Some v ->
  exists l1 l2, d = (l1 ++ v :: l2)%list /\ updateOne q f d = (l1 ++ f v :: l2)%list.
Proof.
  unfold findOne. induction d as [|x d IH]; simpl; [discriminate|].
  destruct (q x).
  - intros [= ->]. now exists [], d.
  - intros H. destruct (IH H) as (l1 & l2 & -> & ->).
    now exists (x :: l1), l2.
Qed.

(** C9.  A successful edit replaces one stored voucher of the caller, the
    one with the id the requested id casts to, and nothing else; the replacement has the id,
    owner email, company, voucher number, spreadsheet id and folder id of
    the replaced voucher, whatever category the request names: it is the
    stored voucher with the content fields, the document link and the
    document id set.  The number drawn on the new document is the stored
    number. *)
Theorem edit_keeps_identity (req : Credentials) (voucherId : string)
    (voucherData : VoucherData.t) (env : Env) (w : World) (body : Body)
    (w' : World) :
  editVoucher ToNumber ToObjectId req voucherId voucherData env w = (Sent 200 body, w') ->
  exists v v' l1 l2 fileId link name doc,
    db w = (l1 ++ v :: l2)%list /\
    db w' = (l1 ++ v' :: l2)%list /\
    ToObjectId voucherId = Some (_id v) /\
    _id v' = _id v /\
    email v' = email v /\
    company v' = company v /\
    voucherNo v' = voucherNo v /\
    spreadsheetId v' = spreadsheetId v /\
    folderId v' = folderId v /\
    fileUploaded env = Ok (fileId, link) /\
    v' = applyEdit voucherData link fileId v /\
    In (WriteFile name doc) (calls w') /\
    In (FilesCreate name (folderId v) doc) (calls w') /\
    doc_voucherNo doc = JNumber (voucherNo v).
Proof.
  intros H.
  destruct (editVoucher_sent_200 _ _ _ _ _ _ _ H)
    as (who & w1 & recordId & v & fileId & link & rows & i &
        Hf & Ha & Hcast & Hfind & Hu & Hrows & Hloc & Hd & Hc).
  destruct (updateOne_split _ (applyEdit voucherData link fileId) _ _ Hfind)
    as (l1 & l2 & E1 & E2).
  exists v, (applyEdit voucherData link fileId v), l1, l2, fileId, link,
    (mkPdfName (orEmpty (VoucherData.filter voucherData)) (JNumber (voucherNo v))),
    (renderVoucher voucherData (JNumber (voucherNo v))).
  apply findOne_Some in Hfind. destruct Hfind as [_ Hq].
  apply byIdEmail_true in Hq. destruct Hq as [Hid _].
  rewrite <- Hid in Hcast.
  rewrite Hd, E2, Hc. unfold editCalls.
  repeat split; trivial.
  - apply in_or_app. right. simpl. auto.
  - apply in_or_app. right. apply in_or_app. right.
    apply in_or_app. right. simpl. auto.
Qed.

(** ** Delete *)

Lemma clearRow_Ok v rowIndex env w u w' :
  clearRow v rowIndex env w = (Ok u, w') ->
  w' = mkWorld (db w)
         (calls w ++
          match rowIndex with
          | Some i =>
              [ValuesClear (spreadsheetId v) (RowRange (company v) (Z.of_nat i + 2))]
          | None => []
          end).
Proof.
  unfold clearRow, call, ret. destruct rowIndex.
  - intros [= _ <-]. reflexivity.
  - intros [= _ <-]. now rewrite app_nil_r, world_eta.
Qed.

(** What a delete answered with status 200 has done. *)
Lemma deleteVoucher_sent_200 req param env w body w' :
  deleteVoucher ToNumber req param env w = (Sent 200 body, w') ->
  exists who w1 n v rows,
    authenticateGoogle req env w = (Ok who, w1) /\
    ToNumber param = Some n /\
    findOne (byNumberEmail n (user_email (user who))) (db w) = Some v /\
    rowsRead env = Ok rows /\
    db w' = deleteOne (byNumberEmail n (user_email (user who))) (db w) /\
    calls w' = (calls w1 ++ deleteCalls v (locateRow ToNumber (valuesOrEmpty rows) n))%list.
Proof.
  unfold deleteVoucher, tryCatch, bind.
  destruct (authenticateGoogle req env w) as [[who|m] w1] eqn:Ea; [|intros [= ]].
  destruct (ToNumber param) as [n|] eqn:En; [|unfold throw; intros [= ]].
  unfold getDb at 1.
  destruct (findOne _ (db w1)) as [v|] eqn:Efind; [|unfold ret; intros [= ]].
  destruct (deleteOldPdf v env w1) as [[u|m] w2] eqn:Edel; [|intros [= ]].
  apply deleteOldPdf_Ok in Edel. subst w2.
  unfold call at 1. simpl.
  destruct (rowsRead env) as [rows|m] eqn:Erows; [|intros [= ]].
  destruct (clearRow v _ env _) as [[u'|m] w3] eqn:Eclear; [|intros [= ]].
  apply clearRow_Ok in Eclear. subst w3.
  unfold getDb, putDb, ret. simpl.
  intros [= <- <-]. simpl.
  pose proof (authenticateGoogle_db _ _ _ _ _ Ea) as Hd.
  rewrite Hd in Efind.
  exists who, w1, n, v, rows.
  repeat split; trivial.
  - now rewrite Hd.
  - unfold deleteCalls. rewrite <- !app_assoc. reflexivity.
Qed.

Lemma filter_deleteOne q d v l :
  List.filter q d = v :: l ->
  findOne q d = Some v /\
  List.filter q (deleteOne q d) = l /\
  Permutation d (v :: deleteOne q d).
Proof.
  unfold findOne. induction d as [|x d IH]; simpl; [discriminate|].
  destruct (q x) eqn:Eq.
  - intros [= -> ->]. repeat split; trivial.
  - intros H. destruct (IH H) as (Hf & Hl & Hp).
    repeat split; trivial.
    + simpl. now rewrite Eq.
    + eapply Permutation_trans; [apply perm_skip, Hp | apply perm_swap].
Qed.

(** C10.  Delete looks its voucher up by number and owner only.  When the
    owner holds exactly two vouchers of the requested number, under two
    different companies, a successful delete removes the first of the two
    in the order of the store and keeps the other; the document it deletes
    and the rows it reads and clears are those of the removed voucher:
    its document id, its spreadsheet and the sheet of its company. *)
Theorem delete_ignores_company (req : Credentials) (param : string)
    (env : Env) (w : World) (body : Body) (w' : World) (who : Identity)
    (w1 : World) (n : Z) (v1 v2 : Voucher) :
  authenticateGoogle req env w = (Ok who, w1) ->
  ToNumber param = Some n ->
  List.filter (byNumberEmail n (user_email (user who))) (db w) = [v1; v2] ->
  company v1 <> company v2 ->
  deleteVoucher ToNumber req param env w = (Sent 200 body, w') ->
  List.filter (byNumberEmail n (user_email (user who))) (db w') = [v2] /\
  Permutation (db w) (v1 :: db w') /\
  exists rows,
    rowsRead env = Ok rows /\
    calls w' = (calls w1 ++ deleteCalls v1 (locateRow ToNumber (valuesOrEmpty rows) n))%list.
Proof.
  intros Ha Hn Hfilter _ H.
  destruct (deleteVoucher_sent_200 _ _ _ _ _ _ H)
    as (who' & w1' & n' & v & rows & Ha' & Hn' & Hfind & Hrows & Hd & Hc).
  rewrite Ha in Ha'. injection Ha' as <- <-.
  rewrite Hn in Hn'. injection Hn' as <-.
  destruct (filter_deleteOne _ _ _ _ Hfilter) as (Hf & Hl & Hp).
  rewrite Hf in Hfind. injection Hfind as <-.
  rewrite Hd. repeat split; trivial.
  exists rows. auto.
Qed.

(** ** Further properties of the handlers *)

Lemma clearRow_db v i env w r w' :
  clearRow v i env w = (r, w') -> db w' = db w.
Proof.
  unfold clearRow, call, ret.
  destruct i; intros H; inversion H; reflexivity.
Qed.

(** Any delete either leaves the store as it is or answers 200. *)
Lemma deleteVoucher_db req param env w reply w' :
  deleteVoucher ToNumber req param env w = (reply, w') ->
  db w' = db w \/ accepted reply.
Proof.
  unfold deleteVoucher, tryCatch, bind.
  destruct (authenticateGoogle req env w) as [[who|m] w1] eqn:Ea;
    [|intros [= <- <-]; left; exact (authenticateGoogle_db _ _ _ _ _ Ea)].
  apply authenticateGoogle_db in Ea.
  destruct (ToNumber param) as [n|];
    [|unfold throw; intros [= <- <-]; now left].
  unfold getDb at 1.
  destruct (findOne _ (db w1)) as [v|];
    [|unfold ret; intros [= <- <-]; now left].
  destruct (deleteOldPdf v env w1) as [[u|m] w2] eqn:Edel;
    apply deleteOldPdf_db in Edel;
    [|intros [= <- <-]; left; congruence].
  unfold call at 1. simpl.
  destruct (rowsRead env) as [rows|m];
    [|intros [= <- <-]; left; simpl; congruence].
  destruct (clearRow v _ env _) as [[u'|m] w3] eqn:Eclear;
    apply clearRow_db in Eclear; simpl in Eclear;
    [|intros [= <- <-]; left; congruence].
  intros [= <- <-]. right. eexists. reflexivity.
Qed.

Lemma listVouchers_db req byCompany byDate sort env w reply w' :
  listVouchers req byCompany byDate sort env w = (reply, w') -> db w' = db w.
Proof.
  unfold listVouchers, tryCatch, bind.
  destruct (authenticateGoogle req env w) as [[who|m] w1] eqn:Ea;
    apply authenticateGoogle_db in Ea; intros [= <- <-]; exact Ea.
Qed.

Lemma getVoucherNo_db req filter env w reply w' :
  getVoucherNo req filter env w = (reply, w') -> db w' = db w.
Proof.
  unfold getVoucherNo.
  destruct (negb (validFilter filter)); [intros [= <- <-]; reflexivity|].
  unfold tryCatch, bind.
  destruct (authenticateGoogle req env w) as [[who|m] w1] eqn:Ea;
    apply authenticateGoogle_db in Ea; [|intros [= <- <-]; exact Ea].
  destruct (getUserResources _ _ env w1) as [[res|m] w2] eqn:Er;
    apply getUserResources_db in Er; intros [= <- <-]; congruence.
Qed.

(** X1.  The record store is written all or nothing, up to the removal of
    the local file: whatever request is served, when the reply is not a 200
    the record store is as it was before the request, also when documents or
    rows were written on the way, unless the request is a submit or an edit
    whose removal of the local file failed.  That removal comes last: the
    voucher is then stored, or updated, and the reply is the 500 of the
    handler's upload step with the message of the failure. *)
Theorem failed_request_keeps_store (r : Request) (w : World) :
  ~ accepted (fst (handle ToNumber ToObjectId r w)) ->
  db (snd (handle ToNumber ToObjectId r w)) = db w \/
  exists m,
    fileUnlinked (envOf r) = Throw m /\
    match r with
    | PostSubmit _ _ _ =>
        fst (handle ToNumber ToObjectId r w) =
          Sent 500 (ErrorBody ("Failed to upload PDF or append to sheet: " ++ m)) /\
        exists v, db (snd (handle ToNumber ToObjectId r w)) = (db w ++ [v])%list
    | PutEditVoucher _ _ voucherData _ =>
        fst (handle ToNumber ToObjectId r w) =
          Sent 500 (ErrorBody ("Failed to update voucher: " ++ m)) /\
        exists v fileId link l1 l2,
          db w = (l1 ++ v :: l2)%list /\
          db (snd (handle ToNumber ToObjectId r w)) =
            (l1 ++ applyEdit voucherData link fileId v :: l2)%list
    | _ => False
    end.
Proof.
  intros Hn.
  destruct (handle ToNumber ToObjectId r w) as [reply w'] eqn:E. simpl in *.
  destruct r; simpl in E; simpl.
  - destruct (submit_inv _ _ _ _ _ _ E)
      as [[Hd _]|(who & w1 & res & w2 & fileId & link & v & _ & _ & _ & _ & _ & _
                  & Hd & _ & [[_ ->]|(m & Hm & ->)])].
    + now left.
    + destruct Hn. eexists. reflexivity.
    + right. exists m. split; [exact Hm|]. split; [reflexivity|]. now exists v.
  - destruct (editVoucher_inv _ _ _ _ _ _ _ E)
      as [[Hd _]|(who & w1 & recordId & v & fileId & link & rows & i & _ & _ & _
                  & Hfind & _ & _ & _ & Hd & _ & [[_ ->]|(m & Hm & ->)])].
    + now left.
    + destruct Hn. eexists. reflexivity.
    + right. exists m. split; [exact Hm|]. split; [reflexivity|].
      destruct (updateOne_split _ (applyEdit voucherData link fileId) _ _ Hfind)
        as (l1 & l2 & E1 & E2).
      exists v, fileId, link, l1, l2. rewrite Hd, E2. now split.
  - destruct (deleteVoucher_db _ _ _ _ _ _ E) as [H|H];
      [now left | destruct (Hn H)].
  - left. exact (listVouchers_db _ _ _ _ _ _ _ _ E).
  - left. exact (getVoucherNo_db _ _ _ _ _ _ E).
Qed.

Lemma authenticateGoogle_anonymous req env w :
  anonymous req = true ->
  authenticateGoogle req env w = (Throw "No authorization token provided", w).
Proof.
  unfold anonymous, authenticateGoogle.
  destruct (session_user req); [discriminate|].
  intros ->. reflexivity.
Qed.

(** X2.  A request without session and without Authorization header has no
    effect, whatever the handler: no call is issued, the record store is
    unchanged, and the reply is an error: 400 "Invalid filter option" from
    submit, edit and get-voucher-no when the category is outside the
    registry, which they check first, and otherwise 500 with the message of
    the handler and "No authorization token provided". *)
Theorem anonymous_request_has_no_effect (r : Request) (w : World) :
  anonymous (credentialsOf r) = true ->
  snd (handle ToNumber ToObjectId r w) = w /\
  fst (handle ToNumber ToObjectId r w) =
    match r with
    | PostSubmit _ voucherData _ =>
        if validFilter (VoucherData.filter voucherData)
        then Sent 500 (ErrorBody
                 "Failed to submit data: No authorization token provided")
        else Sent 400 (ErrorBody "Invalid filter option")
    | PutEditVoucher _ _ voucherData _ =>
        if validFilter (VoucherData.filter voucherData)
        then Sent 500 (ErrorBody
                 "Failed to edit voucher: No authorization token provided")
        else Sent 400 (ErrorBody "Invalid filter option")
    | DeleteVouchers _ _ _ =>
        Sent 500 (ErrorBody
          "Failed to delete voucher: No authorization token provided")
    | GetVouchers _ _ _ _ _ =>
        Sent 500 (ErrorBody
          "Failed to retrieve vouchers: No authorization token provided")
    | GetVoucherNo _ filter _ =>
        if validFilter filter
        then Sent 500 (ErrorBody
                 "Failed to generate voucher number: No authorization token provided")
        else Sent 400 (ErrorBody "Invalid filter option")
    end.
Proof.
  intros Ha.
  destruct r as [req d env|req i d env|req p env|req c dt s env|req f env];
    simpl in Ha; simpl.
  - unfold submit, tryCatch, bind.
    destruct (validFilter (VoucherData.filter d)); simpl.
    + rewrite (authenticateGoogle_anonymous _ _ _ Ha). simpl. now split.
    + now split.
  - unfold editVoucher, tryCatch, bind.
    destruct (validFilter (VoucherData.filter d)); simpl.
    + rewrite (authenticateGoogle_anonymous _ _ _ Ha). simpl. now split.
    + now split.
  - unfold deleteVoucher, tryCatch, bind.
    rewrite (authenticateGoogle_anonymous _ _ _ Ha). simpl. now split.
  - unfold listVouchers, tryCatch, bind.
    rewrite (authenticateGoogle_anonymous _ _ _ Ha). simpl. now split.
  - unfold getVoucherNo.
    destruct (validFilter f); simpl.
    + unfold tryCatch, bind.
      rewrite (authenticateGoogle_anonymous _ _ _ Ha). simpl. now split.
    + now split.
Qed.

(** ** Listing *)

Lemma insertBy_Sorted {A} (le : A -> A -> bool) x l :
  (forall a b, le a b = true \/ le b a = true) ->
  Sorted (fun a b => le a b = true) l ->
  Sorted (fun a b => le a b = true) (insertBy le x l).
Proof.
  intros Htot. induction l as [|y l IH]; simpl; intros Hs.
  - repeat constructor.
  - destruct (le x y) eqn:E.
    + constructor; [exact Hs | constructor; exact E].
    + inversion Hs as [|? ? Hl Hhd]; subst.
      constructor; [apply IH; exact Hl|].
      assert (Hyx : le y x = true)
        by (destruct (Htot x y) as [H|H]; [congruence | exact H]).
      destruct l as [|z l]; simpl.
      * constructor. exact Hyx.
      * destruct (le x z); constructor; trivial.
        inversion Hhd; subst. assumption.
Qed.

Lemma sortBy_Sorted {A} (le : A -> A -> bool) l :
  (forall a b, le a b = true \/ le b a = true) ->
  Sorted (fun a b => le a b = true) (sortBy le l).
Proof.
  intros Htot. induction l as [|x l IH]; simpl.
  - constructor.
  - apply insertBy_Sorted; assumption.
Qed.

Lemma textLeb_total a b : textLeb a b = true \/ textLeb b a = true.
Proof.
  destruct a as [x|], b as [y|]; simpl; auto. apply String.leb_total.
Qed.

Lemma sortOption_total sort a b :
  sortOption sort a b = true \/ sortOption sort b a = true.
Proof.
  unfold sortOption.
  assert (Hn : numberAscending a b = true \/ numberAscending b a = true).
  { unfold numberAscending.
    destruct (Z.leb_spec (voucherNo a) (voucherNo b)); [now left|].
    right. apply Z.leb_le. lia. }
  destruct sort as [s|]; [|exact Hn].
  destruct (String.eqb s "lowToHigh");
    [unfold amountAscending; apply textLeb_total|].
  destruct (String.eqb s "highToLow");
    [unfold amountDescending; apply textLeb_total | exact Hn].
Qed.

(** What a list request answers when the caller is identified. *)
Lemma listVouchers_identified req byCompany byDate sort env w who w1 :
  authenticateGoogle req env w = (Ok who, w1) ->
  listVouchers req byCompany byDate sort env w =
    (Sent 200
       (VouchersBody
          (sortBy (sortOption sort)
             (List.filter (listQuery (user_email (user who)) byCompany byDate)
                (db w)))),
     w1).
Proof.
  intros Ha. unfold listVouchers, tryCatch, bind. rewrite Ha.
  unfold getDb, ret. simpl.
  rewrite (authenticateGoogle_db _ _ _ _ _ Ha). reflexivity.
Qed.


Lemma listQuery_true e byCompany byDate v :
  listQuery e byCompany byDate v = true <->
  email v = e /\
  (textTruthy byCompany = true -> company v = orEmpty byCompany) /\
  (textTruthy byDate = true -> date v = Some (orEmpty byDate)).
Proof.
  unfold listQuery. rewrite !andb_true_iff, String.eqb_eq.
  destruct (textTruthy byCompany), (textTruthy byDate);
    try rewrite String.eqb_eq.
  - destruct (date v) as [d|].
    + rewrite String.eqb_eq. split.
      * intros [[He Hc] Hd]. repeat split; trivial. intros _. now rewrite Hd.
      * intros (He & Hc & Hd). repeat split; auto.
        specialize (Hd eq_refl). now injection Hd.
    + split; [intros [_ H]; discriminate|].
      intros (_ & _ & Hd). specialize (Hd eq_refl). discriminate.
  - split; [intros [[He Hc] _]; repeat split; trivial; discriminate|].
    intros (He & Hc & _). auto.
  - destruct (date v) as [d|].
    + rewrite String.eqb_eq. split.
      * intros [[He _] Hd]. repeat split; trivial; [discriminate|].
        intros _. now rewrite Hd.
      * intros (He & _ & Hd). repeat split; auto.
        specialize (Hd eq_refl). now injection Hd.
    + split; [intros [_ H]; discriminate|].
      intros (_ & _ & Hd). specialize (Hd eq_refl). discriminate.
  - split; [intros [[He _] _]; repeat split; trivial; discriminate|].
    intros (He & _ & _). auto.
Qed.

(** X3.  The list request of an identified caller answers 200 with exactly
    the stored vouchers of that caller, restricted to the company and to the
    date when the query gives them: no voucher of another owner is ever
    returned, and each matching voucher is returned as often as it is
    stored.  The request changes neither the record store nor any sheet or
    document. *)
Theorem list_returns_own_matching_vouchers (req : Credentials)
    (byCompany byDate sort : option string) (env : Env) (w : World)
    (who : Identity) (w1 : World) :
  authenticateGoogle req env w = (Ok who, w1) ->
  exists l,
    listVouchers req byCompany byDate sort env w
      = (Sent 200 (VouchersBody l), w1) /\
    (forall v,
       In v l <->
       In v (db w) /\ email v = user_email (user who) /\
       (textTruthy byCompany = true -> company v = orEmpty byCompany) /\
       (textTruthy byDate = true -> date v = Some (orEmpty byDate))) /\
    Permutation l
      (List.filter (listQuery (user_email (user who)) byCompany byDate) (db w)) /\
    db w1 = db w /\
    exists issued, calls w1 = (calls w ++ issued)%list /\
                   forallb (fun c => negb (mutation c)) issued = true.
Proof.
  intros Ha. eexists. split; [apply (listVouchers_identified _ _ _ _ _ _ _ _ Ha)|].
  split; [|split; [apply sortBy_perm|split]].
  - intros v. rewrite sortBy_In, filter_In, listQuery_true. reflexivity.
  - exact (authenticateGoogle_db _ _ _ _ _ Ha).
  - exact (authenticateGoogle_calls _ _ _ _ _ Ha).
Qed.

Lemma Sorted_weaken {A} (R R' : A -> A -> Prop) l :
  (forall a b, R a b -> R' a b) -> Sorted R l -> Sorted R' l.
Proof.
  intros Himp. induction 1 as [|a l Hl IH Hhd]; constructor; trivial.
  destruct Hhd; constructor. now apply Himp.
Qed.

(** X4.  The vouchers of a list reply are in the requested order: by
    voucher number, lowest first, unless the query asks for [lowToHigh] or
    [highToLow]; these two order by the stored amount as text, character by
    character and not by value, lowest respectively highest first, a voucher
    without amount counting as lowest. *)
Theorem list_is_sorted (req : Credentials)
    (byCompany byDate sort : option string) (env : Env) (w : World)
    (l : list Voucher) (w1 : World) :
  listVouchers req byCompany byDate sort env w = (Sent 200 (VouchersBody l), w1) ->
  (sort = Some "lowToHigh" ->
   Sorted (fun a b => textLeb (amount a) (amount b) = true) l) /\
  (sort = Some "highToLow" ->
   Sorted (fun a b => textLeb (amount b) (amount a) = true) l) /\
  (sort <> Some "lowToHigh" -> sort <> Some "highToLow" ->
   Sorted (fun a b => voucherNo a <= voucherNo b) l).
Proof.
  unfold listVouchers, tryCatch, bind.
  destruct (authenticateGoogle req env w) as [[who|m] w0]; [|intros [= ]].
  unfold getDb, ret. simpl. intros [= <- <-].
  pose proof (sortBy_Sorted (sortOption sort)
                (List.filter (listQuery (user_email (user who)) byCompany byDate)
                   (db w0))
                (sortOption_total sort)) as Hs.
  split; [|split].
  - intros ->. exact Hs.
  - intros ->. exact Hs.
  - intros H1 H2.
    assert (E : sortOption sort = numberAscending).
    { unfold sortOption. destruct sort as [s|]; [|reflexivity].
      destruct (String.eqb_spec s "lowToHigh") as [->|_]; [now destruct H1|].
      destruct (String.eqb_spec s "highToLow") as [->|_]; [now destruct H2|].
      reflexivity. }
    rewrite E in Hs.
    rewrite E. revert Hs. apply Sorted_weaken.
    intros a b Hab. unfold numberAscending in Hab. now apply Z.leb_le.
Qed.


(** ** What one request does to the record store *)

Lemma validFilter_registry f :
  validFilter f = true -> In (orEmpty f) registry.
Proof.
  destruct f as [s|]; [|discriminate].
  unfold validFilter, orEmpty.
  intros H. apply existsb_exists in H. destruct H as (x & Hx & E).
  apply String.eqb_eq in E. now subst.
Qed.

Lemma newVoucher_valid id e c no voucherData link sid fid file v :
  newVoucher ToNumber id e c no voucherData link sid fid file = Ok v ->
  e <> "" /\
  exists t, transactionType v = Some t /\ In t transactionTypes.
Proof.
  unfold newVoucher.
  destruct (castNumber ToNumber no) as [n|]; [|discriminate].
  destruct (String.eqb_spec e "") as [->|He]; cbn [orb]; [discriminate|].
  destruct (String.eqb c ""); [discriminate|].
  destruct (VoucherData.transactionType voucherData) as [t|]; [|discriminate].
  destruct (existsb (String.eqb t) transactionTypes) eqn:Et; [|discriminate].
  intros [= <-]. simpl. split; [exact He|].
  exists t. split; [reflexivity|].
  apply existsb_exists in Et. destruct Et as (x & Hx & E).
  apply String.eqb_eq in E. now subst.
Qed.

Lemma handle_step r w :
  db (snd (handle ToNumber ToObjectId r w)) = db w \/
  exists who w1 v,
    authenticateGoogle (credentialsOf r) (envOf r) w = (Ok who, w1) /\
    email v = user_email (user who) /\
    (appends ToNumber ToObjectId r w v \/ replaces ToNumber ToObjectId r w v \/ removes ToNumber ToObjectId r w v).
Proof.
  pose proof (surjective_pairing (handle ToNumber ToObjectId r w)) as E.
  destruct r as [req d env|req i d env|req p env|req c dt s env|req f env];
    simpl in E; simpl.
  - destruct (submit_inv _ _ _ _ _ _ E)
      as [[H _]|(who & w1 & res & w2 & fileId & link & v &
                 Hf & Ha & Hr & _ & _ & Hv & Hd & _)]; [now left|]. right.
    pose proof (newVoucher_valid _ _ _ _ _ _ _ _ _ _ Hv) as (Hne & _).
    apply newVoucher_Ok in Hv.
    destruct Hv as (Hno & _ & He & Hc & _ & _ & _ & _ & _ & _ & _ & _ & _ & _
                    & _ & Hs & Hfo & Hp).
    apply getUserResources_inv in Hr. destruct Hr as (_ & Hn & Hr).
    rewrite (authenticateGoogle_db _ _ _ _ _ Ha), <- He, <- Hc in Hr, Hn.
    exists who, w1, v. split; [exact Ha|]. split; [exact He|]. left.
    unfold appends. simpl.
    split; [exact Hd|].
    split; [rewrite Hc; now apply validFilter_registry|].
    split; [now rewrite He|].
    split; [rewrite Hp; discriminate|].
    split.
    + intros u Hu. rewrite Hu in Hr. destruct Hr as (H1 & H2 & _).
      split; congruence.
    + intros Hp'. apply negb_true_iff in Hp'.
      unfold submittedNumber in Hno. rewrite (jsOr_falsy _ _ Hp') in Hno.
      simpl in Hno. congruence.
  - destruct (editVoucher_inv _ _ _ _ _ _ _ E)
      as [[H _]|(who & w1 & recordId & v & fileId & link & rows & k &
                 _ & Ha & _ & Hfind & _ & _ & _ & Hd & _)]; [now left|]. right.
    destruct (updateOne_split _ (applyEdit d link fileId) _ _ Hfind)
      as (l1 & l2 & E1 & E2).
    apply findOne_Some in Hfind. destruct Hfind as [_ Hq].
    apply byIdEmail_true in Hq. destruct Hq as [_ He].
    exists who, w1, v. split; [exact Ha|]. split; [exact He|]. right. left.
    exists (applyEdit d link fileId v), l1, l2. simpl.
    split; [exact E1|]. split; [now rewrite Hd|].
    split; [repeat split | discriminate].
  - destruct (deleteVoucher_db _ _ _ _ _ _ E) as [H|[body Hb]]; [now left|]. right.
    rewrite Hb in E.
    destruct (deleteVoucher_sent_200 _ _ _ _ _ _ E)
      as (who & w1 & n & v & rows & Ha & _ & Hfind & _ & Hd & _).
    destruct (deleteOne_split _ _ _ Hfind) as (l1 & l2 & E1 & E2).
    apply findOne_Some in Hfind. destruct Hfind as [_ Hq].
    apply byNumberEmail_true in Hq. destruct Hq as [_ He].
    exists who, w1, v. split; [exact Ha|]. split; [exact He|]. right. right.
    exists l1, l2. simpl. split; [exact E1 | now rewrite Hd].
  - left. exact (listVouchers_db _ _ _ _ _ _ _ _ E).
  - left. exact (getVoucherNo_db _ _ _ _ _ _ E).
Qed.


(** X5.  No request touches the vouchers of anyone but its caller: when
    the identity the request resolves to is not the owner [e], the vouchers
    of [e] in the record store are the same after the request as before, in
    the same order, whatever the ids or numbers the request names. *)
Theorem other_owners_untouched (r : Request) (w : World) (e : string) :
  (forall who w1,
     authenticateGoogle (credentialsOf r) (envOf r) w = (Ok who, w1) ->
     user_email (user who) <> e) ->
  ownedBy e (db (snd (handle ToNumber ToObjectId r w))) = ownedBy e (db w).
Proof.
  intros Hother.
  destruct (handle_step r w) as [H|(who & w1 & v & Ha & He & Hstep)];
    [now rewrite H|].
  specialize (Hother who w1 Ha). rewrite <- He in Hother.
  assert (Hv : String.eqb (email v) e = false) by now apply String.eqb_neq.
  unfold ownedBy.
  destruct Hstep as [(Hd & _)|[(v' & l1 & l2 & E1 & E2 & Hs & _)|(l1 & l2 & E1 & E2)]].
  - rewrite Hd, filter_app. simpl. rewrite Hv. apply app_nil_r.
  - destruct Hs as (_ & He' & _).
    rewrite E1, E2, !filter_app. simpl. now rewrite He', Hv.
  - rewrite E1, E2, !filter_app. simpl. now rewrite Hv.
Qed.

(** ** Invariants of the record store *)

Lemma serve_invariant (P : list Voucher -> Prop) (ok : Request -> bool) :
  (forall r w, ok r = true -> P (db w) -> P (db (snd (handle ToNumber ToObjectId r w)))) ->
  forall rs, (forall r, In r rs -> ok r = true) ->
  forall w, P (db w) -> P (db (serve ToNumber ToObjectId rs w)).
Proof.
  intros Hstep. induction rs as [|r rs IH]; intros Hall w Hw; simpl; [exact Hw|].
  apply IH; [intros r' Hr'; apply Hall; now right|].
  apply Hstep; [apply Hall; now left | exact Hw].
Qed.

Lemma oneWorkspace_step r w :
  oneWorkspace (db w) -> oneWorkspace (db (snd (handle ToNumber ToObjectId r w))).
Proof.
  intros Hinv.
  destruct (handle_step r w) as [H|(who & w1 & v & _ & _ & Hstep)];
    [now rewrite H|].
  destruct Hstep as [(Hd & _ & _ & _ & Hids & _)
                    |[(v' & l1 & l2 & E1 & E2 & Hs & _)|(l1 & l2 & E1 & E2)]].
  - assert (Hnew : forall u, In u (db w) ->
                     email u = email v -> company u = company v ->
                     spreadsheetId u = spreadsheetId v /\ folderId u = folderId v).
    { intros u Hu He Hc.
      assert (Hq : byEmailCompany (email v) (company v) u = true)
        by (apply byEmailCompany_true; auto).
      destruct (findOne_exists _ _ _ Hu Hq) as [u0 Hu0].
      destruct (Hids u0 Hu0) as [Hs Hf].
      apply findOne_Some in Hu0. destruct Hu0 as [Hin0 Hq0].
      apply byEmailCompany_true in Hq0. destruct Hq0 as [He0 Hc0].
      destruct (Hinv u u0 Hu Hin0) as [Hs' Hf'];
        [congruence | congruence | split; congruence]. }
    rewrite Hd. intros x y Hx Hy He Hc.
    apply in_app_or in Hx. apply in_app_or in Hy.
    destruct Hx as [Hx|[<-|[]]], Hy as [Hy|[<-|[]]].
    + now apply Hinv.
    + now apply Hnew.
    + destruct (Hnew y Hy) as [Hs Hf]; auto.
    + auto.
  - destruct Hs as (_ & He & Hc & _ & Hsi & Hfi).
    assert (Hback : forall x, In x (l1 ++ v' :: l2) ->
              exists y, In y (db w) /\ email y = email x /\ company y = company x /\
                        spreadsheetId y = spreadsheetId x /\ folderId y = folderId x).
    { intros x Hx. rewrite E1. apply in_app_or in Hx.
      destruct Hx as [Hx|[<-|Hx]].
      - exists x. split; [apply in_or_app; now left | auto].
      - exists v. split; [apply in_or_app; right; now left | auto].
      - exists x. split; [apply in_or_app; right; now right | auto]. }
    rewrite E2. intros x y Hx Hy Hexy Hcxy.
    destruct (Hback x Hx) as (x0 & Hx0 & Hxe & Hxc & Hxs & Hxf).
    destruct (Hback y Hy) as (y0 & Hy0 & Hye & Hyc & Hys & Hyf).
    destruct (Hinv x0 y0 Hx0 Hy0) as [Hs Hf]; [congruence | congruence |].
    split; congruence.
  - rewrite E2. intros x y Hx Hy. apply Hinv; rewrite E1.
    + apply in_app_or in Hx. apply in_or_app.
      destruct Hx; [now left | right; now right].
    + apply in_app_or in Hy. apply in_or_app.
      destruct Hy; [now left | right; now right].
Qed.

(** X6.  After any sequence of requests served one after the other from the
    empty record store, all stored vouchers of one owner and one company name
    the same spreadsheet and the same folder: a pair never gets a second
    workspace, whatever the requests submit, edit or delete. *)
Theorem one_workspace_per_pair (rs : list Request) :
  oneWorkspace (db (serve ToNumber ToObjectId rs emptyWorld)).
Proof.
  apply (serve_invariant oneWorkspace (fun _ => true)).
  - intros r w _. apply oneWorkspace_step.
  - reflexivity.
  - intros u v [].
Qed.

(** The numbers of the store are unique within each pair and lie between 1
    and [k]. *)
Lemma uniqueNumbers_step r w k :
  serverNumbered r = true ->
  0 <= k < twoTo53 ->
  uniqueNumbers (db w) /\ (forall v, In v (db w) -> 1 <= voucherNo v <= k) ->
  uniqueNumbers (db (snd (handle ToNumber ToObjectId r w))) /\
  (forall v, In v (db (snd (handle ToNumber ToObjectId r w))) ->
             1 <= voucherNo v <= k + 1).
Proof.
  intros Hr Hk [Hinv Hrange].
  destruct (handle_step r w) as [H|(who & w1 & v & _ & _ & Hstep)].
  { rewrite H. split; [exact Hinv|].
    intros v Hv. specialize (Hrange v Hv). lia. }
  destruct Hstep as [(Hd & _ & _ & _ & _ & Hn)
                    |[(v' & l1 & l2 & E1 & E2 & Hs & _)|(l1 & l2 & E1 & E2)]].
  - specialize (Hn Hr).
    destruct (nextNumber_fresh (email v) (company v) (db w) k Hk) as [Hb Habove].
    { intros u Hu. apply Hrange. apply filter_In in Hu. apply Hu. }
    rewrite Hd. split.
    + intros e c. rewrite vouchersOf_app. unfold vouchersOf at 2. simpl.
      destruct (byEmailCompany e c v) eqn:Eq.
      * pose proof Eq as Eq'. apply byEmailCompany_true in Eq'.
        destruct Eq' as [<- <-]. rewrite map_app. simpl.
        eapply Permutation_NoDup; [apply Permutation_cons_append|].
        constructor; [|apply Hinv].
        intros Hin. apply in_map_iff in Hin. destruct Hin as (u & Hu & Hin).
        apply Habove in Hin. lia.
      * rewrite app_nil_r. apply Hinv.
    + intros x Hx. apply in_app_or in Hx. destruct Hx as [Hx|[<-|[]]].
      * specialize (Hrange x Hx). lia.
      * lia.
  - destruct Hs as (_ & He & Hc & Hno & _). rewrite E2. split.
    + intros e c.
      specialize (Hinv e c). rewrite E1 in Hinv.
      rewrite vouchersOf_app in *. unfold vouchersOf at 2.
      unfold vouchersOf at 2 in Hinv.
      simpl in *. unfold byEmailCompany in *. rewrite He, Hc.
      destruct (String.eqb (email v) e && String.eqb (company v) c).
      * rewrite map_app in *. simpl in *. now rewrite Hno.
      * exact Hinv.
    + intros x Hx. apply in_app_or in Hx.
      assert (Hv : 1 <= voucherNo v <= k)
        by (apply Hrange; rewrite E1; apply in_or_app; right; now left).
      destruct Hx as [Hx|[<-|Hx]].
      * assert (1 <= voucherNo x <= k)
          by (apply Hrange; rewrite E1; apply in_or_app; now left). lia.
      * lia.
      * assert (1 <= voucherNo x <= k)
          by (apply Hrange; rewrite E1; apply in_or_app; right; now right). lia.
  - rewrite E2. split.
    + intros e c.
      specialize (Hinv e c). rewrite E1 in Hinv.
      rewrite vouchersOf_app in *. unfold vouchersOf at 2 in Hinv. simpl in Hinv.
      destruct (byEmailCompany e c v).
      * rewrite map_app in *. simpl in Hinv. now apply NoDup_remove_1 in Hinv.
      * exact Hinv.
    + intros x Hx. apply in_app_or in Hx.
      assert (1 <= voucherNo x <= k); [|lia].
      apply Hrange. rewrite E1. apply in_or_app.
      destruct Hx; [now left | right; now right].
Qed.

Lemma uniqueNumbers_serve rs :
  (forall r, In r rs -> serverNumbered r = true) ->
  forall w k,
    0 <= k -> k + Z.of_nat (List.length rs) <= twoTo53 ->
    uniqueNumbers (db w) /\ (forall v, In v (db w) -> 1 <= voucherNo v <= k) ->
    uniqueNumbers (db (serve ToNumber ToObjectId rs w)).
Proof.
  induction rs as [|r rs IH]; intros Hall w k Hk Hlen Hinv; simpl;
    [apply Hinv|].
  simpl in Hlen.
  apply (IH (fun r' Hr' => Hall r' (or_intror Hr')) _ (k + 1)); [lia | lia |].
  apply uniqueNumbers_step; [apply Hall; now left | lia | exact Hinv].
Qed.

(** X7.  When no submit brings its own voucher number, the numbers stay
    unique: after any sequence of such submits, edits, deletes and queries
    served one after the other from the empty record store, no two stored
    vouchers of one owner and one company have the same number.  The
    sequence has at most 2^53 requests: that many submissions are needed
    before the program's numbers no longer tell a number from its
    successor. *)
Theorem numbers_stay_unique (rs : list Request) :
  (forall r, In r rs -> serverNumbered r = true) ->
  Z.of_nat (List.length rs) <= twoTo53 ->
  uniqueNumbers (db (serve ToNumber ToObjectId rs emptyWorld)).
Proof.
  intros Hall Hlen.
  apply (uniqueNumbers_serve rs Hall emptyWorld 0); [lia | lia |].
  split; [intros e c; constructor | intros v []].
Qed.

Lemma wellFormed_step r w :
  (forall v, In v (db w) -> wellFormed v) ->
  forall v, In v (db (snd (handle ToNumber ToObjectId r w))) -> wellFormed v.
Proof.
  intros Hinv.
  destruct (handle_step r w) as [H|(who & w1 & v & _ & _ & Hstep)];
    [now rewrite H|].
  destruct Hstep as [(Hd & Hc & He & Hp & _)
                    |[(v' & l1 & l2 & E1 & E2 & Hs & Hp)|(l1 & l2 & E1 & E2)]];
    rewrite ?Hd, ?E2; intros x Hx; apply in_app_or in Hx.
  - destruct Hx as [Hx|[<-|[]]]; [now apply Hinv | now repeat split].
  - destruct Hs as (_ & He & Hc & _).
    assert (Hv : wellFormed v)
      by (apply Hinv; rewrite E1; apply in_or_app; right; now left).
    destruct Hx as [Hx|[<-|Hx]].
    + apply Hinv. rewrite E1. apply in_or_app. now left.
    + destruct Hv as (H1 & H2 & _). unfold wellFormed. rewrite He, Hc. auto.
    + apply Hinv. rewrite E1. apply in_or_app. right. now right.
  - apply Hinv. rewrite E1. apply in_or_app.
    destruct Hx; [now left | right; now right].
Qed.

(** X8.  After any sequence of requests served from the empty record store,
    every stored voucher has a company of the registry, a non-empty owner
    email and a document id: submit stores nothing else, and edit and delete
    keep it so. *)
Theorem stored_vouchers_well_formed (rs : list Request) (v : Voucher) :
  In v (db (serve ToNumber ToObjectId rs emptyWorld)) -> wellFormed v.
Proof.
  revert v.
  apply (serve_invariant (fun d => forall v, In v d -> wellFormed v) (fun _ => true)).
  - intros r w _. apply wellFormed_step.
  - reflexivity.
  - intros v [].
Qed.


(** ** Failures on the way *)

Lemma newVoucher_unlisted id e c no voucherData link sid fid file :
  (forall t, VoucherData.transactionType voucherData = Some t ->
             ~ In t transactionTypes) ->
  newVoucher ToNumber id e c no voucherData link sid fid file
    = Throw "Voucher validation failed".
Proof.
  intros H. unfold newVoucher.
  destruct (castNumber ToNumber no); [|reflexivity].
  destruct (String.eqb e "" || String.eqb c ""); [reflexivity|].
  destruct (VoucherData.transactionType voucherData) as [t|]; [|reflexivity].
  destruct (existsb (String.eqb t) transactionTypes) eqn:Et; [|reflexivity].
  apply existsb_exists in Et. destruct Et as (x & Hx & E).
  apply String.eqb_eq in E. subst x. destruct (H t eq_refl Hx).
Qed.

(** X9.  A submit whose transaction type is missing or is none of UPI, Cash
    and Account fails only at the last step: the document is uploaded and
    the row is appended to the sheet before the record is validated, so the
    reply is 500 and no record is stored, while the uploaded document and
    the appended row stay, and the local document file is not removed. *)
Theorem submit_unlisted_transaction_type (req : Credentials)
    (voucherData : VoucherData.t) (env : Env) (w : World) (who : Identity)
    (w1 : World) (res : Resources) (w2 : World) (fileId : string)
    (link : option string) :
  validFilter (VoucherData.filter voucherData) = true ->
  authenticateGoogle req env w = (Ok who, w1) ->
  getUserResources (user_email (user who))
    (orEmpty (VoucherData.filter voucherData)) env w1 = (Ok res, w2) ->
  truthy (submittedNumber voucherData res) = true ->
  pdfWritten env = Ok tt ->
  fileUploaded env = Ok (fileId, link) ->
  rowAppended env = Ok tt ->
  (forall t, VoucherData.transactionType voucherData = Some t ->
             ~ In t transactionTypes) ->
  exists message w',
    submit ToNumber req voucherData env w = (Sent 500 (ErrorBody message), w') /\
    db w' = db w /\
    calls w' = (calls w2 ++ submitCallsBeforeSave voucherData res link)%list.
Proof.
  intros Hf Ha Hr Ht Hp Hu Hrow Hty.
  eexists _, _.
  unfold submit, tryCatch, bind. rewrite Hf. simpl. rewrite Ha, Hr.
  fold (submittedNumber voucherData res). rewrite Ht. simpl. rewrite Hp.
  unfold settle, submitUpload, tryCatch, bind, call. simpl.
  rewrite Hu. simpl. rewrite Hrow. simpl.
  rewrite (newVoucher_unlisted _ _ _ _ _ _ _ _ _ Hty). simpl.
  split; [reflexivity|]. simpl.
  split.
  - rewrite (getUserResources_db _ _ _ _ _ _ Hr).
    exact (authenticateGoogle_db _ _ _ _ _ Ha).
  - unfold submitCallsBeforeSave. rewrite <- !app_assoc. reflexivity.
Qed.

(** X10.  A submit without number of its own is refused when the computed
    number is 0, which is what the highest stored number -1 gives: the
    reply is 500 "Voucher number is required", nothing is rendered, uploaded
    or appended, and the record store is unchanged. *)
Theorem submit_zero_number (req : Credentials) (voucherData : VoucherData.t)
    (env : Env) (w : World) (who : Identity) (w1 : World) (res : Resources)
    (w2 : World) :
  validFilter (VoucherData.filter voucherData) = true ->
  authenticateGoogle req env w = (Ok who, w1) ->
  getUserResources (user_email (user who))
    (orEmpty (VoucherData.filter voucherData)) env w1 = (Ok res, w2) ->
  truthy (VoucherData.voucherNo voucherData) = false ->
  nextNumber (user_email (user who))
    (orEmpty (VoucherData.filter voucherData)) (db w) = 0 ->
  submit ToNumber req voucherData env w =
    (Sent 500 (ErrorBody "Failed to submit data: Voucher number is required"), w2) /\
  db w2 = db w.
Proof.
  intros Hf Ha Hr Ht Hz.
  pose proof (authenticateGoogle_db _ _ _ _ _ Ha) as Hd.
  pose proof (getUserResources_inv _ _ _ _ _ _ Hr) as (Hd2 & Hn & _).
  rewrite Hd, Hz in Hn.
  split; [|congruence].
  unfold submit, tryCatch, bind. rewrite Hf. simpl. rewrite Ha, Hr.
  rewrite (jsOr_falsy _ _ Ht), Hn. reflexivity.
Qed.

(** ** Edit *)

Lemma setText_Some new old s : new = Some s -> setText new old = Some s.
Proof. now intros ->. Qed.

(** X11.  A successful edit stores every content field that the request
    carries, as it is: the update runs no validation, so a transaction type
    outside UPI, Cash and Account is stored like any other. *)
Theorem edit_stores_fields_unchecked (req : Credentials) (voucherId : string)
    (voucherData : VoucherData.t) (env : Env) (w : World) (body : Body)
    (w' : World) :
  editVoucher ToNumber ToObjectId req voucherId voucherData env w = (Sent 200 body, w') ->
  exists v',
    In v' (db w') /\ ToObjectId voucherId = Some (_id v') /\
    carriedBy voucherData v'.
Proof.
  intros H.
  destruct (editVoucher_sent_200 _ _ _ _ _ _ _ H)
    as (who & w1 & recordId & v & fileId & link & rows & k &
        _ & _ & Hcast & Hfind & _ & _ & _ & Hd & _).
  destruct (updateOne_split _ (applyEdit voucherData link fileId) _ _ Hfind)
    as (l1 & l2 & E1 & E2).
  apply findOne_Some in Hfind. destruct Hfind as [_ Hq].
  apply byIdEmail_true in Hq. destruct Hq as [Hid _].
  exists (applyEdit voucherData link fileId v).
  split; [rewrite Hd, E2; apply in_or_app; right; now left|].
  split; [simpl; now rewrite Hid|].
  unfold carriedBy. simpl. repeat split; intros s Hs; now apply setText_Some.
Qed.


(** ** The next number on request *)

(** What a get-voucher-no answered with a number has done. *)
Lemma getVoucherNo_sent_number req filter env w n w' :
  getVoucherNo req filter env w = (Sent 200 (VoucherNoBody n), w') ->
  exists who w1 res,
    validFilter filter = true /\
    authenticateGoogle req env w = (Ok who, w1) /\
    getUserResources (user_email (user who)) (orEmpty filter) env w1 = (Ok res, w') /\
    n = nextNumber (user_email (user who)) (orEmpty filter) (db w) /\
    db w' = db w.
Proof.
  unfold getVoucherNo.
  destruct (validFilter filter) eqn:Ef; simpl; [|intros [= ]].
  unfold tryCatch, bind.
  destruct (authenticateGoogle req env w) as [[who|m] w1] eqn:Ea; [|intros [= ]].
  destruct (getUserResources _ _ env w1) as [[res|m] w2] eqn:Er; [|intros [= ]].
  unfold ret. intros [= <- <-].
  pose proof (authenticateGoogle_db _ _ _ _ _ Ea) as Hd.
  pose proof (getUserResources_inv _ _ _ _ _ _ Er) as (Hd2 & Hn & _).
  exists who, w1, res. repeat split; trivial; congruence.
Qed.

(** X12.  The number get-voucher-no answers is the number the next submit
    gets: when the same caller then submits for the same company, without a
    number of its own and with no other request in between, the voucher is
    stored under the number that was answered.  Getting the number stores
    nothing. *)
Theorem get_voucher_no_previews_submit (req : Credentials) (c : string)
    (env : Env) (w : World) (n : Z) (w1 : World) (req2 : Credentials)
    (voucherData : VoucherData.t) (env2 : Env) (body : Body) (w2 : World) :
  getVoucherNo req (Some c) env w = (Sent 200 (VoucherNoBody n), w1) ->
  VoucherData.filter voucherData = Some c ->
  truthy (VoucherData.voucherNo voucherData) = false ->
  (forall who x who2 y,
     authenticateGoogle req env w = (Ok who, x) ->
     authenticateGoogle req2 env2 w1 = (Ok who2, y) ->
     user_email (user who2) = user_email (user who)) ->
  submit ToNumber req2 voucherData env2 w1 = (Sent 200 body, w2) ->
  db w1 = db w /\
  exists v, db w2 = (db w ++ [v])%list /\ company v = c /\ voucherNo v = n.
Proof.
  intros Hg Hf Hp Hsame Hs.
  destruct (getVoucherNo_sent_number _ _ _ _ _ _ Hg)
    as (who & x & res & _ & Ha & _ & Hn & Hd).
  split; [exact Hd|].
  destruct (plain_submit_appends _ _ _ _ _ _ Hp Hs) as (v & Hd2 & Hc & Hno).
  destruct (submit_sent_200 _ _ _ _ _ _ Hs)
    as (who2 & y & res2 & z & fileId & link & v2 & _ & Ha2 & _ & _ & _ & Hv & Hd3 & _).
  rewrite Hd2 in Hd3. apply app_inj_tail in Hd3. destruct Hd3 as [_ <-].
  apply newVoucher_Ok in Hv. destruct Hv as (_ & _ & He & _).
  rewrite Hf in Hc. injection Hc as Hc.
  exists v. rewrite <- Hd. split; [exact Hd2|]. split; [now rewrite Hc|].
  rewrite Hno, Hn, He, (Hsame _ _ _ _ Ha Ha2), Hd, <- Hc. reflexivity.
Qed.

(** X13.  Get-voucher-no provisions without recording it: for an owner and a
    company without stored voucher it creates a spreadsheet with its header
    row and a folder, answers 1 and stores nothing.  The pair is still
    without voucher afterwards, so a submit that follows creates a
    spreadsheet and a folder again and stores those ids. *)
Theorem get_voucher_no_provisions_unrecorded (req : Credentials) (c : string)
    (env : Env) (w : World) (who : Identity) (w1 : World) (sid fid : string) :
  validFilter (Some c) = true ->
  authenticateGoogle req env w = (Ok who, w1) ->
  (forall v, In v (db w) -> ~ (email v = user_email (user who) /\ company v = c)) ->
  spreadsheetCreated env = Ok sid ->
  headerWritten env = Ok tt ->
  folderCreated env = Ok fid ->
  exists w',
    getVoucherNo req (Some c) env w = (Sent 200 (VoucherNoBody 1), w') /\
    db w' = db w /\
    calls w' = (calls w1 ++ provisioningCalls c sid)%list /\
    forall req2 voucherData env2 body w2 who2 x,
      VoucherData.filter voucherData = Some c ->
      authenticateGoogle req2 env2 w' = (Ok who2, x) ->
      user_email (user who2) = user_email (user who) ->
      submit ToNumber req2 voucherData env2 w' = (Sent 200 body, w2) ->
      exists v, db w2 = (db w ++ [v])%list /\
                spreadsheetCreated env2 = Ok (spreadsheetId v) /\
                folderCreated env2 = Ok (folderId v).
Proof.
  intros Hf Ha Hnone Hs Hh Hfo.
  pose proof (authenticateGoogle_db _ _ _ _ _ Ha) as Hd.
  assert (Hfind : forall d, d = db w ->
            findOne (byEmailCompany (user_email (user who)) c) d = None).
  { intros d ->. apply findOne_None. intros v Hv.
    destruct (byEmailCompany (user_email (user who)) c v) eqn:Eq; [|reflexivity].
    apply byEmailCompany_true in Eq. destruct (Hnone v Hv Eq). }
  pose proof (getUserResources_fresh (user_email (user who)) c env w1 sid fid
                (Hfind _ Hd) Hs Hh Hfo) as Hr.
  eexists. split; [|split; [|split]].
  - unfold getVoucherNo. rewrite Hf. simpl. unfold tryCatch, bind.
    rewrite Ha. simpl orEmpty. rewrite Hr. reflexivity.
  - exact Hd.
  - reflexivity.
  - intros req2 voucherData env2 body w2 who2 x Hfil Ha2 Hsame Hsub.
    destruct (submit_sent_200 _ _ _ _ _ _ Hsub)
      as (who3 & y & res & z & fileId & link & v & _ & Ha3 & Hres & _ & _ & Hv & Hd3 & _).
    rewrite Ha2 in Ha3. injection Ha3 as <- <-.
    apply newVoucher_Ok in Hv.
    destruct Hv as (_ & _ & _ & _ & _ & _ & _ & _ & _ & _ & _ & _ & _ & _ & _
                    & Hsi & Hfi & _).
    apply getUserResources_inv in Hres. destruct Hres as (_ & _ & Hres).
    rewrite Hfil, Hsame in Hres. simpl orEmpty in Hres.
    rewrite (Hfind (db x)) in Hres
      by (rewrite (authenticateGoogle_db _ _ _ _ _ Ha2); exact Hd).
    destruct Hres as (H1 & H2 & _).
    exists v. simpl in Hd3. rewrite Hd in Hd3.
    split; [exact Hd3|]. split; congruence.
Qed.


(** ** Edit and delete on the way *)

(** X14.  Edit deletes the old document before it uploads the new one and
    does not undo it: when the upload fails, the reply is 500, the old
    document has been deleted, and the record store is unchanged, so the
    stored voucher still names the deleted document. *)
Theorem edit_upload_failure_loses_document (req : Credentials)
    (voucherId : string) (voucherData : VoucherData.t) (env : Env) (w : World)
    (who : Identity) (w1 : World) (recordId : string) (v : Voucher)
    (reason : string) :
  validFilter (VoucherData.filter voucherData) = true ->
  authenticateGoogle req env w = (Ok who, w1) ->
  ToObjectId voucherId = Some recordId ->
  findOne (byIdEmail recordId (user_email (user who))) (db w) = Some v ->
  pdfWritten env = Ok tt ->
  textTruthy (pdfFileId v) = true ->
  fileDeleted env = Ok tt ->
  fileUploaded env = Throw reason ->
  exists w',
    editVoucher ToNumber ToObjectId req voucherId voucherData env w =
      (Sent 500 (ErrorBody ("Failed to update voucher: " ++ reason)), w') /\
    db w' = db w /\
    In v (db w') /\
    In (FilesDelete (orEmpty (pdfFileId v))) (calls w') /\
    forall c, In c (calls w') ->
      match c with
      | ValuesUpdate _ _ _ | ValuesGet _ _ => In c (calls w1)
      | _ => True
      end.
Proof.
  intros Hf Ha Hcast Hfind Hp Ht Hdel Hup.
  pose proof (authenticateGoogle_db _ _ _ _ _ Ha) as Hd.
  pose proof Hfind as Hin. apply findOne_Some in Hin. destruct Hin as [Hin _].
  rewrite <- Hd in Hfind.
  eexists. unfold editVoucher, tryCatch, bind.
  rewrite Hf. simpl. rewrite Ha, Hcast. simpl. rewrite Hfind, Hp.
  unfold settle, editUpload, tryCatch, bind.
  rewrite (deleteOldPdf_ok _ _ _ (fun _ => Hdel)).
  unfold call. simpl. rewrite Hup. simpl.
  split; [reflexivity|]. split; [exact Hd|]. split; [now rewrite Hd|].
  unfold oldPdfCalls. rewrite Ht.
  split.
  - apply in_or_app. left. apply in_or_app. right. now left.
  - intros c Hc. destruct c; trivial;
      repeat (apply in_app_or in Hc; destruct Hc as [Hc|Hc]); trivial;
      simpl in Hc; destruct Hc as [Hc|Hc]; try discriminate; destruct Hc.
Qed.

(** X15.  A delete request for a number under which its caller has no
    voucher is answered 404 "Voucher not found": no document is deleted, no
    row is read or cleared and the record store is unchanged, also when
    another owner has a voucher of that number.  A parameter that is not a
    number is answered 500, with no effect either. *)
Theorem delete_unknown_number (req : Credentials) (param : string) (env : Env)
    (w : World) (who : Identity) (w1 : World) :
  authenticateGoogle req env w = (Ok who, w1) ->
  (forall n,
     ToNumber param = Some n ->
     (forall v, In v (db w) ->
                ~ (voucherNo v = n /\ email v = user_email (user who))) ->
     deleteVoucher ToNumber req param env w =
       (Sent 404 (ErrorBody "Voucher not found"), w1)) /\
  (ToNumber param = None ->
   snd (deleteVoucher ToNumber req param env w) = w1 /\
   errorReply [500] (fst (deleteVoucher ToNumber req param env w))) /\
  db w1 = db w /\
  exists issued, calls w1 = (calls w ++ issued)%list /\
                 forallb (fun c => negb (mutation c)) issued = true.
Proof.
  intros Ha.
  pose proof (authenticateGoogle_db _ _ _ _ _ Ha) as Hd.
  split; [|split; [|split; [exact Hd | exact (authenticateGoogle_calls _ _ _ _ _ Ha)]]].
  - intros n Hn Hnone.
    unfold deleteVoucher, tryCatch, bind. rewrite Ha, Hn.
    unfold getDb at 1.
    assert (E : findOne (byNumberEmail n (user_email (user who))) (db w1) = None).
    { apply findOne_None. intros v Hv. rewrite Hd in Hv.
      destruct (byNumberEmail n (user_email (user who)) v) eqn:Eq; [|reflexivity].
      apply byNumberEmail_true in Eq. destruct (Hnone v Hv Eq). }
    rewrite E. reflexivity.
  - intros Hn. unfold deleteVoucher, tryCatch, bind. rewrite Ha, Hn. simpl.
    split; [reflexivity|]. eexists _, _. split; [reflexivity|]. now left.
Qed.

(** ** The row an edit writes *)

Lemma findIndex_Some {A} (p : A -> bool) l i :
  findIndex p l = Some i ->
  (exists x, nth_error l i = Some x /\ p x = true) /\
  forall j y, (j < i)%nat -> nth_error l j = Some y -> p y = false.
Proof.
  revert i. induction l as [|x l IH]; intros i; simpl; [discriminate|].
  destruct (p x) eqn:Ex.
  - intros [= <-]. split; [exists x; auto|]. intros j y Hj. inversion Hj.
  - destruct (findIndex p l) as [k|]; [|discriminate].
    intros [= <-]. destruct (IH k eq_refl) as [Hk Hbefore].
    split; [exact Hk|].
    intros [|j] y Hj; simpl.
    + now intros [= <-].
    + apply Hbefore. lia.
Qed.

(** X16.  The row a successful edit overwrites is the first data row whose
    first cell loosely equals the stored voucher number: with [i] its index
    in the rows read from the second sheet row on, the range written is row
    [i + 2] of the sheet the request's category names, in the stored
    spreadsheet; no row before it matches, and a row that reads back empty,
    as a cleared row does, is never the one. *)
Theorem edit_overwrites_first_matching_row (req : Credentials)
    (voucherId : string) (voucherData : VoucherData.t) (env : Env) (w : World)
    (body : Body) (w' : World) :
  editVoucher ToNumber ToObjectId req voucherId voucherData env w = (Sent 200 body, w') ->
  exists v rows i row cells,
    In v (db w) /\ ToObjectId voucherId = Some (_id v) /\
    rowsRead env = Ok rows /\
    nth_error (valuesOrEmpty rows) i = Some row /\
    looseEqNumber ToNumber (firstCell row) (voucherNo v) = true /\
    row <> [] /\
    (forall j earlier, (j < i)%nat ->
       nth_error (valuesOrEmpty rows) j = Some earlier ->
       looseEqNumber ToNumber (firstCell earlier) (voucherNo v) = false) /\
    In (ValuesUpdate (spreadsheetId v)
          (RowRange (orEmpty (VoucherData.filter voucherData)) (Z.of_nat i + 2))
          cells)
       (calls w') /\
    nth_error cells 0 = Some (JNumber (voucherNo v)).
Proof.
  intros H.
  destruct (editVoucher_sent_200 _ _ _ _ _ _ _ H)
    as (who & w1 & recordId & v & fileId & link & rows & i &
        _ & _ & Hcast & Hfind & _ & Hrows & Hloc & _ & Hc).
  apply findOne_Some in Hfind. destruct Hfind as [Hin Hq].
  apply byIdEmail_true in Hq. destruct Hq as [Hid _].
  rewrite <- Hid in Hcast.
  unfold locateRow in Hloc. apply findIndex_Some in Hloc.
  destruct Hloc as [(row & Hrow & Hm) Hbefore].
  exists v, rows, i, row,
    (sheetRow voucherData (JNumber (voucherNo v)) link).
  repeat split; trivial.
  - intros ->. discriminate Hm.
  - rewrite Hc. unfold editCalls.
    apply in_or_app. right. apply in_or_app. right.
    apply in_or_app. right. simpl. auto.
Qed.


(** ** Delete against submit and list *)

Lemma ownedBy_app e d1 d2 :
  ownedBy e (d1 ++ d2) = (ownedBy e d1 ++ ownedBy e d2)%list.
Proof. apply filter_app. Qed.

(** X17.  After a successful delete, the list of the caller holds what it
    held before but for one voucher of the deleted number: the caller's
    vouchers before the delete are that voucher and the vouchers listed
    after it. *)
Theorem delete_then_list (req : Credentials) (param : string) (env : Env)
    (w : World) (body : Body) (w' : World) :
  deleteVoucher ToNumber req param env w = (Sent 200 body, w') ->
  exists who w1 v,
    authenticateGoogle req env w = (Ok who, w1) /\
    ToNumber param = Some (voucherNo v) /\
    email v = user_email (user who) /\
    In v (db w) /\
    forall req2 env2 who2 w2,
      authenticateGoogle req2 env2 w' = (Ok who2, w2) ->
      user_email (user who2) = user_email (user who) ->
      exists l,
        listVouchers req2 None None None env2 w' = (Sent 200 (VouchersBody l), w2) /\
        Permutation (v :: l) (ownedBy (user_email (user who)) (db w)).
Proof.
  intros H.
  destruct (deleteVoucher_sent_200 _ _ _ _ _ _ H)
    as (who & w1 & n & v & rows & Ha & Hn & Hfind & _ & Hd & _).
  destruct (deleteOne_split _ _ _ Hfind) as (l1 & l2 & E1 & E2).
  apply findOne_Some in Hfind. destruct Hfind as [Hin Hq].
  apply byNumberEmail_true in Hq. destruct Hq as [Hno He].
  exists who, w1, v. split; [exact Ha|]. split; [now rewrite Hno|].
  split; [exact He|]. split; [exact Hin|].
  intros req2 env2 who2 w2 Ha2 Hsame.
  eexists. split; [apply (listVouchers_owner _ _ _ _ _ Ha2)|].
  rewrite Hsame, Hd, E2, E1, !ownedBy_app.
  unfold ownedBy at 4. simpl. rewrite He, String.eqb_refl.
  eapply Permutation_trans;
    [apply perm_skip; apply sortBy_perm | apply Permutation_middle].
Qed.

(** X18.  Submit then delete is a round trip on the record store: when a
    voucher has just been stored and its owner had no other voucher of that
    number, a successful delete of that number by the owner leaves the
    record store as it was before the submit. *)
Theorem submit_then_delete (req : Credentials) (voucherData : VoucherData.t)
    (env : Env) (w : World) (body : Body) (w1 : World) :
  submit ToNumber req voucherData env w = (Sent 200 body, w1) ->
  exists v,
    db w1 = (db w ++ [v])%list /\
    forall req2 param env2 body2 w2 who2 x,
      (forall u, In u (db w) ->
                 ~ (voucherNo u = voucherNo v /\ email u = email v)) ->
      ToNumber param = Some (voucherNo v) ->
      authenticateGoogle req2 env2 w1 = (Ok who2, x) ->
      user_email (user who2) = email v ->
      deleteVoucher ToNumber req2 param env2 w1 = (Sent 200 body2, w2) ->
      db w2 = db w.
Proof.
  intros H.
  destruct (submit_sent_200 _ _ _ _ _ _ H)
    as (who & y & res & z & fileId & link & v & _ & _ & _ & _ & _ & _ & Hd & _).
  exists v. split; [exact Hd|].
  intros req2 param env2 body2 w2 who2 x Hnone Hn Ha2 Hsame Hdel.
  destruct (deleteVoucher_sent_200 _ _ _ _ _ _ Hdel)
    as (who3 & x' & n & u & rows & Ha3 & Hn3 & _ & _ & Hd2 & _).
  rewrite Ha2 in Ha3. injection Ha3 as <- <-.
  rewrite Hn in Hn3. injection Hn3 as <-.
  rewrite Hd2, Hd, Hsame. clear - Hnone.
  induction (db w) as [|a d IH]; simpl.
  - unfold byNumberEmail. now rewrite Z.eqb_refl, String.eqb_refl.
  - destruct (byNumberEmail (voucherNo v) (email v) a) eqn:Eq.
    + apply byNumberEmail_true in Eq. destruct (Hnone a (or_introl eq_refl) Eq).
    + f_equal. apply IH. intros u Hu. apply Hnone. now right.
Qed.

(** ** Numbers sent as text *)

(** X19.  A voucher number sent as text is stored as a number and written
    to the sheet as text: a successful submit whose body has the non-empty
    string [s] as number stores the voucher under the number [s] converts
    to, while the first cell of the appended row is the string itself.  A
    string that converts to no number is therefore never accepted. *)
Theorem submit_number_as_text (req : Credentials) (voucherData : VoucherData.t)
    (env : Env) (w : World) (body : Body) (w' : World) (s : string) :
  VoucherData.voucherNo voucherData = JString s ->
  s <> "" ->
  submit ToNumber req voucherData env w = (Sent 200 body, w') ->
  exists v sid range cells,
    db w' = (db w ++ [v])%list /\
    ToNumber s = Some (voucherNo v) /\
    In (ValuesAppend sid range cells) (calls w') /\
    nth_error cells 0 = Some (JString s).
Proof.
  intros Hs Hne H.
  destruct (submit_sent_200 _ _ _ _ _ _ H)
    as (who & w1 & res & w2 & fileId & link & v & _ & _ & _ & _ & _ & Hv & Hd & Hc & _).
  assert (Hno : submittedNumber voucherData res = JString s).
  { unfold submittedNumber. rewrite Hs. apply jsOr_truthy. simpl.
    apply negb_true_iff, String.eqb_neq. exact Hne. }
  apply newVoucher_Ok in Hv. destruct Hv as (Hcast & _).
  rewrite Hno in Hcast. simpl in Hcast.
  destruct (String.eqb_spec s "") as [E|_]; [destruct (Hne E)|].
  exists v, (res_spreadsheetId res),
    (SheetRange (orEmpty (VoucherData.filter voucherData))),
    (sheetRow voucherData (submittedNumber voucherData res) link).
  split; [exact Hd|]. split; [exact Hcast|].
  split.
  - rewrite Hc. unfold submitCalls. apply in_or_app. right. simpl. auto.
  - simpl. now rewrite Hno.
Qed.


(** ** The order of the writes *)

(** X20.  Submit writes in the order document, row, record, and stops at the
    first failure: once the caller is identified and the workspace is there,
    the calls it issues are a beginning of the sequence "write the local
    file, upload the document, append the row, remove the local file".  The
    record is stored exactly when the sequence is complete, and the reply is
    200 exactly when it is complete and the removal of the local file
    succeeded: when the removal fails, the reply is 500 with the message of
    the failure though the record is stored. *)
Theorem submit_calls_in_order (req : Credentials) (voucherData : VoucherData.t)
    (env : Env) (w : World) (who : Identity) (w1 : World) (res : Resources)
    (w2 : World) (reply : Reply) (w' : World) :
  validFilter (VoucherData.filter voucherData) = true ->
  authenticateGoogle req env w = (Ok who, w1) ->
  getUserResources (user_email (user who))
    (orEmpty (VoucherData.filter voucherData)) env w1 = (Ok res, w2) ->
  submit ToNumber req voucherData env w = (reply, w') ->
  exists fileId link k,
    calls w' = (calls w2 ++ firstn k (submitCalls voucherData res fileId link))%list /\
    (k <= 4)%nat /\
    (accepted reply <-> k = 4%nat /\ fileUnlinked env = Ok tt) /\
    (db w' <> db w -> k = 4%nat) /\
    ((k < 4)%nat -> db w' = db w) /\
    (k = 4%nat -> exists v, db w' = (db w ++ [v])%list) /\
    (forall m, k = 4%nat -> fileUnlinked env = Throw m ->
       reply = Sent 500
                 (ErrorBody ("Failed to upload PDF or append to sheet: " ++ m))).
Proof.
  intros Hf Ha Hr.
  pose proof (authenticateGoogle_db _ _ _ _ _ Ha) as Hd1.
  pose proof (getUserResources_db _ _ _ _ _ _ Hr) as Hd2.
  assert (Hd : db w2 = db w) by congruence.
  assert (Hstop : forall fileId link k m w3,
            (k < 4)%nat -> db w3 = db w ->
            calls w3 =
              (calls w2 ++ firstn k (submitCalls voucherData res fileId link))%list ->
            exists fileId link k,
              calls w3 =
                (calls w2 ++ firstn k (submitCalls voucherData res fileId link))%list /\
              (k <= 4)%nat /\
              (accepted (Sent 500 (ErrorBody m)) <->
               k = 4%nat /\ fileUnlinked env = Ok tt) /\
              (db w3 <> db w -> k = 4%nat) /\
              ((k < 4)%nat -> db w3 = db w) /\
              (k = 4%nat -> exists v, db w3 = (db w ++ [v])%list) /\
              (forall m', k = 4%nat -> fileUnlinked env = Throw m' ->
                 Sent 500 (ErrorBody m) =
                 Sent 500
                   (ErrorBody ("Failed to upload PDF or append to sheet: " ++ m')))).
  { intros fileId link k m w3 Hk Hdb Hc. exists fileId, link, k.
    split; [exact Hc|]. split; [lia|]. split; [|split; [|split; [|split]]].
    - split; [intros [b Hb]; discriminate | intros [Hk4 _]; lia].
    - intros Hne. destruct (Hne Hdb).
    - intros _. exact Hdb.
    - intros Hk4. lia.
    - intros m' Hk4. lia. }
  unfold submit, tryCatch, bind. rewrite Hf. simpl. rewrite Ha, Hr.
  fold (submittedNumber voucherData res).
  destruct (truthy (submittedNumber voucherData res)); simpl.
  2:{ unfold throw. intros [= <- <-].
      apply (Hstop "" None 0%nat); [lia | exact Hd |].
      simpl. now rewrite app_nil_r. }
  destruct (pdfWritten env) as [[]|m].
  2:{ unfold ret. intros [= <- <-].
      apply (Hstop "" None 1%nat); [lia | exact Hd | reflexivity]. }
  unfold settle, submitUpload, tryCatch, bind, call. simpl.
  destruct (fileUploaded env) as [[fileId link]|m]; simpl.
  2:{ intros [= <- <-].
      apply (Hstop "" None 2%nat); [lia | exact Hd |].
      simpl. now rewrite <- app_assoc. }
  destruct (rowAppended env) as [[]|m]; simpl.
  2:{ intros [= <- <-].
      apply (Hstop fileId link 3%nat); [lia | exact Hd |].
      simpl. now rewrite <- !app_assoc. }
  destruct (newVoucher ToNumber _ _ _ _ _ _ _ _ _) as [v|m]; simpl.
  2:{ unfold throw. intros [= <- <-].
      apply (Hstop fileId link 3%nat); [lia | exact Hd |].
      simpl. now rewrite <- !app_assoc. }
  unfold getDb, putDb, ret. simpl.
  destruct (fileUnlinked env) as [[]|m] eqn:El; simpl;
    intros [= <- <-]; exists fileId, link, 4%nat; simpl;
    rewrite <- !app_assoc;
    (split; [reflexivity|]); (split; [lia|]);
    (split; [|split; [reflexivity|split; [lia|split; [exists v; now rewrite Hd|]]]]).
  - split; [now split | intros _; eexists; reflexivity].
  - intros m' _ [= ].
  - split; [intros [b Hb]; discriminate | intros [_ [= ]]].
  - intros m' _ [= <-]. reflexivity.
Qed.

(** X21.  Delete removes in the order document, row, record, and does not
    undo: when the row is found and clearing it fails, the reply is 500 and
    the record is kept, but its document has already been deleted. *)
Theorem delete_clear_failure_loses_document (req : Credentials)
    (param : string) (env : Env) (w : World) (who : Identity) (w1 : World)
    (v : Voucher) (rows : option (list (list jsval))) (i : nat)
    (reason : string) :
  authenticateGoogle req env w = (Ok who, w1) ->
  ToNumber param = Some (voucherNo v) ->
  findOne (byNumberEmail (voucherNo v) (user_email (user who))) (db w) = Some v ->
  textTruthy (pdfFileId v) = true ->
  fileDeleted env = Ok tt ->
  rowsRead env = Ok rows ->
  locateRow ToNumber (valuesOrEmpty rows) (voucherNo v) = Some i ->
  rowCleared env = Throw reason ->
  exists w',
    deleteVoucher ToNumber req param env w =
      (Sent 500 (ErrorBody ("Failed to delete voucher: " ++ reason)), w') /\
    db w' = db w /\
    In v (db w') /\
    calls w' =
      (calls w1 ++
       [ FilesDelete (orEmpty (pdfFileId v));
         ValuesGet (spreadsheetId v) (DataRange (company v));
         ValuesClear (spreadsheetId v)
           (RowRange (company v) (Z.of_nat i + 2)) ])%list.
Proof.
  intros Ha Hn Hfind Ht Hdel Hrows Hloc Hclear.
  pose proof (authenticateGoogle_db _ _ _ _ _ Ha) as Hd.
  pose proof Hfind as Hin. apply findOne_Some in Hin. destruct Hin as [Hin _].
  rewrite <- Hd in Hfind.
  eexists. unfold deleteVoucher, tryCatch, bind.
  rewrite Ha, Hn. unfold getDb at 1. rewrite Hfind.
  rewrite (deleteOldPdf_ok _ _ _ (fun _ => Hdel)).
  unfold call at 1. simpl. rewrite Hrows, Hloc.
  unfold clearRow, call. simpl. rewrite Hclear.
  split; [reflexivity|]. simpl. split; [exact Hd|]. split; [now rewrite Hd|].
  unfold oldPdfCalls. rewrite Ht. rewrite <- !app_assoc. reflexivity.
Qed.

(** X22.  Provisioning is not undone either: when a pair has no voucher and
    the folder cannot be created after the spreadsheet was, a submit answers
    500 and stores nothing, and the spreadsheet, created and given its
    header row, is left behind; nothing is rendered or uploaded. *)
Theorem submit_folder_failure_orphans_spreadsheet (req : Credentials)
    (voucherData : VoucherData.t) (env : Env) (w : World) (who : Identity)
    (w1 : World) (sid reason : string) :
  validFilter (VoucherData.filter voucherData) = true ->
  authenticateGoogle req env w = (Ok who, w1) ->
  (forall v, In v (db w) ->
             ~ (email v = user_email (user who) /\
                company v = orEmpty (VoucherData.filter voucherData))) ->
  spreadsheetCreated env = Ok sid ->
  headerWritten env = Ok tt ->
  folderCreated env = Throw reason ->
  exists w',
    submit ToNumber req voucherData env w =
      (Sent 500 (ErrorBody ("Failed to submit data: " ++ reason)), w') /\
    db w' = db w /\
    calls w' =
      (calls w1 ++
       provisioningCalls (orEmpty (VoucherData.filter voucherData)) sid)%list.
Proof.
  intros Hf Ha Hnone Hs Hh Hfo.
  pose proof (authenticateGoogle_db _ _ _ _ _ Ha) as Hd.
  assert (E : findOne (byEmailCompany (user_email (user who))
                         (orEmpty (VoucherData.filter voucherData))) (db w1) = None).
  { apply findOne_None. intros v Hv. rewrite Hd in Hv.
    destruct (byEmailCompany _ _ v) eqn:Eq; [|reflexivity].
    apply byEmailCompany_true in Eq. destruct (Hnone v Hv Eq). }
  eexists. unfold submit, tryCatch, bind. rewrite Hf. simpl. rewrite Ha.
  unfold getUserResources, createSpreadsheet, createDriveFolder, bind, call, getDb.
  rewrite E. simpl. rewrite Hs, Hh. simpl. rewrite Hfo. simpl.
  split; [reflexivity|]. split; [exact Hd|].
  unfold provisioningCalls. rewrite <- !app_assoc. reflexivity.
Qed.

End Properties.

(** * Examples

    The theorems at sample requests, with [decimalNumber] for the number
    conversion and [hexObjectId] for the cast of record ids. *)

(** Adding 1 at 2^53 and beyond: the sum is rounded to the nearest double,
    the even one on a tie. *)
Example plusOne_beyond_2_53 :
  plusOne 9007199254740991 = 9007199254740992 /\
  plusOne 9007199254740992 = 9007199254740992 /\
  plusOne 9007199254740994 = 9007199254740996 /\
  plusOne (-9007199254740994) = -9007199254740992 /\
  plusOne 18014398509481984 = 18014398509481984.
Proof. repeat split; vm_compute; reflexivity. Qed.

Example oneVoucher_db : db oneVoucher = [storedVoucher].
Proof. vm_compute. reflexivity. Qed.

Lemma getUserResources_next_number_witness :
  (exists h r,
     In h (db oneVoucher) /\ email h = "alice@example.com" /\
     company h = "Contentstack" /\
     (forall u, In u (db oneVoucher) -> email u = "alice@example.com" ->
                company u = "Contentstack" -> voucherNo u <= voucherNo h) /\
     getUserResources "alice@example.com" "Contentstack" noRowEnv oneVoucher
       = (Ok r, oneVoucher) /\
     voucherNumber r = plusOne (voucherNo h) /\
     (Z.abs (voucherNo h + 1) <= twoTo53 -> voucherNumber r = voucherNo h + 1))
  /\
  (exists r w',
     getUserResources "alice@example.com" "Surfboard" noRowEnv oneVoucher
       = (Ok r, w') /\
     voucherNumber r = 1).
Proof.
  split.
  - apply (proj1 (getUserResources_next_number
                    "alice@example.com" "Contentstack" noRowEnv oneVoucher)).
    exists storedVoucher. vm_compute. auto.
  - assert (Hnone : forall v, In v (db oneVoucher) ->
                      ~ (email v = "alice@example.com" /\ company v = "Surfboard")).
    { intros v Hv [_ Hc]. vm_compute in Hv.
      destruct Hv as [<-|[]]. discriminate Hc. }
    apply (proj2 (proj2 (getUserResources_next_number
                           "alice@example.com" "Surfboard" noRowEnv oneVoucher)
                    Hnone) "sheet-9" "folder-9");
      reflexivity.
Defined.

(** C1, as stated, fails: when the highest stored number of a pair is 2^53,
    which a submission that brings its own number can store, the numbering
    operation returns 2^53 again, not 2^53 + 1. *)
Lemma getUserResources_next_number_counterexample :
  exists h r,
    In h (db hugeNumber) /\ email h = "alice@example.com" /\
    company h = "Contentstack" /\
    (forall u, In u (db hugeNumber) -> voucherNo u <= voucherNo h) /\
    voucherNo h = 9007199254740992 /\
    getUserResources "alice@example.com" "Contentstack" noRowEnv hugeNumber
      = (Ok r, hugeNumber) /\
    voucherNumber r = 9007199254740992 /\
    voucherNumber r <> voucherNo h + 1.
Proof.
  eexists _, _. split; [vm_compute; left; reflexivity|].
  split; [reflexivity|]. split; [reflexivity|].
  split; [intros u Hu; vm_compute in Hu; destruct Hu as [<-|[]]; simpl; lia|].
  split; [reflexivity|].
  split; [vm_compute; reflexivity|].
  split; [reflexivity | vm_compute; discriminate].
Qed.

Lemma submit_number_is_next_witness :
  truthy (VoucherData.voucherNo (cashVoucher "Contentstack" JUndefined)) = false /\
  submit decimalNumber aliceSession (cashVoucher "Contentstack" JUndefined)
    (okEnv "sheet-2" "folder-2" "file-2" "65f000000000000000000002" []) oneVoucher
    = (Sent 200 secondBody, twoVouchers) /\
  exists v,
    db twoVouchers = (db oneVoucher ++ [v])%list /\
    VoucherData.filter (cashVoucher "Contentstack" JUndefined) = Some (company v) /\
    highestPlusOne (email v) (company v) (db oneVoucher) (voucherNo v) /\
    (forall rs,
       (forall r, In r rs -> plainSubmit r = true) ->
       oneVoucher = serve decimalNumber hexObjectId rs emptyWorld ->
       Z.of_nat (List.length (vouchersOf (email v) (company v) (db oneVoucher)))
         < twoTo53 ->
       voucherNo v =
         Z.of_nat (List.length (vouchersOf (email v) (company v) (db oneVoucher))) + 1).
Proof.
  assert (H1 : truthy (VoucherData.voucherNo (cashVoucher "Contentstack" JUndefined))
               = false) by reflexivity.
  assert (H2 : submit decimalNumber aliceSession
                 (cashVoucher "Contentstack" JUndefined)
                 (okEnv "sheet-2" "folder-2" "file-2" "65f000000000000000000002" []) oneVoucher
               = (Sent 200 secondBody, twoVouchers))
    by (vm_compute; reflexivity).
  split; [exact H1|]. split; [exact H2|].
  exact (submit_number_is_next decimalNumber hexObjectId _ _ _ _ _ _ H1 H2).
Defined.

(** C2, as stated, fails: after two submissions and the deletion of number
    1, the pair has one voucher left (number 2), and the next submission is
    stored under number 3, not under the count of the remaining vouchers
    plus one, which is 2.  Nor is the number always the highest plus one:
    after a stored number 2^53, the next submission that leaves the number to
    the server is stored under 2^53 again. *)
Lemma numbering_by_count_counterexample :
  ((forall r, In r submitSubmitDelete -> plainSubmitOrDelete r = true) /\
   exists body w' v,
     submit decimalNumber aliceSession (cashVoucher "Contentstack" JUndefined)
       (okEnv "sheet-4" "folder-4" "file-4" "65f000000000000000000004" [])
       (serve decimalNumber hexObjectId submitSubmitDelete emptyWorld)
       = (Sent 200 body, w') /\
     db w' = (db (serve decimalNumber hexObjectId submitSubmitDelete emptyWorld) ++ [v])%list /\
     Z.of_nat (List.length
                 (vouchersOf (email v) (company v)
                    (db (serve decimalNumber hexObjectId submitSubmitDelete emptyWorld)))) + 1
       = 2 /\
     voucherNo v = 3)
  /\
  (exists body w' h v,
     db hugeNumber = [h] /\ voucherNo h = 9007199254740992 /\
     truthy (VoucherData.voucherNo (cashVoucher "Contentstack" JUndefined)) = false /\
     submit decimalNumber aliceSession (cashVoucher "Contentstack" JUndefined)
       (okEnv "sheet-2" "folder-2" "file-2" "65f000000000000000000002" [])
       hugeNumber
       = (Sent 200 body, w') /\
     db w' = [h; v] /\
     email v = email h /\ company v = company h /\
     voucherNo v = 9007199254740992 /\
     voucherNo v <> voucherNo h + 1).
Proof.
  split.
  - split.
    + intros r [<-|[<-|[<-|[]]]]; reflexivity.
    + eexists _, _, _. split; [vm_compute; reflexivity|].
      split; [vm_compute; reflexivity|].
      split; vm_compute; reflexivity.
  - eexists _, _, _, _. split; [vm_compute; reflexivity|].
    split; [reflexivity|]. split; [reflexivity|].
    split; [vm_compute; reflexivity|].
    split; [reflexivity|]. split; [reflexivity|]. split; [reflexivity|].
    split; [reflexivity | vm_compute; discriminate].
Qed.


(** The row of the second sample submission, under the header. *)
Example appended_row_under_header :
  exists row,
    In (ValuesAppend "sheet-1" (SheetRange "Contentstack") row) (calls twoVouchers) /\
    ~ In (ValuesAppend "sheet-1" (SheetRange "Contentstack") row) (calls oneVoucher) /\
    combine headerValues row =
      [ ("Voucher No.", JNumber 2); ("Date", JString "2024-01-01");
        ("Filter", JString "Contentstack"); ("Pay to", JString "Bob");
        ("Account Head", JString "Travel"); ("Towards", JString "Taxi");
        ("Transaction Type", JString "Cash"); ("The Sum", JString "500");
        ("Amount Rs.", JString "Five hundred"); ("Checked By", JUndefined);
        ("Approved By", JUndefined); ("Receiver Signature", JUndefined);
        ("PDF Link", JString "https://drive.example/file-2") ].
Proof.
  exists [ JNumber 2; JString "2024-01-01"; JString "Contentstack"; JString "Bob";
           JString "Travel"; JString "Taxi"; JString "Cash"; JString "500";
           JString "Five hundred"; JUndefined; JUndefined; JUndefined;
           JString "https://drive.example/file-2" ].
  split; [|split].
  - vm_compute. repeat (first [left; reflexivity | right]).
  - vm_compute. intros H.
    repeat (destruct H as [H|H]; [discriminate|]). exact H.
  - reflexivity.
Qed.

Lemma submit_client_number_witness :
  VoucherData.voucherNo (cashVoucher "Contentstack" (JNumber 1)) = JNumber 1 /\
  1 <> 0 /\
  submit decimalNumber aliceSession (cashVoucher "Contentstack" (JNumber 1))
    (okEnv "sheet-2" "folder-2" "file-2" "65f000000000000000000002" []) oneVoucher
    = (Sent 200 secondBody,
       snd (submit decimalNumber aliceSession
              (cashVoucher "Contentstack" (JNumber 1))
              (okEnv "sheet-2" "folder-2" "file-2" "65f000000000000000000002" []) oneVoucher)) /\
  exists v,
    db (snd (submit decimalNumber aliceSession
               (cashVoucher "Contentstack" (JNumber 1))
               (okEnv "sheet-2" "folder-2" "file-2" "65f000000000000000000002" []) oneVoucher))
      = (db oneVoucher ++ [v])%list /\
    voucherNo v = 1.
Proof.
  assert (H0 : (1 <> 0)%Z) by discriminate.
  assert (H : submit decimalNumber aliceSession
                (cashVoucher "Contentstack" (JNumber 1))
                (okEnv "sheet-2" "folder-2" "file-2" "65f000000000000000000002" []) oneVoucher
              = (Sent 200 secondBody,
                 snd (submit decimalNumber aliceSession
                        (cashVoucher "Contentstack" (JNumber 1))
                        (okEnv "sheet-2" "folder-2" "file-2" "65f000000000000000000002" []) oneVoucher)))
    by (vm_compute; reflexivity).
  split; [reflexivity|]. split; [exact H0|]. split; [exact H|].
  exact (proj1 (submit_client_number decimalNumber hexObjectId) aliceSession
           (cashVoucher "Contentstack" (JNumber 1)) _ _ _ _ 1 eq_refl H0 H).
Defined.

Lemma edit_unknown_voucher_witness :
  validFilter (VoucherData.filter (cashVoucher "Contentstack" JUndefined)) = true /\
  authenticateGoogle aliceSession noRowEnv oneVoucher
    = (Ok (mkIdentity alice None), oneVoucher) /\
  hexObjectId "65f000000000000000000007" = Some "65f000000000000000000007" /\
  (forall v, In v (db oneVoucher) ->
             ~ (_id v = "65f000000000000000000007" /\ email v = user_email alice)) /\
  editVoucher decimalNumber hexObjectId aliceSession "65f000000000000000000007"
    (cashVoucher "Contentstack" JUndefined) noRowEnv oneVoucher
    = (Sent 404 (ErrorBody "Voucher not found"), oneVoucher).
Proof.
  assert (H1 : validFilter (VoucherData.filter (cashVoucher "Contentstack" JUndefined))
               = true) by reflexivity.
  assert (H2 : authenticateGoogle aliceSession noRowEnv oneVoucher
               = (Ok (mkIdentity alice None), oneVoucher)) by reflexivity.
  assert (H3 : forall v, In v (db oneVoucher) ->
                         ~ (_id v = "65f000000000000000000007" /\ email v = user_email alice)).
  { intros v Hv [Hi _]. vm_compute in Hv. destruct Hv as [<-|[]]. discriminate Hi. }
  assert (H4 : hexObjectId "65f000000000000000000007" = Some "65f000000000000000000007")
    by (vm_compute; reflexivity).
  split; [exact H1|]. split; [exact H2|]. split; [exact H4|]. split; [exact H3|].
  exact (proj1 (proj2 (edit_unknown_voucher decimalNumber hexObjectId aliceSession
                         "65f000000000000000000007"
                         (cashVoucher "Contentstack" JUndefined) noRowEnv oneVoucher)
                  (mkIdentity alice None) oneVoucher H1 H2)
           "65f000000000000000000007" H4 H3).
Defined.

(** C5, as stated, fails twice.  An edit request whose record id belongs to
    no voucher, and whose category is not in the registry, is answered 400
    "Invalid filter option", not "Voucher not found".  And an edit request
    with a category of the registry whose record id is not a well-formed id,
    so that it belongs to no voucher either, is answered 500. *)
Lemma edit_unknown_voucher_counterexample :
  ((forall v, In v (db oneVoucher) -> _id v <> "65f000000000000000000007") /\
   editVoucher decimalNumber hexObjectId aliceSession "65f000000000000000000007"
     (cashVoucher "Marketing" JUndefined) noRowEnv oneVoucher
     = (Sent 400 (ErrorBody "Invalid filter option"), oneVoucher) /\
   Sent 400 (ErrorBody "Invalid filter option")
     <> Sent 404 (ErrorBody "Voucher not found"))
  /\
  ((forall v, In v (db oneVoucher) -> _id v <> "not-an-objectid") /\
   hexObjectId "not-an-objectid" = None /\
   validFilter (VoucherData.filter (cashVoucher "Contentstack" JUndefined)) = true /\
   exists m,
     editVoucher decimalNumber hexObjectId aliceSession "not-an-objectid"
       (cashVoucher "Contentstack" JUndefined) noRowEnv oneVoucher
       = (Sent 500 (ErrorBody m), oneVoucher) /\
     Sent 500 (ErrorBody m) <> Sent 404 (ErrorBody "Voucher not found")).
Proof.
  split; [split; [|split] | split; [|split; [|split]]].
  - intros v Hv. vm_compute in Hv. destruct Hv as [<-|[]]. discriminate.
  - vm_compute. reflexivity.
  - discriminate.
  - intros v Hv. vm_compute in Hv. destruct Hv as [<-|[]]. discriminate.
  - vm_compute. reflexivity.
  - reflexivity.
  - eexists. split; [vm_compute; reflexivity | discriminate].
Qed.

Lemma row_not_found_witness :
  authenticateGoogle aliceSession noRowEnv oneVoucher
    = (Ok (mkIdentity alice None), oneVoucher) /\
  (textTruthy (pdfFileId storedVoucher) = true -> fileDeleted noRowEnv = Ok tt) /\
  rowsRead noRowEnv = Ok (Some []) /\
  locateRow decimalNumber (valuesOrEmpty (Some [])) (voucherNo storedVoucher) = None /\
  decimalNumber "1" = Some (voucherNo storedVoucher) /\
  findOne (byNumberEmail (voucherNo storedVoucher) (user_email alice)) (db oneVoucher)
    = Some storedVoucher /\
  validFilter (VoucherData.filter (cashVoucher "Contentstack" JUndefined)) = true /\
  hexObjectId "65f000000000000000000001" = Some "65f000000000000000000001" /\
  findOne (byIdEmail "65f000000000000000000001" (user_email alice)) (db oneVoucher) = Some storedVoucher /\
  pdfWritten noRowEnv = Ok tt /\
  fileUploaded noRowEnv = Ok ("file-9", Some "https://drive.example/file-9") /\
  (exists w',
     deleteVoucher decimalNumber aliceSession "1" noRowEnv oneVoucher
       = (Sent 200 (MessageBody "Voucher deleted successfully!"), w') /\
     db w' = deleteOne (byNumberEmail (voucherNo storedVoucher) (user_email alice))
               (db oneVoucher) /\
     (exists l1 l2,
        db oneVoucher = (l1 ++ storedVoucher :: l2)%list /\
        db w' = (l1 ++ l2)%list /\
        forall u, In u l1 ->
          ~ (voucherNo u = voucherNo storedVoucher /\ email u = user_email alice)) /\
     List.length (db oneVoucher) = S (List.length (db w')) /\
     calls w' =
       (calls oneVoucher ++ oldPdfCalls storedVoucher ++
          [ValuesGet (spreadsheetId storedVoucher)
             (DataRange (company storedVoucher))])%list) /\
  (exists w',
     editVoucher decimalNumber hexObjectId aliceSession "65f000000000000000000001"
       (cashVoucher "Contentstack" JUndefined) noRowEnv oneVoucher
       = (Sent 500
            (ErrorBody "Failed to update voucher: Voucher not found in sheet"),
          w') /\
     db w' = db oneVoucher /\
     forall c, In c (calls w') ->
       match c with ValuesUpdate _ _ _ => In c (calls oneVoucher) | _ => True end).
Proof.
  assert (H1 : authenticateGoogle aliceSession noRowEnv oneVoucher
               = (Ok (mkIdentity alice None), oneVoucher)) by reflexivity.
  assert (H2 : textTruthy (pdfFileId storedVoucher) = true ->
               fileDeleted noRowEnv = Ok tt) by reflexivity.
  assert (H3 : rowsRead noRowEnv = Ok (Some [])) by reflexivity.
  assert (H4 : locateRow decimalNumber (valuesOrEmpty (Some []))
                 (voucherNo storedVoucher) = None) by reflexivity.
  assert (H5 : decimalNumber "1" = Some (voucherNo storedVoucher)) by reflexivity.
  assert (H6 : findOne (byNumberEmail (voucherNo storedVoucher) (user_email alice))
                 (db oneVoucher) = Some storedVoucher)
    by (vm_compute; reflexivity).
  assert (H7 : validFilter (VoucherData.filter (cashVoucher "Contentstack" JUndefined))
               = true) by reflexivity.
  assert (H7' : hexObjectId "65f000000000000000000001"
                = Some "65f000000000000000000001") by (vm_compute; reflexivity).
  assert (H8 : findOne (byIdEmail "65f000000000000000000001" (user_email alice)) (db oneVoucher)
               = Some storedVoucher) by (vm_compute; reflexivity).
  assert (H9 : pdfWritten noRowEnv = Ok tt) by reflexivity.
  assert (H10 : fileUploaded noRowEnv
                = Ok ("file-9", Some "https://drive.example/file-9"))
    by reflexivity.
  pose proof (row_not_found_delete_proceeds_edit_aborts decimalNumber hexObjectId
                aliceSession noRowEnv oneVoucher (mkIdentity alice None)
                oneVoucher storedVoucher (Some []) H1 H2 H3 H4) as [Hdel Hedit].
  repeat (split; [assumption|]).
  split.
  - exact (Hdel "1" H5 H6).
  - exact (Hedit "65f000000000000000000001" "65f000000000000000000001"
             (cashVoucher "Contentstack" JUndefined) _ H7 H7' H8 H9 H10).
Defined.

(** After the delete of the sample run the record store is empty, though
    the sheet had no row for the voucher. *)
Example row_not_found_delete_empties_store :
  db (snd (deleteVoucher decimalNumber aliceSession "1" noRowEnv oneVoucher)) = [] /\
  db oneVoucher = [storedVoucher].
Proof. split; vm_compute; reflexivity. Qed.

Lemma submit_provisioning_witness :
  submit decimalNumber aliceSession (cashVoucher "Contentstack" JUndefined)
    (okEnv "sheet-2" "folder-2" "file-2" "65f000000000000000000002" []) oneVoucher
    = (Sent 200 secondBody, twoVouchers) /\
  exists v,
    db twoVouchers = (db oneVoucher ++ [v])%list /\
    ((exists u, In u (db oneVoucher) /\ email u = email v /\ company u = company v) ->
     (exists u, In u (db oneVoucher) /\ email u = email v /\ company u = company v /\
                spreadsheetId v = spreadsheetId u /\ folderId v = folderId u) /\
     (forall c, In c (calls twoVouchers) -> creation c = true ->
                In c (calls oneVoucher)))
    /\
    ((forall u, In u (db oneVoucher) ->
                ~ (email u = email v /\ company u = company v)) ->
     spreadsheetCreated (okEnv "sheet-2" "folder-2" "file-2" "65f000000000000000000002" [])
       = Ok (spreadsheetId v) /\
     folderCreated (okEnv "sheet-2" "folder-2" "file-2" "65f000000000000000000002" [])
       = Ok (folderId v) /\
     (exists l1 l2,
        calls twoVouchers =
          (l1 ++ provisioningCalls (company v) (spreadsheetId v) ++ l2)%list) /\
     (forall u, In u (db oneVoucher) ->
        spreadsheetCreated (okEnv "sheet-2" "folder-2" "file-2" "65f000000000000000000002" [])
          <> Ok (spreadsheetId u) ->
        folderCreated (okEnv "sheet-2" "folder-2" "file-2" "65f000000000000000000002" [])
          <> Ok (folderId u) ->
        spreadsheetId v <> spreadsheetId u /\ folderId v <> folderId u)).
Proof.
  assert (H : submit decimalNumber aliceSession
                (cashVoucher "Contentstack" JUndefined)
                (okEnv "sheet-2" "folder-2" "file-2" "65f000000000000000000002" []) oneVoucher
              = (Sent 200 secondBody, twoVouchers))
    by (vm_compute; reflexivity).
  split; [exact H|].
  exact (submit_provisioning decimalNumber _ _ _ _ _ _ H).
Defined.

Lemma submit_then_list_witness :
  submit decimalNumber aliceSession (cashVoucher "Contentstack" JUndefined)
    (okEnv "sheet-2" "folder-2" "file-2" "65f000000000000000000002" []) oneVoucher
    = (Sent 200 secondBody, twoVouchers) /\
  exists who w1 v fileId,
    authenticateGoogle aliceSession
      (okEnv "sheet-2" "folder-2" "file-2" "65f000000000000000000002" []) oneVoucher = (Ok who, w1) /\
    email v = user_email (user who) /\
    db twoVouchers = (db oneVoucher ++ [v])%list /\
    submittedAs (cashVoucher "Contentstack" JUndefined) v /\
    fileUploaded (okEnv "sheet-2" "folder-2" "file-2" "65f000000000000000000002" [])
      = Ok (fileId, pdfLink v) /\
    (forall link,
       fileUploaded (okEnv "sheet-2" "folder-2" "file-2" "65f000000000000000000002" [])
         = Ok (fileId, link) ->
       textTruthy link = true ->
       exists s, pdfLink v = Some s /\ s <> "") /\
    forall req2 env2 who2 w2,
      authenticateGoogle req2 env2 twoVouchers = (Ok who2, w2) ->
      user_email (user who2) = email v ->
      exists l,
        listVouchers req2 None None None env2 twoVouchers
          = (Sent 200 (VouchersBody l), w2) /\
        Permutation l (v :: ownedBy (email v) (db oneVoucher)) /\
        (ownedBy (email v) (db oneVoucher) = [] -> l = [v]).
Proof.
  assert (H : submit decimalNumber aliceSession
                (cashVoucher "Contentstack" JUndefined)
                (okEnv "sheet-2" "folder-2" "file-2" "65f000000000000000000002" []) oneVoucher
              = (Sent 200 secondBody, twoVouchers))
    by (vm_compute; reflexivity).
  split; [exact H|].
  exact (submit_then_list decimalNumber _ _ _ _ _ _ H).
Defined.

(** C8, as stated, fails twice.  After the second of two submissions of the
    same fields, the list of the owner holds two vouchers that carry the
    submitted fields, not exactly one.  And a submit is accepted also when
    the document store answers the upload without a link: the voucher then
    listed carries the submitted fields and no link. *)
Lemma submit_then_list_counterexample :
  (submit decimalNumber aliceSession (cashVoucher "Contentstack" JUndefined)
     (okEnv "sheet-2" "folder-2" "file-2" "65f000000000000000000002" []) oneVoucher
     = (Sent 200 secondBody, twoVouchers) /\
   exists v1 v2,
     listVouchers aliceSession None None None noRowEnv twoVouchers
       = (Sent 200 (VouchersBody [v1; v2]), twoVouchers) /\
     submittedAs (cashVoucher "Contentstack" JUndefined) v1 /\
     submittedAs (cashVoucher "Contentstack" JUndefined) v2 /\
     v1 <> v2)
  /\
  (exists body w' v,
     submit decimalNumber aliceSession (cashVoucher "Contentstack" JUndefined)
       noLinkEnv emptyWorld
       = (Sent 200 body, w') /\
     listVouchers aliceSession None None None noRowEnv w'
       = (Sent 200 (VouchersBody [v]), w') /\
     submittedAs (cashVoucher "Contentstack" JUndefined) v /\
     pdfLink v = None).
Proof.
  split.
  - split; [vm_compute; reflexivity|].
    eexists _, _. split; [vm_compute; reflexivity|].
    split; [|split].
    + unfold submittedAs. simpl. repeat split.
    + unfold submittedAs. simpl. repeat split.
    + discriminate.
  - eexists _, _, _. split; [vm_compute; reflexivity|].
    split; [vm_compute; reflexivity|].
    split; [unfold submittedAs; simpl; repeat split | reflexivity].
Qed.

Lemma edit_keeps_identity_witness :
  editVoucher decimalNumber hexObjectId aliceSession "65f000000000000000000001"
    (cashVoucher "Surfboard" JUndefined) rowEnv oneVoucher
    = (Sent 200
         (SheetBody "Voucher updated successfully!"
            "https://docs.google.com/spreadsheets/d/sheet-1/edit" "file-9"),
       snd (editVoucher decimalNumber hexObjectId aliceSession "65f000000000000000000001"
              (cashVoucher "Surfboard" JUndefined) rowEnv oneVoucher)) /\
  VoucherData.filter (cashVoucher "Surfboard" JUndefined)
    <> Some (company storedVoucher) /\
  exists v v' l1 l2 fileId link name doc,
    db oneVoucher = (l1 ++ v :: l2)%list /\
    db (snd (editVoucher decimalNumber hexObjectId aliceSession "65f000000000000000000001"
               (cashVoucher "Surfboard" JUndefined) rowEnv oneVoucher))
      = (l1 ++ v' :: l2)%list /\
    hexObjectId "65f000000000000000000001" = Some (_id v) /\
    _id v' = _id v /\
    email v' = email v /\
    company v' = company v /\
    voucherNo v' = voucherNo v /\
    spreadsheetId v' = spreadsheetId v /\
    folderId v' = folderId v /\
    fileUploaded rowEnv = Ok (fileId, link) /\
    v' = applyEdit (cashVoucher "Surfboard" JUndefined) link fileId v /\
    In (WriteFile name doc)
       (calls (snd (editVoucher decimalNumber hexObjectId aliceSession "65f000000000000000000001"
                      (cashVoucher "Surfboard" JUndefined) rowEnv oneVoucher))) /\
    In (FilesCreate name (folderId v) doc)
       (calls (snd (editVoucher decimalNumber hexObjectId aliceSession "65f000000000000000000001"
                      (cashVoucher "Surfboard" JUndefined) rowEnv oneVoucher))) /\
    doc_voucherNo doc = JNumber (voucherNo v).
Proof.
  assert (H : editVoucher decimalNumber hexObjectId aliceSession "65f000000000000000000001"
                (cashVoucher "Surfboard" JUndefined) rowEnv oneVoucher
              = (Sent 200
                   (SheetBody "Voucher updated successfully!"
                      "https://docs.google.com/spreadsheets/d/sheet-1/edit" "file-9"),
                 snd (editVoucher decimalNumber hexObjectId aliceSession "65f000000000000000000001"
                        (cashVoucher "Surfboard" JUndefined) rowEnv oneVoucher)))
    by (vm_compute; reflexivity).
  split; [exact H|]. split; [discriminate|].
  exact (edit_keeps_identity decimalNumber hexObjectId _ _ _ _ _ _ _ H).
Defined.

Lemma delete_ignores_company_witness :
  authenticateGoogle aliceSession noRowEnv twoCompanies
    = (Ok (mkIdentity alice None), twoCompanies) /\
  decimalNumber "1" = Some 1 /\
  List.filter (byNumberEmail 1 (user_email alice)) (db twoCompanies)
    = [storedVoucher; nth 1 (db twoCompanies) storedVoucher] /\
  company storedVoucher <> company (nth 1 (db twoCompanies) storedVoucher) /\
  deleteVoucher decimalNumber aliceSession "1" noRowEnv twoCompanies
    = (Sent 200 (MessageBody "Voucher deleted successfully!"),
       snd (deleteVoucher decimalNumber aliceSession "1" noRowEnv twoCompanies)) /\
  List.filter (byNumberEmail 1 (user_email alice))
    (db (snd (deleteVoucher decimalNumber aliceSession "1" noRowEnv twoCompanies)))
    = [nth 1 (db twoCompanies) storedVoucher] /\
  Permutation (db twoCompanies)
    (storedVoucher ::
       db (snd (deleteVoucher decimalNumber aliceSession "1" noRowEnv twoCompanies))) /\
  exists rows,
    rowsRead noRowEnv = Ok rows /\
    calls (snd (deleteVoucher decimalNumber aliceSession "1" noRowEnv twoCompanies))
      = (calls twoCompanies ++
           deleteCalls storedVoucher
             (locateRow decimalNumber (valuesOrEmpty rows) 1))%list.
Proof.
  assert (H1 : authenticateGoogle aliceSession noRowEnv twoCompanies
               = (Ok (mkIdentity alice None), twoCompanies)) by reflexivity.
  assert (H2 : decimalNumber "1" = Some 1) by reflexivity.
  assert (H3 : List.filter (byNumberEmail 1 (user_email alice)) (db twoCompanies)
               = [storedVoucher; nth 1 (db twoCompanies) storedVoucher])
    by (vm_compute; reflexivity).
  assert (H4 : company storedVoucher
               <> company (nth 1 (db twoCompanies) storedVoucher))
    by (vm_compute; discriminate).
  assert (H5 : deleteVoucher decimalNumber aliceSession "1" noRowEnv twoCompanies
               = (Sent 200 (MessageBody "Voucher deleted successfully!"),
                  snd (deleteVoucher decimalNumber aliceSession "1" noRowEnv
                         twoCompanies)))
    by (vm_compute; reflexivity).
  repeat (split; [assumption|]).
  exact (delete_ignores_company decimalNumber aliceSession "1" noRowEnv twoCompanies
           _ _ (mkIdentity alice None) twoCompanies 1 storedVoucher
           (nth 1 (db twoCompanies) storedVoucher) H1 H2 H3 H4 H5).
Defined.

(** * Examples for the further properties *)

Lemma failed_request_keeps_store_witness :
  ~ accepted (fst (handle decimalNumber hexObjectId bitcoinSubmit oneVoucher)) /\
  (db (snd (handle decimalNumber hexObjectId bitcoinSubmit oneVoucher)) = db oneVoucher \/
   exists m,
     fileUnlinked (envOf bitcoinSubmit) = Throw m /\
     fst (handle decimalNumber hexObjectId bitcoinSubmit oneVoucher) =
       Sent 500 (ErrorBody ("Failed to upload PDF or append to sheet: " ++ m)) /\
     exists v,
       db (snd (handle decimalNumber hexObjectId bitcoinSubmit oneVoucher))
         = (db oneVoucher ++ [v])%list).
Proof.
  assert (H : ~ accepted (fst (handle decimalNumber hexObjectId bitcoinSubmit oneVoucher)))
    by (intros [b Hb]; vm_compute in Hb; discriminate Hb).
  split; [exact H|].
  exact (failed_request_keeps_store decimalNumber hexObjectId bitcoinSubmit oneVoucher H).
Defined.

(** The exception of X1 at work: the second sample submission with a local
    file that cannot be removed is answered 500, and its voucher is stored
    under number 2 all the same. *)
Example unlink_failure_keeps_voucher :
  exists v,
    handle decimalNumber hexObjectId unlinkFailsSubmit oneVoucher =
      (Sent 500
         (ErrorBody
            "Failed to upload PDF or append to sheet: ENOENT: no such file or directory"),
       snd (handle decimalNumber hexObjectId unlinkFailsSubmit oneVoucher)) /\
    db (snd (handle decimalNumber hexObjectId unlinkFailsSubmit oneVoucher))
      = (db oneVoucher ++ [v])%list /\
    voucherNo v = 2.
Proof.
  eexists. split; [vm_compute; reflexivity|].
  split; [vm_compute; reflexivity | reflexivity].
Qed.

Lemma anonymous_request_has_no_effect_witness :
  anonymous (credentialsOf anonymousDelete) = true /\
  snd (handle decimalNumber hexObjectId anonymousDelete oneVoucher) = oneVoucher /\
  fst (handle decimalNumber hexObjectId anonymousDelete oneVoucher) =
    Sent 500 (ErrorBody
      "Failed to delete voucher: No authorization token provided").
Proof.
  assert (H : anonymous (credentialsOf anonymousDelete) = true) by reflexivity.
  split; [exact H|].
  exact (anonymous_request_has_no_effect decimalNumber hexObjectId anonymousDelete oneVoucher H).
Defined.

Lemma list_returns_own_matching_vouchers_witness :
  authenticateGoogle aliceSession noRowEnv twoCompanies
    = (Ok (mkIdentity alice None), twoCompanies) /\
  exists l,
    listVouchers aliceSession (Some "Surfboard") None None noRowEnv twoCompanies
      = (Sent 200 (VouchersBody l), twoCompanies) /\
    (forall v,
       In v l <->
       In v (db twoCompanies) /\ email v = user_email alice /\
       (textTruthy (Some "Surfboard") = true -> company v = "Surfboard") /\
       (textTruthy None = true -> date v = Some "")) /\
    Permutation l
      (List.filter (listQuery (user_email alice) (Some "Surfboard") None)
         (db twoCompanies)) /\
    db twoCompanies = db twoCompanies /\
    exists issued, calls twoCompanies = (calls twoCompanies ++ issued)%list /\
                   forallb (fun c => negb (mutation c)) issued = true.
Proof.
  assert (H : authenticateGoogle aliceSession noRowEnv twoCompanies
              = (Ok (mkIdentity alice None), twoCompanies)) by reflexivity.
  split; [exact H|].
  exact (list_returns_own_matching_vouchers aliceSession (Some "Surfboard")
           None None noRowEnv twoCompanies (mkIdentity alice None) twoCompanies H).
Defined.

Lemma list_is_sorted_witness :
  listVouchers aliceSession None None (Some "lowToHigh") noRowEnv twoAmounts
    = (Sent 200 (VouchersBody (rev (db twoAmounts))), twoAmounts) /\
  map amount (rev (db twoAmounts)) = [Some "1000"; Some "500"] /\
  (Some "lowToHigh" = Some "lowToHigh" ->
   Sorted (fun a b => textLeb (amount a) (amount b) = true) (rev (db twoAmounts))) /\
  (Some "lowToHigh" = Some "highToLow" ->
   Sorted (fun a b => textLeb (amount b) (amount a) = true) (rev (db twoAmounts))) /\
  (Some "lowToHigh" <> Some "lowToHigh" -> Some "lowToHigh" <> Some "highToLow" ->
   Sorted (fun a b => voucherNo a <= voucherNo b) (rev (db twoAmounts))).
Proof.
  assert (H : listVouchers aliceSession None None (Some "lowToHigh") noRowEnv
                twoAmounts
              = (Sent 200 (VouchersBody (rev (db twoAmounts))), twoAmounts))
    by (vm_compute; reflexivity).
  split; [exact H|]. split; [vm_compute; reflexivity|].
  exact (list_is_sorted aliceSession None None (Some "lowToHigh") noRowEnv
           twoAmounts (rev (db twoAmounts)) twoAmounts H).
Defined.

Lemma other_owners_untouched_witness :
  (forall who w1,
     authenticateGoogle (credentialsOf bobDelete) (envOf bobDelete) oneVoucher
       = (Ok who, w1) ->
     user_email (user who) <> "alice@example.com") /\
  ownedBy "alice@example.com" (db (snd (handle decimalNumber hexObjectId bobDelete oneVoucher)))
    = ownedBy "alice@example.com" (db oneVoucher).
Proof.
  assert (H : forall who w1,
            authenticateGoogle (credentialsOf bobDelete) (envOf bobDelete) oneVoucher
              = (Ok who, w1) ->
            user_email (user who) <> "alice@example.com").
  { intros who w1 Ha. simpl in Ha. injection Ha as <- _. discriminate. }
  split; [exact H|].
  exact (other_owners_untouched decimalNumber hexObjectId bobDelete oneVoucher
           "alice@example.com" H).
Defined.

Lemma numbers_stay_unique_witness :
  (forall r, In r submitSubmitDelete -> serverNumbered r = true) /\
  Z.of_nat (List.length submitSubmitDelete) <= twoTo53 /\
  uniqueNumbers (db (serve decimalNumber hexObjectId submitSubmitDelete emptyWorld)).
Proof.
  assert (H : forall r, In r submitSubmitDelete -> serverNumbered r = true)
    by (intros r [<-|[<-|[<-|[]]]]; reflexivity).
  assert (H' : Z.of_nat (List.length submitSubmitDelete) <= twoTo53)
    by (vm_compute; discriminate).
  split; [exact H|]. split; [exact H'|].
  exact (numbers_stay_unique decimalNumber hexObjectId submitSubmitDelete H H').
Defined.

Lemma stored_vouchers_well_formed_witness :
  In storedVoucher (db (serve decimalNumber hexObjectId [firstSubmit] emptyWorld)) /\
  wellFormed storedVoucher.
Proof.
  assert (H : In storedVoucher (db (serve decimalNumber hexObjectId [firstSubmit] emptyWorld)))
    by (vm_compute; left; reflexivity).
  split; [exact H|].
  exact (stored_vouchers_well_formed decimalNumber hexObjectId [firstSubmit] storedVoucher H).
Defined.

Lemma submit_unlisted_transaction_type_witness :
  validFilter (VoucherData.filter bitcoinVoucher) = true /\
  authenticateGoogle aliceSession (okEnv "sheet-2" "folder-2" "file-2" "65f000000000000000000002" [])
    oneVoucher = (Ok (mkIdentity alice None), oneVoucher) /\
  getUserResources (user_email alice) (orEmpty (VoucherData.filter bitcoinVoucher))
    (okEnv "sheet-2" "folder-2" "file-2" "65f000000000000000000002" []) oneVoucher
    = (Ok (mkResources "sheet-1" "folder-1" 2), oneVoucher) /\
  truthy (submittedNumber bitcoinVoucher (mkResources "sheet-1" "folder-1" 2)) = true /\
  pdfWritten (okEnv "sheet-2" "folder-2" "file-2" "65f000000000000000000002" []) = Ok tt /\
  fileUploaded (okEnv "sheet-2" "folder-2" "file-2" "65f000000000000000000002" [])
    = Ok ("file-2", Some "https://drive.example/file-2") /\
  rowAppended (okEnv "sheet-2" "folder-2" "file-2" "65f000000000000000000002" []) = Ok tt /\
  (forall t, VoucherData.transactionType bitcoinVoucher = Some t ->
             ~ In t transactionTypes) /\
  exists message w',
    submit decimalNumber aliceSession bitcoinVoucher
      (okEnv "sheet-2" "folder-2" "file-2" "65f000000000000000000002" []) oneVoucher
      = (Sent 500 (ErrorBody message), w') /\
    db w' = db oneVoucher /\
    calls w' =
      (calls oneVoucher ++
       submitCallsBeforeSave bitcoinVoucher (mkResources "sheet-1" "folder-1" 2)
         (Some "https://drive.example/file-2"))%list.
Proof.
  assert (H1 : validFilter (VoucherData.filter bitcoinVoucher) = true)
    by reflexivity.
  assert (H2 : authenticateGoogle aliceSession
                 (okEnv "sheet-2" "folder-2" "file-2" "65f000000000000000000002" []) oneVoucher
               = (Ok (mkIdentity alice None), oneVoucher)) by reflexivity.
  assert (H3 : getUserResources (user_email alice)
                 (orEmpty (VoucherData.filter bitcoinVoucher))
                 (okEnv "sheet-2" "folder-2" "file-2" "65f000000000000000000002" []) oneVoucher
               = (Ok (mkResources "sheet-1" "folder-1" 2), oneVoucher))
    by (vm_compute; reflexivity).
  assert (H4 : truthy (submittedNumber bitcoinVoucher
                         (mkResources "sheet-1" "folder-1" 2)) = true)
    by reflexivity.
  assert (H5 : pdfWritten (okEnv "sheet-2" "folder-2" "file-2" "65f000000000000000000002" []) = Ok tt)
    by reflexivity.
  assert (H6 : fileUploaded (okEnv "sheet-2" "folder-2" "file-2" "65f000000000000000000002" [])
               = Ok ("file-2", Some "https://drive.example/file-2"))
    by reflexivity.
  assert (H7 : rowAppended (okEnv "sheet-2" "folder-2" "file-2" "65f000000000000000000002" []) = Ok tt)
    by reflexivity.
  assert (H8 : forall t, VoucherData.transactionType bitcoinVoucher = Some t ->
                         ~ In t transactionTypes).
  { intros t [= <-] [E|[E|[E|[]]]]; discriminate E. }
  repeat (split; [assumption|]).
  exact (submit_unlisted_transaction_type decimalNumber aliceSession bitcoinVoucher
           _ oneVoucher (mkIdentity alice None) oneVoucher
           (mkResources "sheet-1" "folder-1" 2) oneVoucher _ _
           H1 H2 H3 H4 H5 H6 H7 H8).
Defined.

Lemma submit_zero_number_witness :
  validFilter (VoucherData.filter (cashVoucher "Contentstack" JUndefined)) = true /\
  authenticateGoogle aliceSession noRowEnv minusOne
    = (Ok (mkIdentity alice None), minusOne) /\
  getUserResources (user_email alice) "Contentstack" noRowEnv minusOne
    = (Ok (mkResources "sheet-1" "folder-1" 0), minusOne) /\
  truthy (VoucherData.voucherNo (cashVoucher "Contentstack" JUndefined)) = false /\
  nextNumber (user_email alice) "Contentstack" (db minusOne) = 0 /\
  submit decimalNumber aliceSession (cashVoucher "Contentstack" JUndefined)
    noRowEnv minusOne
    = (Sent 500 (ErrorBody "Failed to submit data: Voucher number is required"),
       minusOne) /\
  db minusOne = db minusOne.
Proof.
  assert (H1 : validFilter (VoucherData.filter (cashVoucher "Contentstack" JUndefined))
               = true) by reflexivity.
  assert (H2 : authenticateGoogle aliceSession noRowEnv minusOne
               = (Ok (mkIdentity alice None), minusOne)) by reflexivity.
  assert (H3 : getUserResources (user_email alice) "Contentstack" noRowEnv minusOne
               = (Ok (mkResources "sheet-1" "folder-1" 0), minusOne))
    by (vm_compute; reflexivity).
  assert (H4 : truthy (VoucherData.voucherNo (cashVoucher "Contentstack" JUndefined))
               = false) by reflexivity.
  assert (H5 : nextNumber (user_email alice) "Contentstack" (db minusOne) = 0)
    by (vm_compute; reflexivity).
  repeat (split; [assumption|]).
  exact (submit_zero_number decimalNumber aliceSession
           (cashVoucher "Contentstack" JUndefined) noRowEnv minusOne
           (mkIdentity alice None) minusOne (mkResources "sheet-1" "folder-1" 0)
           minusOne H1 H2 H3 H4 H5).
Defined.

Lemma edit_stores_fields_unchecked_witness :
  VoucherData.transactionType bitcoinVoucher = Some "Bitcoin" /\
  ~ In "Bitcoin" transactionTypes /\
  editVoucher decimalNumber hexObjectId aliceSession "65f000000000000000000001" bitcoinVoucher rowEnv oneVoucher
    = (Sent 200
         (SheetBody "Voucher updated successfully!"
            "https://docs.google.com/spreadsheets/d/sheet-1/edit" "file-9"),
       snd (editVoucher decimalNumber hexObjectId aliceSession "65f000000000000000000001" bitcoinVoucher rowEnv
              oneVoucher)) /\
  exists v',
    In v' (db (snd (editVoucher decimalNumber hexObjectId aliceSession "65f000000000000000000001" bitcoinVoucher
                      rowEnv oneVoucher))) /\
    hexObjectId "65f000000000000000000001" = Some (_id v') /\
    carriedBy bitcoinVoucher v'.
Proof.
  assert (H : editVoucher decimalNumber hexObjectId aliceSession "65f000000000000000000001" bitcoinVoucher rowEnv
                oneVoucher
              = (Sent 200
                   (SheetBody "Voucher updated successfully!"
                      "https://docs.google.com/spreadsheets/d/sheet-1/edit" "file-9"),
                 snd (editVoucher decimalNumber hexObjectId aliceSession "65f000000000000000000001" bitcoinVoucher
                        rowEnv oneVoucher)))
    by (vm_compute; reflexivity).
  split; [reflexivity|].
  split; [intros [E|[E|[E|[]]]]; discriminate E|].
  split; [exact H|].
  exact (edit_stores_fields_unchecked decimalNumber hexObjectId _ _ _ _ _ _ _ H).
Defined.

Lemma get_voucher_no_previews_submit_witness :
  getVoucherNo aliceSession (Some "Contentstack") noRowEnv oneVoucher
    = (Sent 200 (VoucherNoBody 2), oneVoucher) /\
  VoucherData.filter (cashVoucher "Contentstack" JUndefined) = Some "Contentstack" /\
  truthy (VoucherData.voucherNo (cashVoucher "Contentstack" JUndefined)) = false /\
  (forall who x who2 y,
     authenticateGoogle aliceSession noRowEnv oneVoucher = (Ok who, x) ->
     authenticateGoogle aliceSession
       (okEnv "sheet-2" "folder-2" "file-2" "65f000000000000000000002" []) oneVoucher = (Ok who2, y) ->
     user_email (user who2) = user_email (user who)) /\
  submit decimalNumber aliceSession (cashVoucher "Contentstack" JUndefined)
    (okEnv "sheet-2" "folder-2" "file-2" "65f000000000000000000002" []) oneVoucher
    = (Sent 200 secondBody, twoVouchers) /\
  db oneVoucher = db oneVoucher /\
  exists v, db twoVouchers = (db oneVoucher ++ [v])%list /\
            company v = "Contentstack" /\ voucherNo v = 2.
Proof.
  assert (H1 : getVoucherNo aliceSession (Some "Contentstack") noRowEnv oneVoucher
               = (Sent 200 (VoucherNoBody 2), oneVoucher))
    by (vm_compute; reflexivity).
  assert (H2 : VoucherData.filter (cashVoucher "Contentstack" JUndefined)
               = Some "Contentstack") by reflexivity.
  assert (H3 : truthy (VoucherData.voucherNo (cashVoucher "Contentstack" JUndefined))
               = false) by reflexivity.
  assert (H4 : forall who x who2 y,
            authenticateGoogle aliceSession noRowEnv oneVoucher = (Ok who, x) ->
            authenticateGoogle aliceSession
              (okEnv "sheet-2" "folder-2" "file-2" "65f000000000000000000002" []) oneVoucher
              = (Ok who2, y) ->
            user_email (user who2) = user_email (user who)).
  { intros who x who2 y Ha Hb. simpl in Ha, Hb.
    injection Ha as <- _. injection Hb as <- _. reflexivity. }
  assert (H5 : submit decimalNumber aliceSession
                 (cashVoucher "Contentstack" JUndefined)
                 (okEnv "sheet-2" "folder-2" "file-2" "65f000000000000000000002" []) oneVoucher
               = (Sent 200 secondBody, twoVouchers))
    by (vm_compute; reflexivity).
  repeat (split; [assumption|]).
  exact (get_voucher_no_previews_submit decimalNumber aliceSession "Contentstack"
           noRowEnv oneVoucher 2 oneVoucher aliceSession
           (cashVoucher "Contentstack" JUndefined)
           (okEnv "sheet-2" "folder-2" "file-2" "65f000000000000000000002" []) secondBody twoVouchers
           H1 H2 H3 H4 H5).
Defined.

Lemma get_voucher_no_provisions_unrecorded_witness :
  validFilter (Some "Surfboard") = true /\
  authenticateGoogle aliceSession noRowEnv oneVoucher
    = (Ok (mkIdentity alice None), oneVoucher) /\
  (forall v, In v (db oneVoucher) ->
             ~ (email v = user_email alice /\ company v = "Surfboard")) /\
  spreadsheetCreated noRowEnv = Ok "sheet-9" /\
  headerWritten noRowEnv = Ok tt /\
  folderCreated noRowEnv = Ok "folder-9" /\
  exists w',
    getVoucherNo aliceSession (Some "Surfboard") noRowEnv oneVoucher
      = (Sent 200 (VoucherNoBody 1), w') /\
    db w' = db oneVoucher /\
    calls w' = (calls oneVoucher ++ provisioningCalls "Surfboard" "sheet-9")%list /\
    forall req2 voucherData env2 body w2 who2 x,
      VoucherData.filter voucherData = Some "Surfboard" ->
      authenticateGoogle req2 env2 w' = (Ok who2, x) ->
      user_email (user who2) = user_email alice ->
      submit decimalNumber req2 voucherData env2 w' = (Sent 200 body, w2) ->
      exists v, db w2 = (db oneVoucher ++ [v])%list /\
                spreadsheetCreated env2 = Ok (spreadsheetId v) /\
                folderCreated env2 = Ok (folderId v).
Proof.
  assert (H1 : validFilter (Some "Surfboard") = true) by reflexivity.
  assert (H2 : authenticateGoogle aliceSession noRowEnv oneVoucher
               = (Ok (mkIdentity alice None), oneVoucher)) by reflexivity.
  assert (H3 : forall v, In v (db oneVoucher) ->
                 ~ (email v = user_email alice /\ company v = "Surfboard")).
  { intros v Hv [_ Hc]. vm_compute in Hv. destruct Hv as [<-|[]]. discriminate Hc. }
  assert (H4 : spreadsheetCreated noRowEnv = Ok "sheet-9") by reflexivity.
  assert (H5 : headerWritten noRowEnv = Ok tt) by reflexivity.
  assert (H6 : folderCreated noRowEnv = Ok "folder-9") by reflexivity.
  repeat (split; [assumption|]).
  exact (get_voucher_no_provisions_unrecorded decimalNumber aliceSession "Surfboard"
           noRowEnv oneVoucher (mkIdentity alice None) oneVoucher
           "sheet-9" "folder-9" H1 H2 H3 H4 H5 H6).
Defined.

Lemma edit_upload_failure_loses_document_witness :
  validFilter (VoucherData.filter (cashVoucher "Contentstack" JUndefined)) = true /\
  authenticateGoogle aliceSession uploadFailsEnv oneVoucher
    = (Ok (mkIdentity alice None), oneVoucher) /\
  hexObjectId "65f000000000000000000001" = Some "65f000000000000000000001" /\
  findOne (byIdEmail "65f000000000000000000001" (user_email alice)) (db oneVoucher) = Some storedVoucher /\
  pdfWritten uploadFailsEnv = Ok tt /\
  textTruthy (pdfFileId storedVoucher) = true /\
  fileDeleted uploadFailsEnv = Ok tt /\
  fileUploaded uploadFailsEnv = Throw "quota exceeded" /\
  exists w',
    editVoucher decimalNumber hexObjectId aliceSession "65f000000000000000000001"
      (cashVoucher "Contentstack" JUndefined) uploadFailsEnv oneVoucher
      = (Sent 500 (ErrorBody ("Failed to update voucher: " ++ "quota exceeded")),
         w') /\
    db w' = db oneVoucher /\
    In storedVoucher (db w') /\
    In (FilesDelete (orEmpty (pdfFileId storedVoucher))) (calls w') /\
    forall c, In c (calls w') ->
      match c with
      | ValuesUpdate _ _ _ | ValuesGet _ _ => In c (calls oneVoucher)
      | _ => True
      end.
Proof.
  assert (H1 : validFilter (VoucherData.filter (cashVoucher "Contentstack" JUndefined))
               = true) by reflexivity.
  assert (H2 : authenticateGoogle aliceSession uploadFailsEnv oneVoucher
               = (Ok (mkIdentity alice None), oneVoucher)) by reflexivity.
  assert (H3 : findOne (byIdEmail "65f000000000000000000001" (user_email alice)) (db oneVoucher)
               = Some storedVoucher) by (vm_compute; reflexivity).
  assert (H3' : hexObjectId "65f000000000000000000001"
                = Some "65f000000000000000000001") by (vm_compute; reflexivity).
  assert (H4 : pdfWritten uploadFailsEnv = Ok tt) by reflexivity.
  assert (H5 : textTruthy (pdfFileId storedVoucher) = true) by reflexivity.
  assert (H6 : fileDeleted uploadFailsEnv = Ok tt) by reflexivity.
  assert (H7 : fileUploaded uploadFailsEnv = Throw "quota exceeded") by reflexivity.
  repeat (split; [assumption|]).
  exact (edit_upload_failure_loses_document decimalNumber hexObjectId aliceSession "65f000000000000000000001"
           (cashVoucher "Contentstack" JUndefined) uploadFailsEnv oneVoucher
           (mkIdentity alice None) oneVoucher "65f000000000000000000001"
           storedVoucher "quota exceeded"
           H1 H2 H3' H3 H4 H5 H6 H7).
Defined.

Lemma delete_unknown_number_witness :
  authenticateGoogle aliceSession noRowEnv oneVoucher
    = (Ok (mkIdentity alice None), oneVoucher) /\
  decimalNumber "7" = Some 7 /\
  (forall v, In v (db oneVoucher) ->
             ~ (voucherNo v = 7 /\ email v = user_email alice)) /\
  deleteVoucher decimalNumber aliceSession "7" noRowEnv oneVoucher
    = (Sent 404 (ErrorBody "Voucher not found"), oneVoucher).
Proof.
  assert (H1 : authenticateGoogle aliceSession noRowEnv oneVoucher
               = (Ok (mkIdentity alice None), oneVoucher)) by reflexivity.
  assert (H2 : decimalNumber "7" = Some 7) by reflexivity.
  assert (H3 : forall v, In v (db oneVoucher) ->
                 ~ (voucherNo v = 7 /\ email v = user_email alice)).
  { intros v Hv [Hn _]. vm_compute in Hv. destruct Hv as [<-|[]]. discriminate Hn. }
  repeat (split; [assumption|]).
  exact (proj1 (delete_unknown_number decimalNumber aliceSession "7" noRowEnv
                  oneVoucher (mkIdentity alice None) oneVoucher H1) 7 H2 H3).
Defined.

Lemma edit_overwrites_first_matching_row_witness :
  editVoucher decimalNumber hexObjectId aliceSession "65f000000000000000000001"
    (cashVoucher "Surfboard" JUndefined) rowEnv oneVoucher
    = (Sent 200
         (SheetBody "Voucher updated successfully!"
            "https://docs.google.com/spreadsheets/d/sheet-1/edit" "file-9"),
       snd (editVoucher decimalNumber hexObjectId aliceSession "65f000000000000000000001"
              (cashVoucher "Surfboard" JUndefined) rowEnv oneVoucher)) /\
  exists v rows i row cells,
    In v (db oneVoucher) /\
    hexObjectId "65f000000000000000000001" = Some (_id v) /\
    rowsRead rowEnv = Ok rows /\
    nth_error (valuesOrEmpty rows) i = Some row /\
    looseEqNumber decimalNumber (firstCell row) (voucherNo v) = true /\
    row <> [] /\
    (forall j earlier, (j < i)%nat ->
       nth_error (valuesOrEmpty rows) j = Some earlier ->
       looseEqNumber decimalNumber (firstCell earlier) (voucherNo v) = false) /\
    In (ValuesUpdate (spreadsheetId v)
          (RowRange (orEmpty (VoucherData.filter (cashVoucher "Surfboard" JUndefined)))
             (Z.of_nat i + 2))
          cells)
       (calls (snd (editVoucher decimalNumber hexObjectId aliceSession "65f000000000000000000001"
                      (cashVoucher "Surfboard" JUndefined) rowEnv oneVoucher))) /\
    nth_error cells 0 = Some (JNumber (voucherNo v)).
Proof.
  assert (H : editVoucher decimalNumber hexObjectId aliceSession "65f000000000000000000001"
                (cashVoucher "Surfboard" JUndefined) rowEnv oneVoucher
              = (Sent 200
                   (SheetBody "Voucher updated successfully!"
                      "https://docs.google.com/spreadsheets/d/sheet-1/edit" "file-9"),
                 snd (editVoucher decimalNumber hexObjectId aliceSession "65f000000000000000000001"
                        (cashVoucher "Surfboard" JUndefined) rowEnv oneVoucher)))
    by (vm_compute; reflexivity).
  split; [exact H|].
  exact (edit_overwrites_first_matching_row decimalNumber hexObjectId _ _ _ _ _ _ _ H).
Defined.

Lemma delete_then_list_witness :
  deleteVoucher decimalNumber aliceSession "1" noRowEnv twoVouchers
    = (Sent 200 (MessageBody "Voucher deleted successfully!"),
       snd (deleteVoucher decimalNumber aliceSession "1" noRowEnv twoVouchers)) /\
  exists who w1 v,
    authenticateGoogle aliceSession noRowEnv twoVouchers = (Ok who, w1) /\
    decimalNumber "1" = Some (voucherNo v) /\
    email v = user_email (user who) /\
    In v (db twoVouchers) /\
    forall req2 env2 who2 w2,
      authenticateGoogle req2 env2
        (snd (deleteVoucher decimalNumber aliceSession "1" noRowEnv twoVouchers))
        = (Ok who2, w2) ->
      user_email (user who2) = user_email (user who) ->
      exists l,
        listVouchers req2 None None None env2
          (snd (deleteVoucher decimalNumber aliceSession "1" noRowEnv twoVouchers))
          = (Sent 200 (VouchersBody l), w2) /\
        Permutation (v :: l) (ownedBy (user_email (user who)) (db twoVouchers)).
Proof.
  assert (H : deleteVoucher decimalNumber aliceSession "1" noRowEnv twoVouchers
              = (Sent 200 (MessageBody "Voucher deleted successfully!"),
                 snd (deleteVoucher decimalNumber aliceSession "1" noRowEnv
                        twoVouchers)))
    by (vm_compute; reflexivity).
  split; [exact H|].
  exact (delete_then_list decimalNumber _ _ _ _ _ _ H).
Defined.

Lemma submit_then_delete_witness :
  submit decimalNumber aliceSession (cashVoucher "Contentstack" JUndefined)
    (okEnv "sheet-2" "folder-2" "file-2" "65f000000000000000000002" []) oneVoucher
    = (Sent 200 secondBody, twoVouchers) /\
  exists v,
    db twoVouchers = (db oneVoucher ++ [v])%list /\
    forall req2 param env2 body2 w2 who2 x,
      (forall u, In u (db oneVoucher) ->
                 ~ (voucherNo u = voucherNo v /\ email u = email v)) ->
      decimalNumber param = Some (voucherNo v) ->
      authenticateGoogle req2 env2 twoVouchers = (Ok who2, x) ->
      user_email (user who2) = email v ->
      deleteVoucher decimalNumber req2 param env2 twoVouchers = (Sent 200 body2, w2) ->
      db w2 = db oneVoucher.
Proof.
  assert (H : submit decimalNumber aliceSession
                (cashVoucher "Contentstack" JUndefined)
                (okEnv "sheet-2" "folder-2" "file-2" "65f000000000000000000002" []) oneVoucher
              = (Sent 200 secondBody, twoVouchers))
    by (vm_compute; reflexivity).
  split; [exact H|].
  exact (submit_then_delete decimalNumber _ _ _ _ _ _ H).
Defined.

Lemma submit_number_as_text_witness :
  VoucherData.voucherNo (cashVoucher "Contentstack" (JString "7")) = JString "7" /\
  "7" <> "" /\
  submit decimalNumber aliceSession (cashVoucher "Contentstack" (JString "7"))
    (okEnv "sheet-2" "folder-2" "file-2" "65f000000000000000000002" []) oneVoucher
    = (Sent 200 secondBody,
       snd (submit decimalNumber aliceSession
              (cashVoucher "Contentstack" (JString "7"))
              (okEnv "sheet-2" "folder-2" "file-2" "65f000000000000000000002" []) oneVoucher)) /\
  exists v sid range cells,
    db (snd (submit decimalNumber aliceSession
               (cashVoucher "Contentstack" (JString "7"))
               (okEnv "sheet-2" "folder-2" "file-2" "65f000000000000000000002" []) oneVoucher))
      = (db oneVoucher ++ [v])%list /\
    decimalNumber "7" = Some (voucherNo v) /\
    In (ValuesAppend sid range cells)
       (calls (snd (submit decimalNumber aliceSession
                      (cashVoucher "Contentstack" (JString "7"))
                      (okEnv "sheet-2" "folder-2" "file-2" "65f000000000000000000002" []) oneVoucher))) /\
    nth_error cells 0 = Some (JString "7").
Proof.
  assert (H1 : VoucherData.voucherNo (cashVoucher "Contentstack" (JString "7"))
               = JString "7") by reflexivity.
  assert (H2 : "7" <> "") by discriminate.
  assert (H3 : submit decimalNumber aliceSession
                 (cashVoucher "Contentstack" (JString "7"))
                 (okEnv "sheet-2" "folder-2" "file-2" "65f000000000000000000002" []) oneVoucher
               = (Sent 200 secondBody,
                  snd (submit decimalNumber aliceSession
                         (cashVoucher "Contentstack" (JString "7"))
                         (okEnv "sheet-2" "folder-2" "file-2" "65f000000000000000000002" []) oneVoucher)))
    by (vm_compute; reflexivity).
  repeat (split; [assumption|]).
  exact (submit_number_as_text decimalNumber aliceSession
           (cashVoucher "Contentstack" (JString "7")) _ oneVoucher _ _ "7"
           H1 H2 H3).
Defined.

Lemma submit_calls_in_order_witness :
  validFilter (VoucherData.filter (cashVoucher "Contentstack" JUndefined)) = true /\
  authenticateGoogle aliceSession unlinkFailsEnv oneVoucher
    = (Ok (mkIdentity alice None), oneVoucher) /\
  getUserResources (user_email alice)
    (orEmpty (VoucherData.filter (cashVoucher "Contentstack" JUndefined)))
    unlinkFailsEnv oneVoucher
    = (Ok (mkResources "sheet-1" "folder-1" 2), oneVoucher) /\
  submit decimalNumber aliceSession (cashVoucher "Contentstack" JUndefined)
    unlinkFailsEnv oneVoucher
    = (fst (handle decimalNumber hexObjectId unlinkFailsSubmit oneVoucher),
       snd (handle decimalNumber hexObjectId unlinkFailsSubmit oneVoucher)) /\
  exists fileId link k,
    calls (snd (handle decimalNumber hexObjectId unlinkFailsSubmit oneVoucher))
      = (calls oneVoucher ++
         firstn k (submitCalls (cashVoucher "Contentstack" JUndefined)
                     (mkResources "sheet-1" "folder-1" 2) fileId link))%list /\
    (k <= 4)%nat /\
    (accepted (fst (handle decimalNumber hexObjectId unlinkFailsSubmit oneVoucher)) <->
     k = 4%nat /\ fileUnlinked unlinkFailsEnv = Ok tt) /\
    (db (snd (handle decimalNumber hexObjectId unlinkFailsSubmit oneVoucher))
       <> db oneVoucher -> k = 4%nat) /\
    ((k < 4)%nat ->
     db (snd (handle decimalNumber hexObjectId unlinkFailsSubmit oneVoucher))
       = db oneVoucher) /\
    (k = 4%nat ->
     exists v,
       db (snd (handle decimalNumber hexObjectId unlinkFailsSubmit oneVoucher))
         = (db oneVoucher ++ [v])%list) /\
    (forall m, k = 4%nat -> fileUnlinked unlinkFailsEnv = Throw m ->
       fst (handle decimalNumber hexObjectId unlinkFailsSubmit oneVoucher) =
         Sent 500
           (ErrorBody ("Failed to upload PDF or append to sheet: " ++ m))).
Proof.
  assert (H1 : validFilter (VoucherData.filter (cashVoucher "Contentstack" JUndefined))
               = true) by reflexivity.
  assert (H2 : authenticateGoogle aliceSession unlinkFailsEnv oneVoucher
               = (Ok (mkIdentity alice None), oneVoucher)) by reflexivity.
  assert (H3 : getUserResources (user_email alice)
                 (orEmpty (VoucherData.filter (cashVoucher "Contentstack" JUndefined)))
                 unlinkFailsEnv oneVoucher
               = (Ok (mkResources "sheet-1" "folder-1" 2), oneVoucher))
    by (vm_compute; reflexivity).
  assert (H4 : submit decimalNumber aliceSession
                 (cashVoucher "Contentstack" JUndefined) unlinkFailsEnv oneVoucher
               = (fst (handle decimalNumber hexObjectId unlinkFailsSubmit oneVoucher),
                  snd (handle decimalNumber hexObjectId unlinkFailsSubmit oneVoucher)))
    by (vm_compute; reflexivity).
  repeat (split; [assumption|]).
  exact (submit_calls_in_order decimalNumber aliceSession
           (cashVoucher "Contentstack" JUndefined) _
           oneVoucher (mkIdentity alice None) oneVoucher
           (mkResources "sheet-1" "folder-1" 2) oneVoucher _ _ H1 H2 H3 H4).
Defined.

Lemma delete_clear_failure_loses_document_witness :
  authenticateGoogle aliceSession clearFailsEnv oneVoucher
    = (Ok (mkIdentity alice None), oneVoucher) /\
  decimalNumber "1" = Some (voucherNo storedVoucher) /\
  findOne (byNumberEmail (voucherNo storedVoucher) (user_email alice)) (db oneVoucher)
    = Some storedVoucher /\
  textTruthy (pdfFileId storedVoucher) = true /\
  fileDeleted clearFailsEnv = Ok tt /\
  rowsRead clearFailsEnv = Ok (Some [[]; [JString "1"]]) /\
  locateRow decimalNumber (valuesOrEmpty (Some [[]; [JString "1"]]))
    (voucherNo storedVoucher) = Some 1%nat /\
  rowCleared clearFailsEnv = Throw "sheet is protected" /\
  exists w',
    deleteVoucher decimalNumber aliceSession "1" clearFailsEnv oneVoucher
      = (Sent 500 (ErrorBody ("Failed to delete voucher: " ++ "sheet is protected")),
         w') /\
    db w' = db oneVoucher /\
    In storedVoucher (db w') /\
    calls w' =
      (calls oneVoucher ++
       [ FilesDelete (orEmpty (pdfFileId storedVoucher));
         ValuesGet (spreadsheetId storedVoucher) (DataRange (company storedVoucher));
         ValuesClear (spreadsheetId storedVoucher)
           (RowRange (company storedVoucher) (Z.of_nat 1 + 2)) ])%list.
Proof.
  assert (H1 : authenticateGoogle aliceSession clearFailsEnv oneVoucher
               = (Ok (mkIdentity alice None), oneVoucher)) by reflexivity.
  assert (H2 : decimalNumber "1" = Some (voucherNo storedVoucher)) by reflexivity.
  assert (H3 : findOne (byNumberEmail (voucherNo storedVoucher) (user_email alice))
                 (db oneVoucher) = Some storedVoucher)
    by (vm_compute; reflexivity).
  assert (H4 : textTruthy (pdfFileId storedVoucher) = true) by reflexivity.
  assert (H5 : fileDeleted clearFailsEnv = Ok tt) by reflexivity.
  assert (H6 : rowsRead clearFailsEnv = Ok (Some [[]; [JString "1"]]))
    by reflexivity.
  assert (H7 : locateRow decimalNumber (valuesOrEmpty (Some [[]; [JString "1"]]))
                 (voucherNo storedVoucher) = Some 1%nat) by reflexivity.
  assert (H8 : rowCleared clearFailsEnv = Throw "sheet is protected")
    by reflexivity.
  repeat (split; [assumption|]).
  exact (delete_clear_failure_loses_document decimalNumber aliceSession "1"
           clearFailsEnv oneVoucher (mkIdentity alice None) oneVoucher
           storedVoucher _ 1%nat _ H1 H2 H3 H4 H5 H6 H7 H8).
Defined.

Lemma submit_folder_failure_orphans_spreadsheet_witness :
  validFilter (VoucherData.filter (cashVoucher "Contentstack" JUndefined)) = true /\
  authenticateGoogle aliceSession folderFailsEnv emptyWorld
    = (Ok (mkIdentity alice None), emptyWorld) /\
  (forall v, In v (db emptyWorld) ->
             ~ (email v = user_email alice /\
                company v = orEmpty (VoucherData.filter
                                       (cashVoucher "Contentstack" JUndefined)))) /\
  spreadsheetCreated folderFailsEnv = Ok "sheet-9" /\
  headerWritten folderFailsEnv = Ok tt /\
  folderCreated folderFailsEnv = Throw "quota exceeded" /\
  exists w',
    submit decimalNumber aliceSession (cashVoucher "Contentstack" JUndefined)
      folderFailsEnv emptyWorld
      = (Sent 500 (ErrorBody ("Failed to submit data: " ++ "quota exceeded")), w') /\
    db w' = db emptyWorld /\
    calls w' =
      (calls emptyWorld ++
       provisioningCalls
         (orEmpty (VoucherData.filter (cashVoucher "Contentstack" JUndefined)))
         "sheet-9")%list.
Proof.
  assert (H1 : validFilter (VoucherData.filter (cashVoucher "Contentstack" JUndefined))
               = true) by reflexivity.
  assert (H2 : authenticateGoogle aliceSession folderFailsEnv emptyWorld
               = (Ok (mkIdentity alice None), emptyWorld)) by reflexivity.
  assert (H3 : forall v, In v (db emptyWorld) ->
                 ~ (email v = user_email alice /\
                    company v = orEmpty (VoucherData.filter
                                           (cashVoucher "Contentstack" JUndefined))))
    by (intros v []).
  assert (H4 : spreadsheetCreated folderFailsEnv = Ok "sheet-9") by reflexivity.
  assert (H5 : headerWritten folderFailsEnv = Ok tt) by reflexivity.
  assert (H6 : folderCreated folderFailsEnv = Throw "quota exceeded")
    by reflexivity.
  repeat (split; [assumption|]).
  exact (submit_folder_failure_orphans_spreadsheet decimalNumber aliceSession
           (cashVoucher "Contentstack" JUndefined) folderFailsEnv emptyWorld
           (mkIdentity alice None) emptyWorld "sheet-9" "quota exceeded"
           H1 H2 H3 H4 H5 H6).
Defined.
